(** * Knowledge-graph RAG backend: embedding, generation and graph services

    A shallow embedding of the TypeScript services

    - [EmbeddingService]   (backend/src/services/EmbeddingService.ts)
    - [AIProviderService]  (backend/src/services/AIProviderService.ts)
    - [KnowledgeGraphService] (backend/src/services/KnowledgeGraphService.ts)
    - the retrieval branch of [ChatController.sendMessage]

    together with the document store (Mongoose models) and the vector index
    (Qdrant collection) they talk to.

    JavaScript [number]s are IEEE-754 doubles.  The algorithms are written
    once over a small interface [Number] and instantiated twice: at Rocq's
    primitive binary64 floats, which is what the program runs on and which
    computes, and at the real numbers, where the algebraic laws of cosine
    similarity hold exactly.

    Asynchronous functions are functions in a state monad over [World]:
    the two stores, the id supplies and a log of provider requests.  An
    exception leaves the state as it was when it was thrown.  The stores
    themselves do not fail; what can fail is a provider call, schema
    validation, the unique index on relations and a vector that does not
    fit the collection.  Time stamps and logging are left out. *)

From Stdlib Require Import ZArith List String Ascii Bool Lia DecimalString.
From Stdlib Require Import Floats Uint63 Reals Lra.
Import ListNotations.

Set Implicit Arguments.
Local Open Scope string_scope.
Local Open Scope list_scope.

(* ================================================================== *)
(** ** Numbers *)

(** The operations on [number] that the services use. *)
Class Number (T : Type) : Type := {
  nzero : T;
  nadd : T -> T -> T;
  nsub : T -> T -> T;
  nmul : T -> T -> T;
  ndiv : T -> T -> T;
  nsqrt : T -> T;
  neqb : T -> T -> bool;      (* [===] on numbers *)
  nltb : T -> T -> bool;      (* [<] *)
  nisnan : T -> bool;
  nofZ : Z -> T               (* integer literals, array lengths *)
}.

(** What the similarity laws need from the arithmetic. *)
Class NumberLaws {T : Type} (N : Number T) : Prop := {
  nmul_comm : forall x y : T, nmul x y = nmul y x;
  neqb_zero_refl : neqb nzero nzero = true;
  neqb_zero_add : forall x y : T,
      neqb x nzero = true -> neqb y nzero = true -> neqb (nadd x y) nzero = true;
  neqb_zero_square : forall x : T, neqb x nzero = true -> neqb (nmul x x) nzero = true;
  neqb_zero_sqrt : forall x : T, neqb x nzero = true -> neqb (nsqrt x) nzero = true
}.

Section NumberOps.
Context {T : Type} `{Number T}.

(** A decimal literal [m / 10^e], e.g. [ndec 7 1] for [0.7]. *)
Definition ndec (m : Z) (e : Z) : T := ndiv (nofZ m) (nofZ (10 ^ e)).

Definition ngtb (x y : T) : bool := nltb y x.
Definition nleb (x y : T) : bool := nltb x y || neqb x y.
Definition ngeb (x y : T) : bool := nleb y x.

(** JavaScript truthiness of a number: [0], [-0] and [NaN] are falsy. *)
Definition truthy (x : T) : bool := negb (neqb x nzero) && negb (nisnan x).

(** [x || d] on an optional number. *)
Definition orNum (x : option T) (d : T) : T :=
  match x with
  | Some v => if truthy v then v else d
  | None => d
  end.
End NumberOps.

(** *** IEEE-754 binary64 *)

Definition float_ofZ (z : Z) : float :=
  match z with
  | Z0 => PrimFloat.zero
  | Zpos _ => PrimFloat.of_uint63 (Uint63.of_Z z)
  | Zneg p => PrimFloat.opp (PrimFloat.of_uint63 (Uint63.of_Z (Zpos p)))
  end.

#[export] Instance float_Number : Number float := {|
  nzero := PrimFloat.zero;
  nadd := PrimFloat.add;
  nsub := PrimFloat.sub;
  nmul := PrimFloat.mul;
  ndiv := PrimFloat.div;
  nsqrt := PrimFloat.sqrt;
  neqb := PrimFloat.eqb;
  nltb := PrimFloat.ltb;
  nisnan := PrimFloat.is_nan;
  nofZ := float_ofZ
|}.

(** *** Exact real arithmetic *)

Definition Reqb (x y : R) : bool := if Req_dec_T x y then true else false.
Definition Rltb (x y : R) : bool := if Rlt_dec x y then true else false.

#[export] Instance R_Number : Number R := {|
  nzero := 0%R;
  nadd := Rplus;
  nsub := Rminus;
  nmul := Rmult;
  ndiv := Rdiv;
  nsqrt := sqrt;
  neqb := Reqb;
  nltb := Rltb;
  nisnan := fun _ => false;
  nofZ := IZR
|}.

(* ================================================================== *)
(** ** Results of fallible code *)

(** A JavaScript [Error] is represented by its [message]. *)
Inductive Result (A : Type) : Type :=
| Ok (a : A)
| Throw (message : string).
Arguments Ok {A} a.
Arguments Throw {A} message.

(* ================================================================== *)
(** ** EmbeddingService.calculateSimilarity *)

Section Similarity.
Context {T : Type} `{Number T}.

(** The three accumulators of the loop: [dotProduct], [norm1], [norm2]. *)
Record Acc : Type := mkAcc { dotProduct : T; norm1 : T; norm2 : T }.

Definition acc0 : Acc := mkAcc nzero nzero nzero.

(** One iteration of the [for] loop at index [i]. *)
Definition similarityStep (a : Acc) (x y : T) : Acc :=
  mkAcc (nadd (dotProduct a) (nmul x y))
        (nadd (norm1 a) (nmul x x))
        (nadd (norm2 a) (nmul y y)).

(** The loop, run over both arrays in lockstep. *)
Fixpoint similarityLoop (a : Acc) (e1 e2 : list T) : Acc :=
  match e1, e2 with
  | x :: e1', y :: e2' => similarityLoop (similarityStep a x y) e1' e2'
  | _, _ => a
  end.

Definition calculateSimilarity (embedding1 embedding2 : list T) : Result T :=
  if negb (Nat.eqb (List.length embedding1) (List.length embedding2)) then
    Throw "Embeddings must have the same length"
  else
    let a := similarityLoop acc0 embedding1 embedding2 in
    let n1 := nsqrt (norm1 a) in
    let n2 := nsqrt (norm2 a) in
    if neqb n1 nzero || neqb n2 nzero then Ok nzero
    else Ok (ndiv (dotProduct a) (nmul n1 n2)).
End Similarity.

Arguments Acc : clear implicits.

(* ================================================================== *)
(** ** JavaScript strings *)

(** Strings are sequences of code units; the services only use the
    operations below. *)

Definition newline : string := String (ascii_of_nat 10) EmptyString.

(** [x || d] on an optional string: [undefined] and [""] are falsy. *)
Definition orStr (x : option string) (d : string) : string :=
  match x with
  | Some EmptyString => d
  | Some s => s
  | None => d
  end.

(** Truthiness of an optional string. *)
Definition truthyStr (x : option string) : bool :=
  match x with
  | Some EmptyString => false
  | Some _ => true
  | None => false
  end.

(** [hay.includes(needle)]. *)
Fixpoint includes (hay needle : string) : bool :=
  String.prefix needle hay ||
  match hay with
  | EmptyString => false
  | String _ hay' => includes hay' needle
  end.

(** White space as [String.prototype.trim] sees it (one code unit each). *)
Definition isWhiteSpace (c : ascii) : bool :=
  let n := nat_of_ascii c in
  Nat.eqb n 9 || Nat.eqb n 10 || Nat.eqb n 11 || Nat.eqb n 12 ||
  Nat.eqb n 13 || Nat.eqb n 32 || Nat.eqb n 160.

Fixpoint trimStart (s : string) : string :=
  match s with
  | String c s' => if isWhiteSpace c then trimStart s' else s
  | EmptyString => EmptyString
  end.

(** Drops trailing white space; the boolean-free formulation keeps a
    character when it is not white space or something kept follows it. *)
Fixpoint trimEnd (s : string) : string :=
  match s with
  | EmptyString => EmptyString
  | String c s' =>
      match trimEnd s' with
      | EmptyString => if isWhiteSpace c then EmptyString else String c EmptyString
      | t => String c t
      end
  end.

Definition trim (s : string) : string := trimEnd (trimStart s).

(** [arr.join(sep)]. *)
Definition join (sep : string) (l : list string) : string := String.concat sep l.

(** The character class [[.!?]]. *)
Definition isTerminator (c : ascii) : bool :=
  Ascii.eqb c "."%char || Ascii.eqb c "!"%char || Ascii.eqb c "?"%char.

(** [s.split(/[.!?]+/)]: [cur] is the piece being read, [inRun] tells
    whether the previous character was a terminator. *)
Fixpoint splitRun (s : string) (cur : string) (inRun : bool) : list string :=
  match s with
  | EmptyString => [cur]
  | String c s' =>
      if isTerminator c then
        if inRun then splitRun s' cur true
        else cur :: splitRun s' EmptyString true
      else splitRun s' (cur ++ String c EmptyString) false
  end.

Definition splitSentences (content : string) : list string :=
  splitRun content EmptyString false.

(* ================================================================== *)
(** ** A state monad in which exceptions keep the state *)

(** A [throw] does not undo the writes made before it: the state reached
    at the point of failure is what a [catch] handler, or the caller,
    sees. *)
Definition M (S A : Type) : Type := S -> Result A * S.

Definition ret {S A} (a : A) : M S A := fun s => (Ok a, s).

Definition throw {S A} (message : string) : M S A := fun s => (Throw message, s).

Definition bind {S A B} (m : M S A) (k : A -> M S B) : M S B :=
  fun s =>
    match m s with
    | (Ok a, s') => k a s'
    | (Throw e, s') => (Throw e, s')
    end.

(** [try { body } catch (error) { handler(error.message) }]. *)
Definition tryCatch {S A} (body : M S A) (handler : string -> M S A) : M S A :=
  fun s =>
    match body s with
    | (Ok a, s') => (Ok a, s')
    | (Throw e, s') => handler e s'
    end.

Definition get {S} : M S S := fun s => (Ok s, s).
Definition put {S} (s : S) : M S unit := fun _ => (Ok tt, s).
Definition modify {S} (f : S -> S) : M S unit := fun s => (Ok tt, f s).

(** Lifting a pure fallible computation. *)
Definition liftR {S A} (r : Result A) : M S A := fun s => (r, s).

Declare Scope js_scope.
Delimit Scope js_scope with js.
Notation "x <- c1 ;; c2" := (bind c1 (fun x => c2))
  (at level 61, c1 at next level, right associativity) : js_scope.
Notation "c1 ;;; c2" := (bind c1 (fun _ => c2))
  (at level 61, right associativity) : js_scope.

(* ================================================================== *)
(** ** Data model (backend/src/types, backend/src/models) *)

(** MongoDB [ObjectId]s and Qdrant point ids (UUIDs) are opaque
    identifiers; both are numbers here (96 and 128 bits wide).  An id is
    thus one that parses: a string that does not is answered by the
    document store with a cast error, a failure of the call that has no
    counterpart here. *)
Definition ObjectId : Type := N.
Definition UUID : Type := N.

(** [type: 'document' | 'concept' | 'entity' | 'relation']. *)
Inductive NodeType : Type :=
| TDocument
| TConcept
| TEntity
| TRelation.

Definition nodeTypeName (t : NodeType) : string :=
  match t with
  | TDocument => "document"
  | TConcept => "concept"
  | TEntity => "entity"
  | TRelation => "relation"
  end.

(** [process.env], the variables the services read. *)
Record ProcessEnv : Type := {
  OPENAI_API_KEY : option string;
  ANTHROPIC_API_KEY : option string;
  USE_OLLAMA_FALLBACK : option string;
  DEFAULT_EMBEDDING_MODEL : option string;
  OLLAMA_EMBEDDING_MODEL : option string;
  OLLAMA_BASE_URL : option string;
  OPENAI_MODEL : option string;
  ANTHROPIC_MODEL : option string;
  OLLAMA_MODEL : option string
}.

(** A request sent to a model provider, as recorded in the world. *)
Inductive ProviderCall : Type :=
| OpenAIEmbed (model input : string)
| OllamaEmbed (baseUrl model prompt : string)
| OpenAIChat (apiKey : option string) (model : string)
             (messages : list (string * string))
| AnthropicChat (apiKey : option string) (model system user : string)
| OllamaGenerate (baseUrl model prompt : string).

(** A stored API key of a user (models/User.ts). *)
Record ApiKey : Type := {
  k_id : string;
  k_provider : string;
  k_key : string;
  k_isActive : bool
}.

Section DataModel.
Context {T : Type}.

Record NodeMetadata : Type := {
  source : option string;
  confidence : option T;
  tags : list string
}.

(** [Omit<KnowledgeNode, '_id' | 'createdAt' | 'updatedAt'>]. *)
Record NodeInput : Type := {
  in_userId : string;
  in_title : string;
  in_content : string;
  in_type : NodeType;
  in_metadata : NodeMetadata;
  in_connections : list ObjectId
}.

Record KnowledgeNode : Type := {
  n_id : ObjectId;
  n_userId : string;
  n_title : string;
  n_content : string;
  n_type : NodeType;
  n_embedding : option (list T);
  n_metadata : NodeMetadata;
  n_connections : list ObjectId
}.

(** [Omit<KnowledgeRelation, '_id' | 'createdAt'>]. *)
Record RelationInput : Type := {
  ri_userId : string;
  ri_sourceNodeId : ObjectId;
  ri_targetNodeId : ObjectId;
  ri_relationType : string;
  ri_strength : T;
  ri_metadata : list (string * T)
}.

Record KnowledgeRelation : Type := {
  r_id : ObjectId;
  r_userId : string;
  r_sourceNodeId : ObjectId;
  r_targetNodeId : ObjectId;
  r_relationType : string;
  r_strength : T;
  r_metadata : list (string * T)
}.

(** The payload stored with a vector point. *)
Record Payload : Type := {
  p_mongoId : ObjectId;
  p_userId : string;
  p_title : string;
  p_content : string;
  p_type : NodeType;
  p_metadata : NodeMetadata;
  p_embeddingModel : string
}.

(** A point of the collection; [addNode] fills exactly one named vector. *)
Record Point : Type := {
  pt_id : UUID;
  pt_vectorName : string;
  pt_vector : list T;
  pt_payload : Payload
}.

(** One hit of a vector search. *)
Record ScoredPoint : Type := {
  hit_id : UUID;
  hit_score : T;
  hit_payload : Payload
}.

Record EmbeddingRequest : Type := {
  er_text : string;
  er_model : option string
}.

Record EmbeddingResponse : Type := {
  embedding : list T;
  model : string;
  tokens : Z
}.

Record ChatRequest : Type := {
  rq_message : string;
  rq_sessionId : option string;
  rq_model : option string;
  rq_provider : option string;
  rq_context : option (list string);
  rq_customKeyId : option string;
  rq_apiKey : option string;
  rq_baseUrl : option string
}.

Record ChatMetadata : Type := {
  cm_model : string;
  cm_provider : string;
  cm_tokens : Z;
  cm_sources : option (list string)
}.

Record ChatResponse : Type := {
  cr_message : string;
  cr_sessionId : string;
  cr_metadata : ChatMetadata
}.

Record RAGQuery : Type := {
  q_query : string;
  q_userId : string;
  q_sessionId : option string;
  q_model : option string;
  q_provider : option string;
  q_maxResults : option nat;
  q_threshold : option T;
  q_customKeyId : option string;
  q_apiKey : option string;
  q_baseUrl : option string
}.

(** [RAGResponse]; the [processingTime] entry of its metadata is a
    wall-clock measurement and is not represented. *)
Record RAGResponse : Type := {
  answer : string;
  sources : list KnowledgeNode;
  rag_confidence : T;
  rag_model : string;
  rag_provider : string;
  rag_tokens : Z
}.

Record ProcessingResult : Type := {
  pr_nodes : list KnowledgeNode;
  pr_relations : list KnowledgeRelation;
  pr_summary : string
}.

(** The services outside the process: the model providers, the scoring
    function of the vector index and the sources of randomness.  A
    provider's answer is a function of the request it is sent; [None] and
    [Throw] stand for any failure of the call (quota, authentication,
    time-out, malformed answer). *)
Record External : Type := {
  openai_embeddings_create : string -> string -> Result (list T * Z);
  ollama_api_embeddings : string -> string -> string -> option (list T);
  openai_chat_completions_create :
    option string -> string -> list (string * string) -> option (string * Z);
  anthropic_messages_create :
    option string -> string -> string -> string -> option (string * Z);
  ollama_api_generate : string -> string -> string -> option string;
  qdrant_score : list T -> list T -> T;
  uuidv4 : nat -> UUID;
  sessionIdGen : nat -> string
}.

(** Both stores, the id and randomness supplies, and the provider
    requests issued so far (oldest first).  The request log is not state
    of the program: it is kept so that statements can count the requests
    an operation sends. *)
Record World : Type := {
  w_nodes : list KnowledgeNode;
  w_relations : list KnowledgeRelation;
  w_points : list Point;
  w_nextOid : ObjectId;
  w_entropy : nat;
  w_calls : list ProviderCall
}.

Definition setNodes (w : World) (ns : list KnowledgeNode) : World :=
  {| w_nodes := ns; w_relations := w_relations w; w_points := w_points w;
     w_nextOid := w_nextOid w; w_entropy := w_entropy w; w_calls := w_calls w |}.

Definition setRelations (w : World) (rs : list KnowledgeRelation) : World :=
  {| w_nodes := w_nodes w; w_relations := rs; w_points := w_points w;
     w_nextOid := w_nextOid w; w_entropy := w_entropy w; w_calls := w_calls w |}.

Definition setPoints (w : World) (ps : list Point) : World :=
  {| w_nodes := w_nodes w; w_relations := w_relations w; w_points := ps;
     w_nextOid := w_nextOid w; w_entropy := w_entropy w; w_calls := w_calls w |}.

Definition setNextOid (w : World) (o : ObjectId) : World :=
  {| w_nodes := w_nodes w; w_relations := w_relations w; w_points := w_points w;
     w_nextOid := o; w_entropy := w_entropy w; w_calls := w_calls w |}.

Definition setEntropy (w : World) (e : nat) : World :=
  {| w_nodes := w_nodes w; w_relations := w_relations w; w_points := w_points w;
     w_nextOid := w_nextOid w; w_entropy := e; w_calls := w_calls w |}.

Definition setCalls (w : World) (cs : list ProviderCall) : World :=
  {| w_nodes := w_nodes w; w_relations := w_relations w; w_points := w_points w;
     w_nextOid := w_nextOid w; w_entropy := w_entropy w; w_calls := cs |}.

Definition emptyWorld : World :=
  {| w_nodes := []; w_relations := []; w_points := [];
     w_nextOid := 1%N; w_entropy := 0; w_calls := [] |}.
End DataModel.

Arguments NodeMetadata : clear implicits.
Arguments NodeInput : clear implicits.
Arguments KnowledgeNode : clear implicits.
Arguments RelationInput : clear implicits.
Arguments KnowledgeRelation : clear implicits.
Arguments Payload : clear implicits.
Arguments Point : clear implicits.
Arguments ScoredPoint : clear implicits.
Arguments EmbeddingRequest : clear implicits.
Arguments EmbeddingResponse : clear implicits.
Arguments ChatRequest : clear implicits.
Arguments ChatMetadata : clear implicits.
Arguments ChatResponse : clear implicits.
Arguments RAGQuery : clear implicits.
Arguments RAGResponse : clear implicits.
Arguments ProcessingResult : clear implicits.
Arguments External : clear implicits.
Arguments World : clear implicits.

(* ================================================================== *)
(** ** The services *)

Section Services.
Context {T : Type} `{Number T}.
Variable env : ProcessEnv.
Variable ext : External T.

Local Open Scope js_scope.

(** Records a request to a provider. *)
Definition logCall (c : ProviderCall) : M (World T) unit :=
  modify (fun w => setCalls w (w_calls w ++ [c])).

(* ---------------------------------------------------------------- *)
(** *** EmbeddingService *)

(** [process.env.USE_OLLAMA_FALLBACK !== 'false'], read by the constructor. *)
Definition useOllamaFallback : bool :=
  match USE_OLLAMA_FALLBACK env with
  | Some s => negb (String.eqb s "false")
  | None => true
  end.

Definition generateEmbeddingWithOllama (text : string) (model : option string)
  : M (World T) (EmbeddingResponse T) :=
  tryCatch
    (let ollamaModel :=
       orStr model (orStr (OLLAMA_EMBEDDING_MODEL env) "nomic-embed-text") in
     let baseUrl := orStr (OLLAMA_BASE_URL env) "http://localhost:11434" in
     logCall (OllamaEmbed baseUrl ollamaModel text) ;;;
     match ollama_api_embeddings ext baseUrl ollamaModel text with
     | Some v => ret {| embedding := v; model := ollamaModel; tokens := 0 |}
     | None => throw "Request failed"
     end)
    (fun _ => throw "Failed to generate embedding with Ollama").

Definition generateEmbedding (request : EmbeddingRequest)
  : M (World T) (EmbeddingResponse T) :=
  tryCatch
    (let model :=
       orStr (er_model request)
             (orStr (DEFAULT_EMBEDDING_MODEL env) "text-embedding-3-small") in
     logCall (OpenAIEmbed model (er_text request)) ;;;
     response <- liftR (openai_embeddings_create ext model (er_text request)) ;;
     ret {| embedding := fst response; model := model; tokens := snd response |})
    (fun message =>
       if useOllamaFallback then
         tryCatch
           (generateEmbeddingWithOllama (er_text request) (er_model request))
           (fun _ => throw "Failed to generate embedding with any provider")
       else throw ("OpenAI embedding failed: " ++ message)).

(* ---------------------------------------------------------------- *)
(** *** AIProviderService *)

Definition getDefaultProvider : string :=
  if truthyStr (OPENAI_API_KEY env) then "openai"
  else if truthyStr (ANTHROPIC_API_KEY env) then "anthropic"
  else "ollama".

Definition getDefaultModel (provider : string) : string :=
  if String.eqb provider "openai" then
    orStr (OPENAI_MODEL env) "gpt-4-turbo-preview"
  else if String.eqb provider "anthropic" then
    orStr (ANTHROPIC_MODEL env) "claude-3-sonnet-20240229"
  else if String.eqb provider "ollama" then
    orStr (OLLAMA_MODEL env) "llama2"
  else orStr (OLLAMA_MODEL env) "llama2".

(** [`session_${Date.now()}_${Math.random()...}`]: one draw from the
    randomness supply. *)
Definition generateSessionId : M (World T) string :=
  fun w => (Ok (sessionIdGen ext (w_entropy w)), setEntropy w (S (w_entropy w))).

(** [request.sessionId || this.generateSessionId()]. *)
Definition sessionIdOf (request : ChatRequest) : M (World T) string :=
  if truthyStr (rq_sessionId request) then ret (orStr (rq_sessionId request) "")
  else generateSessionId.

(** [a || b] on optional strings. *)
Definition orOpt (a b : option string) : option string :=
  if truthyStr a then a else b.

(** The context block, [`Context: ${request.context.join('\n\n')}`]. *)
Definition contextBlock (ctx : list string) : string :=
  ("Context: " ++ join (newline ++ newline) ctx)%string.

Definition buildMessages (request : ChatRequest) : list (string * string) :=
  (match rq_context request with
   | Some (c :: cs) => [("system", contextBlock (c :: cs))]
   | _ => []
   end) ++ [("user", rq_message request)].

(** [request.context ? `Context: ...\n\n` : '']. *)
Definition systemPrompt (request : ChatRequest) : string :=
  match rq_context request with
  | Some ctx => (contextBlock ctx ++ newline ++ newline)%string
  | None => ""
  end.

Definition generateOpenAIResponse (request : ChatRequest)
           (userApiKey : option string) : M (World T) ChatResponse :=
  tryCatch
    (let apiKey := orOpt userApiKey (OPENAI_API_KEY env) in
     let model := orStr (rq_model request) "gpt-4-turbo-preview" in
     let messages := buildMessages request in
     logCall (OpenAIChat apiKey model messages) ;;;
     match openai_chat_completions_create ext apiKey model messages with
     | None => throw "Request failed"
     | Some (message, tokens) =>
         sid <- sessionIdOf request ;;
         ret {| cr_message := message;
                cr_sessionId := sid;
                cr_metadata := {| cm_model := model; cm_provider := "openai";
                                  cm_tokens := tokens;
                                  cm_sources := rq_context request |} |}
     end)
    (fun _ => throw "Failed to generate OpenAI response").

Definition generateAnthropicResponse (request : ChatRequest)
           (userApiKey : option string) : M (World T) ChatResponse :=
  tryCatch
    (let apiKey := orOpt userApiKey (ANTHROPIC_API_KEY env) in
     let model := orStr (rq_model request) "claude-3-sonnet-20240229" in
     let system := systemPrompt request in
     logCall (AnthropicChat apiKey model system (rq_message request)) ;;;
     match anthropic_messages_create ext apiKey model system (rq_message request) with
     | None => throw "Request failed"
     | Some (message, tokens) =>
         sid <- sessionIdOf request ;;
         ret {| cr_message := message;
                cr_sessionId := sid;
                cr_metadata := {| cm_model := model; cm_provider := "anthropic";
                                  cm_tokens := tokens;
                                  cm_sources := rq_context request |} |}
     end)
    (fun _ => throw "Failed to generate Anthropic response").

Definition generateOllamaResponse (request : ChatRequest)
           (model : option string) : M (World T) ChatResponse :=
  tryCatch
    (let ollamaModel := orStr model (orStr (OLLAMA_MODEL env) "llama2") in
     let baseUrl := orStr (OLLAMA_BASE_URL env) "http://localhost:11434" in
     let prompt := (systemPrompt request ++ rq_message request)%string in
     logCall (OllamaGenerate baseUrl ollamaModel prompt) ;;;
     match ollama_api_generate ext baseUrl ollamaModel prompt with
     | None => throw "Request failed"
     | Some message =>
         sid <- sessionIdOf request ;;
         ret {| cr_message := message;
                cr_sessionId := sid;
                cr_metadata := {| cm_model := ollamaModel; cm_provider := "ollama";
                                  cm_tokens := 0;
                                  cm_sources := rq_context request |} |}
     end)
    (fun _ => throw "Failed to generate Ollama response").

(** The provider [generateResponse] settles on before calling anyone. *)
Definition selectedProvider (request : ChatRequest) : string :=
  orStr (rq_provider request) getDefaultProvider.

(** The [switch (provider)] inside the [try] block. *)
Definition callProvider (provider model : string) (request : ChatRequest)
           (userApiKey : option string) : M (World T) ChatResponse :=
  if String.eqb provider "openai" then
    generateOpenAIResponse request userApiKey
  else if String.eqb provider "anthropic" then
    generateAnthropicResponse request userApiKey
  else if String.eqb provider "ollama" then
    generateOllamaResponse request (Some model)
  else throw ("Unsupported provider: " ++ provider).

Definition generateResponse (request : ChatRequest) (userApiKey : option string)
  : M (World T) ChatResponse :=
  let provider := selectedProvider request in
  let model := orStr (rq_model request) (getDefaultModel provider) in
  tryCatch
    (callProvider provider model request userApiKey)
    (fun message =>
       if negb (String.eqb provider "ollama") then
         tryCatch
           (generateOllamaResponse request
              (Some (orStr (OLLAMA_MODEL env) "llama2")))
           (fun ollamaMessage =>
              throw ("All AI providers failed. Primary: " ++ message
                     ++ ", Ollama: " ++ ollamaMessage))
       else throw message).

(* ---------------------------------------------------------------- *)
(** *** The document store (Mongoose models over MongoDB) *)

(** The store answers every request, and refuses a write by the schema
    or by a unique index only; a store that cannot be reached is not
    represented. *)

(** [new Model(...)] draws the document's [_id]. *)
Definition freshObjectId : M (World T) ObjectId :=
  fun w => (Ok (w_nextOid w), setNextOid w (N.succ (w_nextOid w))).

(** Schema validation of [KnowledgeNode]: the required strings are
    present and [metadata.confidence], when given, lies in [[0,1]]. *)
Definition validNode (n : KnowledgeNode T) : bool :=
  negb (String.eqb (n_userId n) "") &&
  negb (String.eqb (n_title n) "") &&
  negb (String.eqb (n_content n) "") &&
  match confidence (n_metadata n) with
  | Some c => nleb nzero c && nleb c (nofZ 1)
  | None => true
  end.

(** [new KnowledgeNodeModel({...node, embedding}).save()]; the schema
    trims [title]. *)
Definition saveNode (node : NodeInput T) (emb : list T)
  : M (World T) (KnowledgeNode T) :=
  id <- freshObjectId ;;
  let doc := {| n_id := id;
                n_userId := in_userId node;
                n_title := trim (in_title node);
                n_content := in_content node;
                n_type := in_type node;
                n_embedding := Some emb;
                n_metadata := in_metadata node;
                n_connections := in_connections node |} in
  if validNode doc then
    modify (fun w => setNodes w (w_nodes w ++ [doc])) ;;; ret doc
  else throw "KnowledgeNode validation failed".

(** Schema validation of [KnowledgeRelation]: required strings and
    [strength] in [[0,1]]. *)
Definition validRelation (r : KnowledgeRelation T) : bool :=
  negb (String.eqb (r_userId r) "") &&
  negb (String.eqb (r_relationType r) "") &&
  nleb nzero (r_strength r) && nleb (r_strength r) (nofZ 1).

(** The unique index on [(sourceNodeId, targetNodeId)]. *)
Definition sameEndpoints (s t : ObjectId) (r : KnowledgeRelation T) : bool :=
  N.eqb (r_sourceNodeId r) s && N.eqb (r_targetNodeId r) t.

(** [new KnowledgeRelationModel(relation).save()]. *)
Definition saveRelation (relation : RelationInput T)
  : M (World T) (KnowledgeRelation T) :=
  id <- freshObjectId ;;
  let doc := {| r_id := id;
                r_userId := ri_userId relation;
                r_sourceNodeId := ri_sourceNodeId relation;
                r_targetNodeId := ri_targetNodeId relation;
                r_relationType := trim (ri_relationType relation);
                r_strength := ri_strength relation;
                r_metadata := ri_metadata relation |} in
  if negb (validRelation doc) then throw "KnowledgeRelation validation failed"
  else
    w <- get ;;
    if existsb (sameEndpoints (r_sourceNodeId doc) (r_targetNodeId doc))
               (w_relations w)
    then throw "E11000 duplicate key error"
    else modify (fun w => setRelations w (w_relations w ++ [doc])) ;;; ret doc.

(** [$addToSet: { connections: c }] on one document. *)
Definition addConnection (c : ObjectId) (n : KnowledgeNode T) : KnowledgeNode T :=
  if existsb (N.eqb c) (n_connections n) then n
  else {| n_id := n_id n; n_userId := n_userId n; n_title := n_title n;
          n_content := n_content n; n_type := n_type n;
          n_embedding := n_embedding n; n_metadata := n_metadata n;
          n_connections := n_connections n ++ [c] |}.

(** [updateOne({ _id: id }, u)]: the first matching document, if any. *)
Fixpoint updateFirst (id : ObjectId) (u : KnowledgeNode T -> KnowledgeNode T)
         (ns : list (KnowledgeNode T)) : list (KnowledgeNode T) :=
  match ns with
  | [] => []
  | n :: ns' =>
      if N.eqb (n_id n) id then u n :: ns' else n :: updateFirst id u ns'
  end.

Definition updateOneAddToSet (id c : ObjectId) : M (World T) unit :=
  modify (fun w => setNodes w (updateFirst id (addConnection c) (w_nodes w))).

(** [deleteOne({ _id: nodeId, userId })]. *)
Fixpoint removeFirst (id : ObjectId) (userId : string)
         (ns : list (KnowledgeNode T)) : list (KnowledgeNode T) :=
  match ns with
  | [] => []
  | n :: ns' =>
      if N.eqb (n_id n) id && String.eqb (n_userId n) userId then ns'
      else n :: removeFirst id userId ns'
  end.

Definition deleteOneNode (id : ObjectId) (userId : string) : M (World T) unit :=
  modify (fun w => setNodes w (removeFirst id userId (w_nodes w))).

(** [deleteMany({ userId, $or: [{sourceNodeId}, {targetNodeId}] })]. *)
Definition touches (id : ObjectId) (userId : string) (r : KnowledgeRelation T) : bool :=
  String.eqb (r_userId r) userId &&
  (N.eqb (r_sourceNodeId r) id || N.eqb (r_targetNodeId r) id).

Definition deleteManyRelations (id : ObjectId) (userId : string) : M (World T) unit :=
  modify (fun w =>
            setRelations w (filter (fun r => negb (touches id userId r))
                                   (w_relations w))).

(** [Model.find(q)], in collection order. *)
Definition findNodes (q : KnowledgeNode T -> bool) : M (World T) (list (KnowledgeNode T)) :=
  w <- get ;; ret (filter q (w_nodes w)).

Definition findRelations (q : KnowledgeRelation T -> bool)
  : M (World T) (list (KnowledgeRelation T)) :=
  w <- get ;; ret (filter q (w_relations w)).

(* ---------------------------------------------------------------- *)
(** *** The vector index (one Qdrant collection, config/database.ts) *)

(** The named vectors [ensureCollectionExists] provisions. *)
Definition vectorSize (name : string) : option nat :=
  if String.eqb name "openai" then Some 1536%nat
  else if String.eqb name "ollama" then Some 768%nat
  else None.

(** A vector is accepted under a name when the name is provisioned and
    the dimension fits. *)
Definition fitsSchema (name : string) (v : list T) : bool :=
  match vectorSize name with
  | Some d => Nat.eqb (List.length v) d
  | None => false
  end.

(** [client.upsert(collection, { wait: true, points: [p] })]; of the
    reasons for which the index refuses a point, the one represented is a
    vector that does not fit the collection. *)
Definition qdrantUpsert (p : Point T) : M (World T) unit :=
  if fitsSchema (pt_vectorName p) (pt_vector p) then
    modify (fun w =>
              setPoints w (filter (fun q => negb (N.eqb (pt_id q) (pt_id p)))
                                  (w_points w) ++ [p]))
  else throw "Bad Request: vector does not fit the collection".

(** [client.delete(collection, { wait: true, points: ids })], on an index
    that answers. *)
Definition qdrantDelete (ids : list UUID) : M (World T) unit :=
  modify (fun w =>
            setPoints w (filter (fun q => negb (existsb (N.eqb (pt_id q)) ids))
                                (w_points w))).

(** Stable insertion of a hit into a list ranked by descending score. *)
Fixpoint insertHit (h : ScoredPoint T) (l : list (ScoredPoint T))
  : list (ScoredPoint T) :=
  match l with
  | [] => [h]
  | h' :: l' =>
      if nltb (hit_score h) (hit_score h') then h' :: insertHit h l'
      else h :: l
  end.

Definition rankHits (l : list (ScoredPoint T)) : list (ScoredPoint T) :=
  fold_right insertHit [] l.

(** The filter [{ must: [{ key: 'userId', match: { value: userId } }] }]
    together with the choice of the named vector. *)
Definition matchesSearch (name userId : string) (p : Point T) : bool :=
  String.eqb (pt_vectorName p) name && String.eqb (p_userId (pt_payload p)) userId.

Definition scorePoint (q : list T) (p : Point T) : ScoredPoint T :=
  {| hit_id := pt_id p;
     hit_score := qdrant_score ext q (pt_vector p);
     hit_payload := pt_payload p |}.

(** The hits of a search over a given list of points. *)
Definition searchPoints (name : string) (q : list T) (limit : nat) (threshold : T)
           (userId : string) (ps : list (Point T)) : list (ScoredPoint T) :=
  firstn limit
    (rankHits
       (filter (fun h => ngeb (hit_score h) threshold)
               (map (scorePoint q) (filter (matchesSearch name userId) ps)))).

(** [client.search(collection, { vector: {name, vector}, limit,
    score_threshold, filter })]. *)
Definition qdrantSearch (name : string) (q : list T) (limit : nat) (threshold : T)
           (userId : string) : M (World T) (list (ScoredPoint T)) :=
  if fitsSchema name q then
    w <- get ;; ret (searchPoints name q limit threshold userId (w_points w))
  else throw "Bad Request: vector does not fit the collection".

(* ---------------------------------------------------------------- *)
(** *** KnowledgeGraphService *)

(** [uuidv4()]; the argument is not used. *)
Definition convertObjectIdToUUID (objectId : ObjectId) : M (World T) UUID :=
  fun w => (Ok (uuidv4 ext (w_entropy w)), setEntropy w (S (w_entropy w))).

Definition getVectorName (model : string) : string :=
  if includes model "text-embedding" || includes model "openai" then "openai"
  else if includes model "nomic-embed" || includes model "ollama" then "ollama"
  else "openai".

Definition addNode (node : NodeInput T) : M (World T) (KnowledgeNode T) :=
  tryCatch
    (embeddingResponse <-
       generateEmbedding
         {| er_text := (in_title node ++ " " ++ in_content node)%string;
            er_model := None |} ;;
     savedNode <- saveNode node (embedding embeddingResponse) ;;
     let vectorName := getVectorName (model embeddingResponse) in
     qdrantId <- convertObjectIdToUUID (n_id savedNode) ;;
     qdrantUpsert
       {| pt_id := qdrantId;
          pt_vectorName := vectorName;
          pt_vector := embedding embeddingResponse;
          pt_payload := {| p_mongoId := n_id savedNode;
                           p_userId := in_userId node;
                           p_title := in_title node;
                           p_content := in_content node;
                           p_type := in_type node;
                           p_metadata := in_metadata node;
                           p_embeddingModel := model embeddingResponse |} |} ;;;
     ret savedNode)
    (fun _ => throw "Failed to add knowledge node").

Definition addRelation (relation : RelationInput T)
  : M (World T) (KnowledgeRelation T) :=
  tryCatch
    (savedRelation <- saveRelation relation ;;
     updateOneAddToSet (ri_sourceNodeId relation) (ri_targetNodeId relation) ;;;
     updateOneAddToSet (ri_targetNodeId relation) (ri_sourceNodeId relation) ;;;
     ret savedRelation)
    (fun _ => throw "Failed to add knowledge relation").

(** [searchResult.find(r => r.payload?.mongoId === id)?.score || 0]. *)
Definition scoreOf (searchResult : list (ScoredPoint T)) (id : ObjectId) : T :=
  orNum (option_map (@hit_score T)
           (find (fun r => N.eqb (p_mongoId (hit_payload r)) id) searchResult))
        nzero.

(** [Array.prototype.sort] with a comparator: [b] moves in front of [a]
    exactly when [compare(a, b) > 0]; the sort is stable. *)
Fixpoint insertBy {A : Type} (compare : A -> A -> T) (a : A) (l : list A) : list A :=
  match l with
  | [] => [a]
  | b :: l' =>
      if nltb nzero (compare a b) then b :: insertBy compare a l'
      else a :: l
  end.

Definition sortBy {A : Type} (compare : A -> A -> T) (l : list A) : list A :=
  fold_right (insertBy compare) [] l.

Definition searchSimilarNodes (query userId : string) (limit : nat) (threshold : T)
  : M (World T) (list (KnowledgeNode T)) :=
  tryCatch
    (queryEmbedding <- generateEmbedding {| er_text := query; er_model := None |} ;;
     let vectorName := getVectorName (model queryEmbedding) in
     searchResult <-
       qdrantSearch vectorName (embedding queryEmbedding) limit threshold userId ;;
     let mongoIds := map (fun r => p_mongoId (hit_payload r)) searchResult in
     nodes <-
       findNodes (fun n => existsb (N.eqb (n_id n)) mongoIds &&
                           String.eqb (n_userId n) userId) ;;
     let sortedNodes :=
       sortBy (fun a b => nsub (scoreOf searchResult (n_id b))
                               (scoreOf searchResult (n_id a)))
              nodes in
     ret sortedNodes)
    (fun _ => throw "Failed to search similar nodes").

(** [`Title: ${title}\nContent: ${content}\nType: ${type}`]. *)
Definition contextOf (node : KnowledgeNode T) : string :=
  ("Title: " ++ n_title node ++ newline ++
   "Content: " ++ n_content node ++ newline ++
   "Type: " ++ nodeTypeName (n_type node))%string.

(** The aggregate confidence of a list of retrieved nodes. *)
Definition aggregateConfidence (relevantNodes : list (KnowledgeNode T)) : T :=
  if Nat.ltb 0 (List.length relevantNodes) then
    ndiv (fold_left
            (fun sum node =>
               nadd sum (orNum (confidence (n_metadata node)) (ndec 5 1)))
            relevantNodes nzero)
         (nofZ (Z.of_nat (List.length relevantNodes)))
  else ndec 5 1.

(** [query.maxResults || 5]. *)
Definition orNat (x : option nat) (d : nat) : nat :=
  match x with
  | Some O => d
  | Some n => n
  | None => d
  end.

Definition performRAGQuery (query : RAGQuery T) : M (World T) (RAGResponse T) :=
  tryCatch
    (relevantNodes <-
       searchSimilarNodes (q_query query) (q_userId query)
         (orNat (q_maxResults query) 5)
         (orNum (q_threshold query) (ndec 7 1)) ;;
     let context := map contextOf relevantNodes in
     let chatRequest :=
       {| rq_message := q_query query;
          rq_sessionId := q_sessionId query;
          rq_model := q_model query;
          rq_provider := q_provider query;
          rq_context := Some context;
          rq_customKeyId := q_customKeyId query;
          rq_apiKey := q_apiKey query;
          rq_baseUrl := q_baseUrl query |} in
     aiResponse <- generateResponse chatRequest (q_apiKey query) ;;
     let confidence := aggregateConfidence relevantNodes in
     ret {| answer := cr_message aiResponse;
            sources := relevantNodes;
            rag_confidence := confidence;
            rag_model := cm_model (cr_metadata aiResponse);
            rag_provider := cm_provider (cr_metadata aiResponse);
            rag_tokens := cm_tokens (cr_metadata aiResponse) |})
    (fun _ => throw "Failed to perform RAG query").

(** The first loop of [processDocument]: one concept node per sentence
    that is long enough. *)
Fixpoint createSentenceNodes (userId : string) (source : option string)
         (sentences : list string) (nodes : list (KnowledgeNode T))
  : M (World T) (list (KnowledgeNode T)) :=
  match sentences with
  | [] => ret nodes
  | sentence :: rest =>
      if Nat.ltb (String.length (trim sentence)) 20 then
        createSentenceNodes userId source rest nodes
      else
        node <-
          addNode {| in_userId := userId;
                     in_title := (String.substring 0 100 sentence ++ "...")%string;
                     in_content := trim sentence;
                     in_type := TConcept;
                     in_metadata := {| source := source;
                                       confidence := Some (ndec 8 1);
                                       tags := ["document"] |};
                     in_connections := [] |} ;;
        createSentenceNodes userId source rest (nodes ++ [node])
  end.

(** The body of the inner loop for the pair [(nodes[i], nodes[j])]. *)
Definition relatePair (userId : string) (ni nj : KnowledgeNode T)
           (relations : list (KnowledgeRelation T))
  : M (World T) (list (KnowledgeRelation T)) :=
  match n_embedding ni, n_embedding nj with
  | Some ei, Some ej =>
      similarity <- liftR (calculateSimilarity ei ej) ;;
      if ngtb similarity (ndec 7 1) then
        relation <-
          addRelation {| ri_userId := userId;
                         ri_sourceNodeId := n_id ni;
                         ri_targetNodeId := n_id nj;
                         ri_relationType := "similar";
                         ri_strength := similarity;
                         ri_metadata := [("similarity", similarity)] |} ;;
        ret (relations ++ [relation])
      else ret relations
  | _, _ => ret relations
  end.

(** The inner loop: [j] ranges over the nodes after [nodes[i]]. *)
Fixpoint relateWith (userId : string) (ni : KnowledgeNode T)
         (later : list (KnowledgeNode T)) (relations : list (KnowledgeRelation T))
  : M (World T) (list (KnowledgeRelation T)) :=
  match later with
  | [] => ret relations
  | nj :: later' =>
      relations' <- relatePair userId ni nj relations ;;
      relateWith userId ni later' relations'
  end.

(** The outer loop over [i]. *)
Fixpoint relateSimilar (userId : string) (nodes : list (KnowledgeNode T))
         (relations : list (KnowledgeRelation T))
  : M (World T) (list (KnowledgeRelation T)) :=
  match nodes with
  | [] => ret relations
  | ni :: later =>
      relations' <- relateWith userId ni later relations ;;
      relateSimilar userId later relations'
  end.

Definition natToString (n : nat) : string :=
  NilEmpty.string_of_uint (Nat.to_uint n).

Definition processDocument (content userId : string) (source : option string)
  : M (World T) (ProcessingResult T) :=
  tryCatch
    (let sentences :=
       filter (fun s => Nat.ltb 10 (String.length (trim s)))
              (splitSentences content) in
     nodes <- createSentenceNodes userId source sentences [] ;;
     relations <- relateSimilar userId nodes [] ;;
     let summary :=
       ("Processed document with " ++ natToString (List.length nodes)
        ++ " concepts and " ++ natToString (List.length relations)
        ++ " relations")%string in
     ret {| pr_nodes := nodes; pr_relations := relations; pr_summary := summary |})
    (fun _ => throw "Failed to process document").

(** [.limit(n)] of a query: at most [n] documents, and no limit at all
    for [limit(0)]. *)
Definition limitDocs {A : Type} (n : nat) (docs : list A) : list A :=
  if Nat.eqb n 0 then docs else firstn n docs.

(** [find({ userId }).limit(limit).sort({ createdAt: -1 })]: newest
    first; documents sit in the collection in creation order. *)
Definition getKnowledgeGraph (userId : string) (limit : nat)
  : M (World T) (list (KnowledgeNode T) * list (KnowledgeRelation T)) :=
  tryCatch
    (found <- findNodes (fun n => String.eqb (n_userId n) userId) ;;
     let nodes := limitDocs limit (rev found) in
     let nodeIds := map (@n_id T) nodes in
     relations <-
       findRelations
         (fun r => String.eqb (r_userId r) userId &&
                   (existsb (N.eqb (r_sourceNodeId r)) nodeIds ||
                    existsb (N.eqb (r_targetNodeId r)) nodeIds)) ;;
     ret (nodes, relations))
    (fun _ => throw "Failed to get knowledge graph").

Definition deleteNode (nodeId : ObjectId) (userId : string) : M (World T) unit :=
  tryCatch
    (deleteOneNode nodeId userId ;;;
     qdrantId <- convertObjectIdToUUID nodeId ;;
     qdrantDelete [qdrantId] ;;;
     deleteManyRelations nodeId userId)
    (fun _ => throw "Failed to delete knowledge node").

(* ---------------------------------------------------------------- *)
(** *** ChatController.sendMessage *)

Record MessageBody : Type := {
  b_message : option string;
  b_sessionId : option string;
  b_model : option string;
  b_provider : option string;
  b_useRAG : option bool;
  b_customKeyId : option string;
  b_apiKey : option string;
  b_baseUrl : option string
}.

(** The [data] of a successful reply. *)
Record MessageData : Type := {
  d_message : string;
  d_sources : list (KnowledgeNode T);
  d_confidence : T;
  d_model : string;
  d_provider : string;
  d_tokens : Z
}.

Inductive HttpReply : Type :=
| Reply200 (data : MessageData)
| Reply400 (error : string)
| Reply500 (error : string).

(** The handler up to its reply; appending the exchange to the chat
    session does not change the reply and is left out. *)
Definition sendMessage (body : MessageBody) (reqUserId : option string)
  : M (World T) HttpReply :=
  tryCatch
    (let userId := orStr reqUserId "anonymous" in
     if negb (truthyStr (b_message body)) then ret (Reply400 "Message is required")
     else
       let message := orStr (b_message body) "" in
       if match b_useRAG body with Some u => u | None => true end then
         response <-
           performRAGQuery
             {| q_query := message; q_userId := userId;
                q_sessionId := b_sessionId body; q_model := b_model body;
                q_provider := b_provider body; q_maxResults := Some 5%nat;
                q_threshold := Some (ndec 7 1);
                q_customKeyId := b_customKeyId body; q_apiKey := b_apiKey body;
                q_baseUrl := b_baseUrl body |} ;;
         ret (Reply200 {| d_message := answer response;
                          d_sources := sources response;
                          d_confidence := rag_confidence response;
                          d_model := rag_model response;
                          d_provider := rag_provider response;
                          d_tokens := rag_tokens response |})
       else
         aiResponse <-
           generateResponse
             {| rq_message := message; rq_sessionId := b_sessionId body;
                rq_model := b_model body; rq_provider := b_provider body;
                rq_context := None; rq_customKeyId := b_customKeyId body;
                rq_apiKey := b_apiKey body; rq_baseUrl := b_baseUrl body |}
             (b_apiKey body) ;;
         ret (Reply200 {| d_message := cr_message aiResponse;
                          d_sources := [];
                          d_confidence := nofZ 1;
                          d_model := cm_model (cr_metadata aiResponse);
                          d_provider := cm_provider (cr_metadata aiResponse);
                          d_tokens := cm_tokens (cr_metadata aiResponse) |}))
    (fun _ => ret (Reply500 "Failed to process message")).
End Services.



(* ================================================================== *)
(** ** Vocabulary of the statements *)

Section Vocabulary.
Context {T : Type} `{Number T}.

(** The accumulators of [calculateSimilarity e2 e1] seen from
    [calculateSimilarity e1 e2]: the two norms change places. *)
Definition swapAcc (a : Acc T) : Acc T :=
  mkAcc (dotProduct a) (norm2 a) (norm1 a).

(** [x === 0]. *)
Definition isZero (x : T) : Prop := neqb x nzero = true.
End Vocabulary.


(** The local provider's default generation model,
    [process.env.OLLAMA_MODEL || 'llama2']. *)
Definition ollamaDefaultModel (env : ProcessEnv) : string :=
  orStr (OLLAMA_MODEL env) "llama2".

Definition ollamaBaseUrl (env : ProcessEnv) : string :=
  orStr (OLLAMA_BASE_URL env) "http://localhost:11434".

(** The request the fallback sends to the local provider. *)
Definition ollamaFallbackCall (env : ProcessEnv) (request : ChatRequest)
  : ProviderCall :=
  OllamaGenerate (ollamaBaseUrl env) (ollamaDefaultModel env)
                 (systemPrompt request ++ rq_message request)%string.

(** The local provider answers the fallback request. *)
Definition ollamaAnswers {T : Type} (env : ProcessEnv) (ext : External T)
           (request : ChatRequest) : option string :=
  ollama_api_generate ext (ollamaBaseUrl env) (ollamaDefaultModel env)
                      (systemPrompt request ++ rq_message request)%string.


(** The request the first attempt of [generateResponse] sends, if any
    (none for a provider name the [switch] does not know). *)
Definition primaryCalls (env : ProcessEnv) (request : ChatRequest)
           (userApiKey : option string) : list ProviderCall :=
  let provider := orStr (rq_provider request)
                    (if truthyStr (OPENAI_API_KEY env) then "openai"
                     else if truthyStr (ANTHROPIC_API_KEY env) then "anthropic"
                     else "ollama") in
  if String.eqb provider "openai" then
    [OpenAIChat (if truthyStr userApiKey then userApiKey else OPENAI_API_KEY env)
                (orStr (rq_model request) "gpt-4-turbo-preview")
                (buildMessages request)]
  else if String.eqb provider "anthropic" then
    [AnthropicChat (if truthyStr userApiKey then userApiKey else ANTHROPIC_API_KEY env)
                   (orStr (rq_model request) "claude-3-sonnet-20240229")
                   (systemPrompt request) (rq_message request)]
  else if String.eqb provider "ollama" then
    [OllamaGenerate (ollamaBaseUrl env)
                    (orStr (rq_model request) (ollamaDefaultModel env))
                    (systemPrompt request ++ rq_message request)%string]
  else [].


(** The credential a request refers to: the provider of the active stored
    key named by [customKeyId], if there is one. *)
Definition customProvider (keys : list ApiKey) (request : ChatRequest) : option string :=
  match rq_customKeyId request with
  | Some id =>
      option_map k_provider
        (find (fun k => String.eqb (k_id k) id && k_isActive k) keys)
  | None => None
  end.

(** The selection policy in the words of the specification: a provider
    with a custom credential of the tenant first, then the cloud providers
    by process-level key in priority order, then the local provider. *)
Definition specProviderPolicy (env : ProcessEnv) (custom : option string) : string :=
  match custom with
  | Some p => p
  | None =>
      if truthyStr (OPENAI_API_KEY env) then "openai"
      else if truthyStr (ANTHROPIC_API_KEY env) then "anthropic"
      else "ollama"
  end.

(* ================================================================== *)
(** ** Scenarios *)

(** No variable set. *)
Definition envNone : ProcessEnv :=
  {| OPENAI_API_KEY := None; ANTHROPIC_API_KEY := None;
     USE_OLLAMA_FALLBACK := None; DEFAULT_EMBEDDING_MODEL := None;
     OLLAMA_EMBEDDING_MODEL := None; OLLAMA_BASE_URL := None;
     OPENAI_MODEL := None; ANTHROPIC_MODEL := None; OLLAMA_MODEL := None |}.

(** A process-level OpenAI key and nothing else. *)
Definition envOpenAI : ProcessEnv :=
  {| OPENAI_API_KEY := Some "sk-process"; ANTHROPIC_API_KEY := None;
     USE_OLLAMA_FALLBACK := None; DEFAULT_EMBEDDING_MODEL := None;
     OLLAMA_EMBEDDING_MODEL := None; OLLAMA_BASE_URL := None;
     OPENAI_MODEL := None; ANTHROPIC_MODEL := None; OLLAMA_MODEL := None |}.

(** A vector of dimension [n] that starts with [v] and continues with zeros. *)
Definition padTo (n : nat) (v : list float) : list float :=
  v ++ repeat 0%float (n - List.length v).

(** Providers of which only the local one answers; cosine scores. *)
Definition extLocalOnly : External float :=
  {| openai_embeddings_create := fun _ _ => Throw "429 You exceeded your current quota";
     ollama_api_embeddings := fun _ _ _ => Some (padTo 768 [1%float]);
     openai_chat_completions_create := fun _ _ _ => None;
     anthropic_messages_create := fun _ _ _ _ => None;
     ollama_api_generate := fun _ _ _ => Some "a local answer";
     qdrant_score := fun a b => match calculateSimilarity a b with
                                | Ok s => s
                                | Throw _ => 0%float
                                end;
     uuidv4 := fun n => N.of_nat (1000 + n);
     sessionIdGen := fun _ => "session_1_abc" |}.

(** No provider answers. *)
Definition extAllDown : External float :=
  {| openai_embeddings_create := fun _ _ => Throw "429 You exceeded your current quota";
     ollama_api_embeddings := fun _ _ _ => None;
     openai_chat_completions_create := fun _ _ _ => None;
     anthropic_messages_create := fun _ _ _ _ => None;
     ollama_api_generate := fun _ _ _ => None;
     qdrant_score := fun _ _ => 0%float;
     uuidv4 := fun n => N.of_nat (1000 + n);
     sessionIdGen := fun _ => "session_1_abc" |}.

Definition plainRequest (message : string) : ChatRequest :=
  {| rq_message := message; rq_sessionId := None; rq_model := None;
     rq_provider := None; rq_context := None; rq_customKeyId := None;
     rq_apiKey := None; rq_baseUrl := None |}.

(** A tenant with an active Anthropic key of their own, and a request that
    refers to it without pinning a provider. *)
Definition tenantKeys : list ApiKey :=
  [{| k_id := "key1"; k_provider := "anthropic"; k_key := "sk-ant-tenant";
      k_isActive := true |}].

Definition requestWithTenantKey : ChatRequest :=
  {| rq_message := "What is machine learning?"; rq_sessionId := None;
     rq_model := None; rq_provider := None; rq_context := None;
     rq_customKeyId := Some "key1"; rq_apiKey := Some "sk-ant-tenant";
     rq_baseUrl := None |}.


(** The local provider's default embedding model,
    [process.env.OLLAMA_EMBEDDING_MODEL || 'nomic-embed-text']. *)
Definition ollamaDefaultEmbeddingModel (env : ProcessEnv) : string :=
  orStr (OLLAMA_EMBEDDING_MODEL env) "nomic-embed-text".

(** The primary provider's model for a request,
    [request.model || process.env.DEFAULT_EMBEDDING_MODEL || 'text-embedding-3-small']. *)
Definition primaryEmbeddingModel (env : ProcessEnv) (request : EmbeddingRequest) : string :=
  orStr (er_model request)
        (orStr (DEFAULT_EMBEDDING_MODEL env) "text-embedding-3-small").

(** A model name that [getVectorName] files under the secondary namespace. *)
Definition namedAsSecondary (model : string) : bool :=
  negb (includes model "text-embedding" || includes model "openai") &&
  (includes model "nomic-embed" || includes model "ollama").

(** The local embedding model is configured to one [getVectorName] does
    not know. *)
Definition envMxbai : ProcessEnv :=
  {| OPENAI_API_KEY := Some "sk-process"; ANTHROPIC_API_KEY := None;
     USE_OLLAMA_FALLBACK := None; DEFAULT_EMBEDDING_MODEL := None;
     OLLAMA_EMBEDDING_MODEL := Some "mxbai-embed-large"; OLLAMA_BASE_URL := None;
     OPENAI_MODEL := None; ANTHROPIC_MODEL := None; OLLAMA_MODEL := None |}.

(** Fallback switched off. *)
Definition envNoFallback : ProcessEnv :=
  {| OPENAI_API_KEY := Some "sk-process"; ANTHROPIC_API_KEY := None;
     USE_OLLAMA_FALLBACK := Some "false"; DEFAULT_EMBEDDING_MODEL := None;
     OLLAMA_EMBEDDING_MODEL := None; OLLAMA_BASE_URL := None;
     OPENAI_MODEL := None; ANTHROPIC_MODEL := None; OLLAMA_MODEL := None |}.


Section StoreVocabulary.
Context {T : Type} `{Number T}.

(** What [searchSimilarNodes] makes of the hits of the vector search: the
    stored nodes of the tenant that the hits refer to, ordered by score. *)
Definition hydrate (userId : string) (hits : list (ScoredPoint T))
           (nodes : list (KnowledgeNode T)) : list (KnowledgeNode T) :=
  sortBy (fun a b => nsub (scoreOf hits (n_id b)) (scoreOf hits (n_id a)))
         (filter (fun n =>
                    existsb (N.eqb (n_id n))
                            (map (fun r => p_mongoId (hit_payload r)) hits) &&
                    String.eqb (n_userId n) userId)
                 nodes).

(** The part of the two stores that belongs to a tenant. *)
Definition tenantNodes (userId : string) (w : World T) : list (KnowledgeNode T) :=
  filter (fun n => String.eqb (n_userId n) userId) (w_nodes w).

Definition tenantPoints (userId : string) (w : World T) : list (Point T) :=
  filter (fun p => String.eqb (p_userId (pt_payload p)) userId) (w_points w).
End StoreVocabulary.


(** Stubbed providers: the primary embedding provider works and embeds a
    text by the keyword it contains; OpenAI answers chats; the vector
    index scores by cosine similarity. *)
Definition extStub : External float :=
  {| openai_embeddings_create :=
       fun _ text =>
         if includes text "Alpha" then Ok (padTo 1536 [1%float], 3%Z)
         else if includes text "Beta" then Ok (padTo 1536 [4%float; 3%float], 3%Z)
         else if includes text "Gamma" then
           Ok (padTo 1536 [7%float; 7%float; 1%float; 1%float], 3%Z)
         else Ok (padTo 1536 [1%float], 2%Z);
     ollama_api_embeddings := fun _ _ _ => None;
     openai_chat_completions_create := fun _ _ _ => Some ("An answer", 42%Z);
     anthropic_messages_create := fun _ _ _ _ => None;
     ollama_api_generate := fun _ _ _ => Some "a local answer";
     qdrant_score := fun a b => match calculateSimilarity a b with
                                | Ok s => s
                                | Throw _ => 0%float
                                end;
     uuidv4 := fun n => N.of_nat (1000 + n);
     sessionIdGen := fun _ => "session_1_abc" |}.

Definition conceptInput (userId title content : string) (confidence : option float)
  : NodeInput float :=
  {| in_userId := userId; in_title := title; in_content := content;
     in_type := TConcept;
     in_metadata := {| source := Some "manual"; confidence := confidence;
                       tags := [] |};
     in_connections := [] |}.

(** The world after [m] has run from [w]. *)
Definition after {A : Type} (m : M (World float) A) (w : World float) : World float :=
  snd (m w).

(** Bob stores a node whose vector is the query vector itself; Alice
    stores one that is merely similar to it. *)
Definition worldTwoTenants : World float :=
  after (addNode envOpenAI extStub
           (conceptInput "alice" "Beta" "Beta is the second letter" (Some (ndec 9 1))))
    (after (addNode envOpenAI extStub
              (conceptInput "bob" "Alpha" "Alpha is the first letter" (Some (ndec 9 1))))
       emptyWorld).

Definition betaNode : KnowledgeNode float :=
  {| n_id := 2%N; n_userId := "alice"; n_title := "Beta";
     n_content := "Beta is the second letter"; n_type := TConcept;
     n_embedding := Some (padTo 1536 [4%float; 3%float]);
     n_metadata := {| source := Some "manual"; confidence := Some (ndec 9 1);
                      tags := [] |};
     n_connections := [] |}.


(** Alice stores two nodes: [Alpha], whose vector is the query vector, and
    [Beta], which is similar to it. *)
Definition worldAlphaBeta : World float :=
  after (addNode envOpenAI extStub
           (conceptInput "alice" "Beta" "Beta is the second letter" (Some (ndec 9 1))))
    (after (addNode envOpenAI extStub
              (conceptInput "alice" "Alpha" "Alpha is the first letter"
                            (Some (ndec 9 1))))
       emptyWorld).

(** ... and then deletes [Alpha]. *)
Definition worldAlphaDeleted : World float :=
  after (deleteNode extStub 1%N "alice") worldAlphaBeta.


Section LifecycleVocabulary.
Context {T : Type} `{Number T}.

(** The vector point [addNode] writes for a stored node. *)
Definition pointOf (node : NodeInput T) (id : ObjectId) (qdrantId : UUID)
           (e : EmbeddingResponse T) : Point T :=
  {| pt_id := qdrantId;
     pt_vectorName := getVectorName (model e);
     pt_vector := embedding e;
     pt_payload := {| p_mongoId := id; p_userId := in_userId node;
                      p_title := in_title node; p_content := in_content node;
                      p_type := in_type node; p_metadata := in_metadata node;
                      p_embeddingModel := model e |} |}.

(** The document store is well formed: ids are unique and were issued by
    the id counter. *)
Definition storeOk (w : World T) : Prop :=
  NoDup (map (@n_id T) (w_nodes w)) /\
  Forall (fun n => (n_id n < w_nextOid w)%N) (w_nodes w).
End LifecycleVocabulary.


Section ConfidenceVocabulary.
Context {T : Type} `{Number T}.

(** A node's stored confidence, [0.5] standing in for an absent one. *)
Definition storedOrHalf (n : KnowledgeNode T) : T :=
  match confidence (n_metadata n) with
  | Some c => c
  | None => ndec 5 1
  end.

(** The aggregate confidence in the words of the specification: the mean
    of the stored confidences, [0.5] per node without one, and a flat
    [0.5] when nothing was retrieved. *)
Definition specConfidence (nodes : list (KnowledgeNode T)) : T :=
  if Nat.ltb 0 (List.length nodes) then
    ndiv (fold_left (fun sum node => nadd sum (storedOrHalf node)) nodes nzero)
         (nofZ (Z.of_nat (List.length nodes)))
  else ndec 5 1.

(** The value of a result, if it is one. *)
Definition okOf {A : Type} (r : Result A) : option A :=
  match r with
  | Ok a => Some a
  | Throw _ => None
  end.
End ConfidenceVocabulary.

Definition ragQuery (query userId : string) : RAGQuery float :=
  {| q_query := query; q_userId := userId; q_sessionId := None; q_model := None;
     q_provider := None; q_maxResults := None; q_threshold := None;
     q_customKeyId := None; q_apiKey := None; q_baseUrl := None |}.

(** Alice's only node carries the stored confidence [0]. *)
Definition worldZeroConfidence : World float :=
  after (addNode envOpenAI extStub
           (conceptInput "alice" "Alpha" "Alpha is the first letter" (Some 0%float)))
        emptyWorld.

Definition chatBody (message : string) (useRAG : option bool) : MessageBody :=
  {| b_message := Some message; b_sessionId := None; b_model := None;
     b_provider := None; b_useRAG := useRAG; b_customKeyId := None;
     b_apiKey := None; b_baseUrl := None |}.


Section IngestionVocabulary.
Context {T : Type} `{Number T}.

(** The pairs [(nodes[i], nodes[j])], [i < j], in the order the nested
    loops visit them. *)
Fixpoint orderedPairs (nodes : list (KnowledgeNode T))
  : list (KnowledgeNode T * KnowledgeNode T) :=
  match nodes with
  | [] => []
  | ni :: later => map (pair ni) later ++ orderedPairs later
  end.

(** What a relation records: owner, endpoints, type and strength. *)
Definition relationKey (r : KnowledgeRelation T)
  : string * ObjectId * ObjectId * string * T :=
  (r_userId r, r_sourceNodeId r, r_targetNodeId r, r_relationType r, r_strength r).

(** The relation a pair gives rise to: a [similar] relation of strength
    equal to the similarity, when both nodes carry an embedding and the
    similarity is greater than [0.7]. *)
Definition similarRelation (userId : string) (pr : KnowledgeNode T * KnowledgeNode T)
  : list (string * ObjectId * ObjectId * string * T) :=
  match n_embedding (fst pr), n_embedding (snd pr) with
  | Some ei, Some ej =>
      match calculateSimilarity ei ej with
      | Ok s =>
          if ngtb s (ndec 7 1)
          then [(userId, n_id (fst pr), n_id (snd pr), "similar", s)]
          else []
      | Throw _ => []
      end
  | _, _ => []
  end.

Definition similarRelations (userId : string) (nodes : list (KnowledgeNode T))
  : list (string * ObjectId * ObjectId * string * T) :=
  flat_map (similarRelation userId) (orderedPairs nodes).
End IngestionVocabulary.

(** Two sentences whose embeddings have cosine similarity exactly [0.7]. *)
Definition twoSentences : string :=
  "Alpha is the first letter of the alphabet. Gamma is the third letter of the alphabet.".


(** Two sentences whose embeddings have cosine similarity [0.8]. *)
Definition twoCloseSentences : string :=
  "Alpha is the first letter of the alphabet. Beta is the second letter of the alphabet.".


Section AdjacencyVocabulary.
Context {T : Type} `{Number T}.

(** Adjacency is symmetric: whenever a stored node [a] lists [b], a node
    [b] is stored and lists [a]. *)
Definition adjacencySymmetric (w : World T) : Prop :=
  forall a b,
    In a (w_nodes w) -> In b (n_connections a) ->
    exists nb, In nb (w_nodes w) /\ n_id nb = b /\ In (n_id a) (n_connections nb).

(** The same, as a test. *)
Definition adjacencySymmetricb (w : World T) : bool :=
  forallb
    (fun a =>
       forallb
         (fun b =>
            existsb (fun nb => N.eqb (n_id nb) b &&
                               existsb (N.eqb (n_id a)) (n_connections nb))
                    (w_nodes w))
         (n_connections a))
    (w_nodes w).


End AdjacencyVocabulary.

Definition relationInput (userId : string) (s t : ObjectId) (relationType : string)
           (strength : float) : RelationInput float :=
  {| ri_userId := userId; ri_sourceNodeId := s; ri_targetNodeId := t;
     ri_relationType := relationType; ri_strength := strength; ri_metadata := [] |}.

(** Alice relates her two nodes ... *)
Definition worldRelated : World float :=
  after (addRelation (relationInput "alice" 1%N 2%N "precedes" (ndec 9 1)))
        worldAlphaBeta.

(** ... and then deletes the first. *)
Definition worldRelatedDeleted : World float :=
  after (deleteNode extStub 1%N "alice") worldRelated.

(** A relation whose target is not stored. *)
Definition worldDangling : World float :=
  after (addRelation (relationInput "alice" 1%N 77%N "precedes" (ndec 9 1)))
        worldAlphaBeta.




(** Local fallback, with the local embedding model configured to a name
    [getVectorName] files under [openai]: the vector (768) then does not
    fit the namespace (1536). *)
Definition alphaInput : NodeInput float :=
  conceptInput "alice" "Alpha" "Alpha is the first letter" (Some (ndec 9 1)).


Section CreationVocabulary.
Context {T : Type}.

(** The document [addNode] hands to the document store. *)
Definition nodeDocument (node : NodeInput T) (id : ObjectId) (emb : list T)
  : KnowledgeNode T :=
  {| n_id := id; n_userId := in_userId node; n_title := trim (in_title node);
     n_content := in_content node; n_type := in_type node;
     n_embedding := Some emb; n_metadata := in_metadata node;
     n_connections := in_connections node |}.

(** The text [addNode] embeds. *)
Definition nodeText (node : NodeInput T) : EmbeddingRequest :=
  {| er_text := (in_title node ++ " " ++ in_content node)%string; er_model := None |}.

End CreationVocabulary.


Section RelationVocabulary.
Context {T : Type}.

(** The ordered pair a relation connects. *)
Definition endpoints (r : KnowledgeRelation T) : ObjectId * ObjectId :=
  (r_sourceNodeId r, r_targetNodeId r).

(** The document [addRelation] hands to the document store. *)
Definition relationDocument (relation : RelationInput T) (id : ObjectId)
  : KnowledgeRelation T :=
  {| r_id := id;
     r_userId := ri_userId relation;
     r_sourceNodeId := ri_sourceNodeId relation;
     r_targetNodeId := ri_targetNodeId relation;
     r_relationType := trim (ri_relationType relation);
     r_strength := ri_strength relation;
     r_metadata := ri_metadata relation |}.

(** At most one relation per ordered pair of endpoints. *)
Definition uniquePairs (w : World T) : Prop :=
  NoDup (map endpoints (w_relations w)).

(** No adjacency list names a node twice. *)
Definition connectionsNoDup (w : World T) : Prop :=
  Forall (fun n => NoDup (n_connections n)) (w_nodes w).
End RelationVocabulary.


(** Two worlds hold the same documents, points and id counter. *)
Definition sameStores {T : Type} (w w1 : World T) : Prop :=
  w_nodes w1 = w_nodes w /\ w_relations w1 = w_relations w /\
  w_points w1 = w_points w /\ w_nextOid w1 = w_nextOid w.


(** The process environment with other values for [OPENAI_MODEL] and
    [ANTHROPIC_MODEL]. *)
Definition withCloudModels (env : ProcessEnv) (openaiModel anthropicModel : option string)
  : ProcessEnv :=
  {| OPENAI_API_KEY := OPENAI_API_KEY env;
     ANTHROPIC_API_KEY := ANTHROPIC_API_KEY env;
     USE_OLLAMA_FALLBACK := USE_OLLAMA_FALLBACK env;
     DEFAULT_EMBEDDING_MODEL := DEFAULT_EMBEDDING_MODEL env;
     OLLAMA_EMBEDDING_MODEL := OLLAMA_EMBEDDING_MODEL env;
     OLLAMA_BASE_URL := OLLAMA_BASE_URL env;
     OPENAI_MODEL := openaiModel;
     ANTHROPIC_MODEL := anthropicModel;
     OLLAMA_MODEL := OLLAMA_MODEL env |}.

(** A request to a generation provider, as opposed to an embedding one. *)
Definition isChatCall (c : ProviderCall) : bool :=
  match c with
  | OpenAIChat _ _ _ | AnthropicChat _ _ _ _ | OllamaGenerate _ _ _ => true
  | OpenAIEmbed _ _ | OllamaEmbed _ _ _ => false
  end.

(** Providers that answer every request. *)
Definition extAllUp : External float :=
  {| openai_embeddings_create := fun _ _ => Ok (padTo 1536 [1%float], 7%Z);
     ollama_api_embeddings := fun _ _ _ => Some (padTo 768 [1%float]);
     openai_chat_completions_create := fun _ _ _ => Some ("a cloud answer", 42%Z);
     anthropic_messages_create := fun _ _ _ _ => Some ("another cloud answer", 43%Z);
     ollama_api_generate := fun _ _ _ => Some "a local answer";
     qdrant_score := fun a b => match calculateSimilarity a b with
                                | Ok s => s
                                | Throw _ => 0%float
                                end;
     uuidv4 := fun n => N.of_nat (1000 + n);
     sessionIdGen := fun _ => "session_1_abc" |}.


Section DocumentVocabulary.
Context {T : Type} `{Number T}.

(** A sentence [processDocument] turns into a node: its trimmed length
    is at least 20. *)
Definition longEnough (s : string) : bool :=
  negb (Nat.ltb (String.length (trim s)) 20).

(** The shape of a node made from a sentence of a document. *)
Definition documentConcept (userId : string) (source : option string)
           (n : KnowledgeNode T) : Prop :=
  n_userId n = userId /\ n_type n = TConcept /\
  n_metadata n = {| source := source; confidence := Some (ndec 8 1);
                    tags := ["document"] |} /\
  n_connections n = [] /\ n_embedding n <> None.

(** The world holds the nodes [oldN] and the relations [oldR] as they
    are, followed by nodes and relations of the tenant only. *)
Definition grows (userId : string) (oldN : list (KnowledgeNode T))
           (oldR : list (KnowledgeRelation T)) (w : World T) : Prop :=
  exists ns rs,
    w_nodes w = oldN ++ ns /\ w_relations w = oldR ++ rs /\
    Forall (fun n => n_userId n = userId) ns /\
    Forall (fun r => r_userId r = userId) rs.
End DocumentVocabulary.


(* ================================================================== *)
(** ** Further services *)

(* ---------------------------------------------------------------- *)
(** *** EmbeddingService.generateEmbeddings *)

Section BatchEmbedding.
Context {T : Type} `{Number T}.
Variable env : ProcessEnv.
Variable ext : External T.

(** [openai.embeddings.create] with an array as [input]: the vectors of
    [response.data], in order, and [response.usage.total_tokens]. *)
Variable openai_embeddings_create_batch :
  string -> list string -> Result (list (list T) * Z).

Local Open Scope js_scope.

(** An element of the result of [generateEmbeddings]; [tokens] is a
    quotient there, hence a [number]. *)
Record BatchEmbeddingResponse : Type := {
  be_embedding : list T;
  be_model : string;
  be_tokens : T
}.

Definition ofSingle (e : EmbeddingResponse T) : BatchEmbeddingResponse :=
  {| be_embedding := embedding e; be_model := model e; be_tokens := nofZ (tokens e) |}.

(** The loop [for (const text of texts)] of the fallback. *)
Fixpoint embedEachWithOllama (texts : list string) (model : option string)
         (embeddings : list BatchEmbeddingResponse)
  : M (World T) (list BatchEmbeddingResponse) :=
  match texts with
  | [] => ret embeddings
  | text :: rest =>
      embedding <- generateEmbeddingWithOllama env ext text model ;;
      embedEachWithOllama rest model (embeddings ++ [ofSingle embedding])
  end.

(** The batch request itself is not entered in the log of requests, which
    records the single-text requests. *)
Definition generateEmbeddings (texts : list string) (model : option string)
  : M (World T) (list BatchEmbeddingResponse) :=
  tryCatch
    (let embeddingModel :=
       orStr model (orStr (DEFAULT_EMBEDDING_MODEL env) "text-embedding-3-small") in
     response <- liftR (openai_embeddings_create_batch embeddingModel texts) ;;
     ret (map (fun item =>
                 {| be_embedding := item;
                    be_model := embeddingModel;
                    be_tokens := ndiv (nofZ (snd response))
                                      (nofZ (Z.of_nat (List.length texts))) |})
              (fst response)))
    (fun message =>
       if useOllamaFallback env then
         tryCatch
           (embedEachWithOllama texts model [])
           (fun _ => throw "Failed to generate embeddings with any provider")
       else throw ("OpenAI batch embedding failed: " ++ message)).
End BatchEmbedding.

Arguments BatchEmbeddingResponse : clear implicits.

(* ---------------------------------------------------------------- *)
(** *** DatabaseManager.ensureCollectionExists (config/database.ts) *)

(** [config.params.vectors] of a collection: one unnamed vector, or a map
    of named vectors. *)
Inductive VectorsConfig : Type :=
| SingleVector (size : nat) (distance : string)
| NamedVectors (vectors : list (string * (nat * string))).

Section Collections.
(** The points of a collection are not looked at. *)
Variable P : Type.

Record Collection : Type := {
  c_name : string;
  c_vectors : option VectorsConfig;
  c_points : list P
}.

(** The Qdrant server as the client sees it. *)
Record Qdrant : Type := {
  q_reachable : bool;
  q_collections : list Collection
}.

Local Open Scope js_scope.

Definition setCollections (q : Qdrant) (cs : list Collection) : Qdrant :=
  {| q_reachable := q_reachable q; q_collections := cs |}.

(** Every call of the client fails when the server cannot be reached. *)
Definition request {A : Type} (m : M Qdrant A) : M Qdrant A :=
  fun q => if q_reachable q then m q else (Throw "fetch failed", q).

Definition getCollections : M Qdrant (list string) :=
  request (q <- get ;; ret (map c_name (q_collections q))).

Definition getCollection (name : string) : M Qdrant Collection :=
  request (q <- get ;;
           match find (fun c => String.eqb (c_name c) name) (q_collections q) with
           | Some c => ret c
           | None => throw "Not found"
           end).

Definition deleteCollection (name : string) : M Qdrant unit :=
  request (modify (fun q =>
                     setCollections q
                       (filter (fun c => negb (String.eqb (c_name c) name))
                               (q_collections q)))).

Definition createCollection (name : string) (vectors : VectorsConfig) : M Qdrant unit :=
  request (q <- get ;;
           if existsb (fun c => String.eqb (c_name c) name) (q_collections q)
           then throw "Conflict"
           else put (setCollections q
                       (q_collections q ++
                        [{| c_name := name; c_vectors := Some vectors;
                            c_points := [] |}]))).

(** The configuration both branches create. *)
Definition multiVector : VectorsConfig :=
  NamedVectors [("openai", (1536, "Cosine")); ("ollama", (768, "Cosine"))].

(** [vectors && typeof vectors === 'object' && 'size' in vectors]: true of
    the single-vector format, and of a map with a vector named [size]. *)
Definition hasSizeKey (vectors : option VectorsConfig) : bool :=
  match vectors with
  | None => false
  | Some (SingleVector _ _) => true
  | Some (NamedVectors vs) => existsb (fun v => String.eqb (fst v) "size") vs
  end.

(** [qdrantClient] is the client, if [connectQdrant] has set one;
    [QDRANT_COLLECTION_NAME] is the environment variable. *)
Definition ensureCollectionExists (qdrantClient : bool)
           (QDRANT_COLLECTION_NAME : option string) : M Qdrant unit :=
  if negb qdrantClient then ret tt
  else
    let collectionName := orStr QDRANT_COLLECTION_NAME "knowledge_embeddings" in
    tryCatch
      (collections <- getCollections ;;
       let collectionExists := existsb (fun col => String.eqb col collectionName)
                                       collections in
       if collectionExists then
         collectionInfo <- getCollection collectionName ;;
         if hasSizeKey (c_vectors collectionInfo) then
           deleteCollection collectionName ;;;
           createCollection collectionName multiVector
         else ret tt
       else createCollection collectionName multiVector)
      (fun message => throw message).
End Collections.

Arguments c_name {P} _.
Arguments c_vectors {P} _.
Arguments c_points {P} _.
Arguments q_reachable {P} _.
Arguments q_collections {P} _.
Arguments ensureCollectionExists {P} _ _ _.

(** The size the configuration gives a named vector. *)
Definition configuredSize (vectors : VectorsConfig) (name : string) : option nat :=
  match vectors with
  | SingleVector _ _ => None
  | NamedVectors vs =>
      option_map (fun v => fst (snd v))
                 (find (fun v => String.eqb (fst v) name) vs)
  end.

(* ---------------------------------------------------------------- *)
(** *** Users and their API keys (models/User.ts) *)

Record StoredApiKey : Type := {
  sk_id : ObjectId;
  sk_provider : string;
  sk_key : string;
  sk_model : option string;
  sk_baseUrl : option string;
  sk_isActive : bool
}.

(** A user document, as far as the API-key handlers read it. *)
Record UserDocument : Type := {
  u_id : string;
  u_apiKeys : list StoredApiKey
}.

Record UserStore : Type := {
  us_reachable : bool;
  us_users : list UserDocument;
  us_nextOid : ObjectId
}.

Record ModelProvider : Type := {
  mp_name : string;
  mp_type : string;
  mp_models : list string;
  mp_baseUrl : option string;
  mp_apiKey : option string;
  mp_isDefault : bool;
  mp_customKeyId : option ObjectId
}.

(** [c.toUpperCase()] on one code unit below 256: the letters [a-z] and
    the Latin-1 letters whose capital is again below 256. *)
Definition toUpperCase (c : ascii) : ascii :=
  let n := nat_of_ascii c in
  if (Nat.leb 97 n && Nat.leb n 122) ||
     (Nat.leb 224 n && Nat.leb n 254 && negb (Nat.eqb n 247))
  then ascii_of_nat (n - 32) else c.

(** [s.charAt(0).toUpperCase() + s.slice(1)]. *)
Definition capitalize (s : string) : string :=
  match s with
  | EmptyString => EmptyString
  | String c s' => String (toUpperCase c) s'
  end.

Section Users.
Variable env : ProcessEnv.

Local Open Scope js_scope.

(** [User.findById(userId)]. *)
Definition findById (userId : string) : M UserStore (option UserDocument) :=
  fun s =>
    if us_reachable s
    then (Ok (find (fun u => String.eqb (u_id u) userId) (us_users s)), s)
    else (Throw "MongoNetworkError", s).

Definition getModelsForProvider (provider : string) : list string :=
  if String.eqb provider "openai" then
    ["gpt-4-turbo-preview"; "gpt-4"; "gpt-3.5-turbo"; "gpt-4o"; "gpt-4o-mini"]
  else if String.eqb provider "anthropic" then
    ["claude-3-sonnet-20240229"; "claude-3-haiku-20240307";
     "claude-3-opus-20240229"; "claude-3-5-sonnet-20241022"]
  else if String.eqb provider "ollama" then
    ["llama2"; "codellama"; "mistral"; "neural-chat"; "deepseek-r1:1.5b";
     "qwen2.5"; "gemma2"]
  else [].

Definition openaiDefault : ModelProvider :=
  {| mp_name := "OpenAI (Default)"; mp_type := "openai";
     mp_models := ["gpt-4-turbo-preview"; "gpt-4"; "gpt-3.5-turbo"];
     mp_baseUrl := None; mp_apiKey := OPENAI_API_KEY env;
     mp_isDefault := true; mp_customKeyId := None |}.

Definition anthropicDefault : ModelProvider :=
  {| mp_name := "Anthropic (Default)"; mp_type := "anthropic";
     mp_models := ["claude-3-sonnet-20240229"; "claude-3-haiku-20240307";
                   "claude-3-opus-20240229"];
     mp_baseUrl := None; mp_apiKey := ANTHROPIC_API_KEY env;
     mp_isDefault := true; mp_customKeyId := None |}.

Definition ollamaLocal : ModelProvider :=
  {| mp_name := "Ollama (Local)"; mp_type := "ollama";
     mp_models := ["llama2"; "codellama"; "mistral"; "neural-chat";
                   "deepseek-r1:1.5b"];
     mp_baseUrl := Some (orStr (OLLAMA_BASE_URL env) "http://localhost:11434");
     mp_apiKey := None; mp_isDefault := true; mp_customKeyId := None |}.

(** The provider entry made of a stored key. *)
Definition customProviderOf (apiKey : StoredApiKey) : ModelProvider :=
  {| mp_name := (capitalize (sk_provider apiKey) ++ " (Custom)")%string;
     mp_type := sk_provider apiKey;
     mp_models := getModelsForProvider (sk_provider apiKey);
     mp_baseUrl := sk_baseUrl apiKey;
     mp_apiKey := Some (sk_key apiKey);
     mp_isDefault := false;
     mp_customKeyId := Some (sk_id apiKey) |}.

(** The body of [user.apiKeys.forEach]. *)
Definition pushIfActive (providers : list ModelProvider) (apiKey : StoredApiKey)
  : list ModelProvider :=
  if sk_isActive apiKey then providers ++ [customProviderOf apiKey] else providers.

Definition getAvailableProviders (userId : option string)
  : M UserStore (list ModelProvider) :=
  let providers := [] in
  let providers :=
    if truthyStr (OPENAI_API_KEY env) then providers ++ [openaiDefault]
    else providers in
  let providers :=
    if truthyStr (ANTHROPIC_API_KEY env) then providers ++ [anthropicDefault]
    else providers in
  let providers := providers ++ [ollamaLocal] in
  if truthyStr userId then
    tryCatch
      (user <- findById (orStr userId "") ;;
       match user with
       | Some u => ret (fold_left pushIfActive (u_apiKeys u) providers)
       | None => ret providers
       end)
      (fun _ => ret providers)
  else ret providers.

(** The reply of a handler: a status and, with status 200, data. *)
Inductive Reply (A : Type) : Type :=
| Success (data : A)
| Failure (status : nat) (error : string).

(** [ChatController.getAvailableProviders]. *)
Definition getAvailableProvidersHandler (reqUserId : option string)
  : M UserStore (Reply (list ModelProvider)) :=
  tryCatch
    (providers <- getAvailableProviders reqUserId ;;
     ret (Success providers))
    (fun _ => ret (Failure _ 500 "Failed to get providers")).

(* ---------------------------------------------------------------- *)
(** *** UserController: addApiKey, updateApiKey, deleteApiKey *)

(** What the handlers send back of a key: everything but the key. *)
Record ApiKeyView : Type := {
  v_id : ObjectId;
  v_provider : string;
  v_model : option string;
  v_baseUrl : option string;
  v_isActive : bool
}.

Definition viewOf (k : StoredApiKey) : ApiKeyView :=
  {| v_id := sk_id k; v_provider := sk_provider k; v_model := sk_model k;
     v_baseUrl := sk_baseUrl k; v_isActive := sk_isActive k |}.

(** [ApiKeySchema]: [provider] is one of the enum, [key] is required. *)
Definition validApiKey (k : StoredApiKey) : bool :=
  (String.eqb (sk_provider k) "openai" || String.eqb (sk_provider k) "anthropic" ||
   String.eqb (sk_provider k) "ollama") &&
  negb (String.eqb (sk_key k) "").

(** Replaces the first document with the id of [u]. *)
Fixpoint replaceUser (u : UserDocument) (us : list UserDocument) : list UserDocument :=
  match us with
  | [] => []
  | x :: us' =>
      if String.eqb (u_id x) (u_id u) then u :: us' else x :: replaceUser u us'
  end.

(** [user.save()]: the sub-documents are validated, then the document is
    written. *)
Definition saveUser (u : UserDocument) : M UserStore unit :=
  fun s =>
    if negb (forallb validApiKey (u_apiKeys u)) then (Throw "User validation failed", s)
    else if us_reachable s then
      (Ok tt, {| us_reachable := us_reachable s;
                 us_users := replaceUser u (us_users s);
                 us_nextOid := us_nextOid s |})
    else (Throw "MongoNetworkError", s).

(** The [_id] a pushed sub-document is given. *)
Definition freshKeyId : M UserStore ObjectId :=
  fun s => (Ok (us_nextOid s),
            {| us_reachable := us_reachable s; us_users := us_users s;
               us_nextOid := N.succ (us_nextOid s) |}).

Record AddKeyBody : Type := {
  ab_provider : option string;
  ab_key : option string;
  ab_model : option string;
  ab_baseUrl : option string
}.

Definition addApiKey (body : AddKeyBody) (reqUserId : option string)
  : M UserStore (Reply ApiKeyView) :=
  tryCatch
    (if negb (truthyStr reqUserId) then ret (Failure _ 401 "Unauthorized")
     else if negb (truthyStr (ab_provider body)) || negb (truthyStr (ab_key body)) then
       ret (Failure _ 400 "Provider and key are required")
     else
       user <- findById (orStr reqUserId "") ;;
       match user with
       | None => ret (Failure _ 404 "User not found")
       | Some u =>
           id <- freshKeyId ;;
           let addedKey := {| sk_id := id;
                              sk_provider := orStr (ab_provider body) "";
                              sk_key := orStr (ab_key body) "";
                              sk_model := ab_model body;
                              sk_baseUrl := ab_baseUrl body;
                              sk_isActive := true |} in
           saveUser {| u_id := u_id u; u_apiKeys := u_apiKeys u ++ [addedKey] |} ;;;
           ret (Success (viewOf addedKey))
       end)
    (fun _ => ret (Failure _ 500 "Failed to add API key")).

(** A field of the body is [None] when it is [undefined]. *)
Record UpdateKeyBody : Type := {
  ub_key : option string;
  ub_model : option string;
  ub_baseUrl : option string;
  ub_isActive : option bool
}.

(** The four conditional assignments. *)
Definition applyUpdate (body : UpdateKeyBody) (k : StoredApiKey) : StoredApiKey :=
  {| sk_id := sk_id k;
     sk_provider := sk_provider k;
     sk_key := match ub_key body with Some key => key | None => sk_key k end;
     sk_model := match ub_model body with Some m => Some m | None => sk_model k end;
     sk_baseUrl := match ub_baseUrl body with
                   | Some b => Some b
                   | None => sk_baseUrl k
                   end;
     sk_isActive := match ub_isActive body with
                    | Some a => a
                    | None => sk_isActive k
                    end |}.

(** Applies [f] to the first key with the given id. *)
Fixpoint updateKey (keyId : ObjectId) (f : StoredApiKey -> StoredApiKey)
         (ks : list StoredApiKey) : list StoredApiKey :=
  match ks with
  | [] => []
  | k :: ks' =>
      if N.eqb (sk_id k) keyId then f k :: ks' else k :: updateKey keyId f ks'
  end.

(** Removes the first key with the given id. *)
Fixpoint removeKey (keyId : ObjectId) (ks : list StoredApiKey) : list StoredApiKey :=
  match ks with
  | [] => []
  | k :: ks' => if N.eqb (sk_id k) keyId then ks' else k :: removeKey keyId ks'
  end.

(** [user.apiKeys.id(keyId)]. *)
Definition keyById (keyId : ObjectId) (u : UserDocument) : option StoredApiKey :=
  find (fun k => N.eqb (sk_id k) keyId) (u_apiKeys u).

Definition updateApiKey (keyId : ObjectId) (body : UpdateKeyBody)
           (reqUserId : option string) : M UserStore (Reply ApiKeyView) :=
  tryCatch
    (if negb (truthyStr reqUserId) then ret (Failure _ 401 "Unauthorized")
     else
       user <- findById (orStr reqUserId "") ;;
       match user with
       | None => ret (Failure _ 404 "User not found")
       | Some u =>
           match keyById keyId u with
           | None => ret (Failure _ 404 "API key not found")
           | Some apiKey =>
               saveUser {| u_id := u_id u;
                           u_apiKeys := updateKey keyId (applyUpdate body)
                                                  (u_apiKeys u) |} ;;;
               ret (Success (viewOf (applyUpdate body apiKey)))
           end
       end)
    (fun _ => ret (Failure _ 500 "Failed to update API key")).

Definition deleteApiKey (keyId : ObjectId) (reqUserId : option string)
  : M UserStore (Reply unit) :=
  tryCatch
    (if negb (truthyStr reqUserId) then ret (Failure _ 401 "Unauthorized")
     else
       user <- findById (orStr reqUserId "") ;;
       match user with
       | None => ret (Failure _ 404 "User not found")
       | Some u =>
           match keyById keyId u with
           | None => ret (Failure _ 404 "API key not found")
           | Some apiKey =>
               saveUser {| u_id := u_id u;
                           u_apiKeys := removeKey keyId (u_apiKeys u) |} ;;;
               ret (Success tt)
           end
       end)
    (fun _ => ret (Failure _ 500 "Failed to delete API key")).
End Users.

Arguments Success {A} _.
Arguments Failure {A} _ _.

(** The custom entries among the providers offered. *)
Definition customEntries (providers : list ModelProvider) : list ModelProvider :=
  filter (fun p => negb (mp_isDefault p)) providers.

(** The keys of a user, if stored. *)
Definition keysOf (userId : string) (s : UserStore) : list StoredApiKey :=
  match find (fun u => String.eqb (u_id u) userId) (us_users s) with
  | Some u => u_apiKeys u
  | None => []
  end.

(** A store with one user, who has an active and an inactive key. *)
Definition usersOne : UserStore :=
  {| us_reachable := true;
     us_users := [{| u_id := "alice";
                     u_apiKeys :=
                       [{| sk_id := 1%N; sk_provider := "anthropic";
                           sk_key := "sk-ant-tenant"; sk_model := None;
                           sk_baseUrl := None; sk_isActive := true |};
                        {| sk_id := 2%N; sk_provider := "openai";
                           sk_key := "sk-old"; sk_model := None;
                           sk_baseUrl := None; sk_isActive := false |}] |};
                  {| u_id := "bob"; u_apiKeys := [] |}];
     us_nextOid := 3%N |}.


(* ---------------------------------------------------------------- *)
(** *** KnowledgeController *)

Module KnowledgeController.
Section Handlers.
Context {T : Type} `{Number T}.
Variable env : ProcessEnv.
Variable ext : External T.

(** [path.extname(name).toLowerCase()], a function of the file name. *)
Variable extnameLower : string -> string.

Local Open Scope js_scope.

(** The body of [POST /nodes]; a field is [None] when it is missing or
    empty, [type] is one of the four node types. *)
Record AddNodeBody : Type := {
  nb_title : option string;
  nb_content : option string;
  nb_type : option NodeType;
  nb_metadata : option (NodeMetadata T)
}.

(** [{ ...metadata }] of a body without metadata. *)
Definition noMetadata : NodeMetadata T :=
  {| source := None; confidence := None; tags := [] |}.

Definition addNode (body : AddNodeBody) (reqUserId : option string)
  : M (World T) (Reply (KnowledgeNode T)) :=
  tryCatch
    (let userId := orStr reqUserId "anonymous" in
     match nb_type body with
     | Some type =>
         if negb (truthyStr (nb_title body)) || negb (truthyStr (nb_content body)) then
           ret (Failure 400 "Title, content, and type are required")
         else
           node <- addNode env ext
                     {| in_userId := userId;
                        in_title := orStr (nb_title body) "";
                        in_content := orStr (nb_content body) "";
                        in_type := type;
                        in_metadata := match nb_metadata body with
                                       | Some metadata => metadata
                                       | None => noMetadata
                                       end;
                        in_connections := [] |} ;;
           ret (Success node)
     | None => ret (Failure 400 "Title, content, and type are required")
     end)
    (fun _ => ret (Failure 500 "Failed to add knowledge node")).

Record AddRelationBody : Type := {
  rb_sourceNodeId : option ObjectId;
  rb_targetNodeId : option ObjectId;
  rb_relationType : option string;
  rb_strength : option T;
  rb_metadata : option (list (string * T))
}.

Definition addRelation (body : AddRelationBody) (reqUserId : option string)
  : M (World T) (Reply (KnowledgeRelation T)) :=
  tryCatch
    (let userId := orStr reqUserId "anonymous" in
     match rb_sourceNodeId body, rb_targetNodeId body with
     | Some sourceNodeId, Some targetNodeId =>
         if negb (truthyStr (rb_relationType body)) then
           ret (Failure 400
                  "Source node ID, target node ID, and relation type are required")
         else
           relation <- addRelation
                         {| ri_userId := userId;
                            ri_sourceNodeId := sourceNodeId;
                            ri_targetNodeId := targetNodeId;
                            ri_relationType := orStr (rb_relationType body) "";
                            ri_strength := orNum (rb_strength body) (ndec 5 1);
                            ri_metadata := match rb_metadata body with
                                           | Some metadata => metadata
                                           | None => []
                                           end |} ;;
           ret (Success relation)
     | _, _ =>
         ret (Failure 400
                "Source node ID, target node ID, and relation type are required")
     end)
    (fun _ => ret (Failure 500 "Failed to add knowledge relation")).

(** [DELETE /nodes/:nodeId], for an id that parses. *)
Definition deleteNode (nodeId : ObjectId) (reqUserId : option string)
  : M (World T) (Reply string) :=
  tryCatch
    (let userId := orStr reqUserId "anonymous" in
     deleteNode ext nodeId userId ;;;
     ret (Success "Node deleted successfully"))
    (fun _ => ret (Failure 500 "Failed to delete knowledge node")).

(* .................................................................. *)
(** [uploadDocument] works on the graph and on the upload directory. *)

Record Upload : Type := {
  up_world : World T;
  up_files : string -> option string
}.

(** [req.file], as far as it is read. *)
Record UploadedFile : Type := {
  f_originalname : string;
  f_path : string
}.

Record UploadData : Type := {
  ud_filename : string;
  ud_summary : string;
  ud_nodesCount : nat;
  ud_relationsCount : nat;
  ud_nodes : list (KnowledgeNode T);
  ud_relations : list (KnowledgeRelation T)
}.

(** A service call, run on the graph part of the state. *)
Definition onWorld {A : Type} (m : M (World T) A) : M Upload A :=
  fun st => let (r, w) := m (up_world st) in
            (r, {| up_world := w; up_files := up_files st |}).

(** [fs.readFile(path, 'utf-8')]. *)
Definition readFile (path : string) : M Upload string :=
  fun st => match up_files st path with
            | Some content => (Ok content, st)
            | None => (Throw "ENOENT: no such file or directory", st)
            end.

(** [fs.unlink(path)]. *)
Definition unlink (path : string) : M Upload unit :=
  fun st => match up_files st path with
            | Some _ =>
                (Ok tt, {| up_world := up_world st;
                           up_files := fun p => if String.eqb p path then None
                                                else up_files st p |})
            | None => (Throw "ENOENT: no such file or directory", st)
            end.

(** The [switch (fileType)]: the content to process, or [None] for the
    [default] branch, which replies and returns. *)
Definition contentOf (fileType : string) (file : UploadedFile)
  : M Upload (option string) :=
  if String.eqb fileType ".txt" || String.eqb fileType ".md" then
    content <- readFile (f_path file) ;; ret (Some content)
  else if String.eqb fileType ".pdf" then
    ret (Some "PDF content extraction not implemented yet")
  else if String.eqb fileType ".docx" then
    ret (Some "DOCX content extraction not implemented yet")
  else ret None.

Definition uploadDocument (file : option UploadedFile) (reqUserId : option string)
  : M Upload (Reply UploadData) :=
  tryCatch
    (let userId := orStr reqUserId "anonymous" in
     match file with
     | None => ret (Failure 400 "No file uploaded")
     | Some file =>
         let fileType := extnameLower (f_originalname file) in
         tryCatch
           (selected <- contentOf fileType file ;;
            match selected with
            | None => ret (Failure 400 "Unsupported file type")
            | Some content =>
                result <- onWorld (processDocument env ext content userId
                                     (Some (f_originalname file))) ;;
                unlink (f_path file) ;;;
                ret (Success {| ud_filename := f_originalname file;
                                ud_summary := pr_summary result;
                                ud_nodesCount := List.length (pr_nodes result);
                                ud_relationsCount := List.length (pr_relations result);
                                ud_nodes := pr_nodes result;
                                ud_relations := pr_relations result |})
            end)
           (fun fileError =>
              tryCatch (unlink (f_path file)) (fun _ => ret tt) ;;;
              throw fileError)
     end)
    (fun _ => ret (Failure 500 "Failed to process document")).

(** The file types [uploadDocument] processes. *)
Definition supported (fileType : string) : bool :=
  String.eqb fileType ".txt" || String.eqb fileType ".md" ||
  String.eqb fileType ".pdf" || String.eqb fileType ".docx".
End Handlers.
End KnowledgeController.

(** The last four characters of the name, as a stand-in for
    [path.extname] on the names of the scenario. *)
Definition lastFour (name : string) : string :=
  String.substring (String.length name - 4) 4 name.

(** An upload directory that holds one PDF. *)
Definition uploadOne : KnowledgeController.Upload (T := float) :=
  {| KnowledgeController.up_world := emptyWorld;
     KnowledgeController.up_files :=
       fun p => if String.eqb p "uploads/document-1.pdf" then Some "%PDF-1.7 ..."
                else None |}.

Definition reportFile : KnowledgeController.UploadedFile :=
  {| KnowledgeController.f_originalname := "report.pdf";
     KnowledgeController.f_path := "uploads/document-1.pdf" |}.



(* ================================================================== *)
(** * Properties *)

Unset Implicit Arguments.

(* ================================================================== *)
(** ** Laws of the two arithmetics *)

Lemma SFmul_comm (prec emax : Z) (x y : spec_float) :
  SFmul prec emax x y = SFmul prec emax y x.
Proof.
  destruct x as [sx|sx| |sx mx ex], y as [sy|sy| |sy my ey]; simpl;
    try reflexivity; try (rewrite (xorb_comm sx sy); reflexivity).
  rewrite (xorb_comm sx sy), (Pos.mul_comm mx my), (Z.add_comm ex ey).
  reflexivity.
Qed.

Lemma float_mul_comm (x y : float) : PrimFloat.mul x y = PrimFloat.mul y x.
Proof.
  apply Prim2SF_inj. rewrite !FloatAxioms.mul_spec. apply SFmul_comm.
Qed.

(** [x === 0] holds of the two zeros only. *)
Lemma float_eqb_zero (x : float) :
  PrimFloat.eqb x PrimFloat.zero = true ->
  x = PrimFloat.zero \/ x = PrimFloat.neg_zero.
Proof.
  rewrite FloatAxioms.eqb_spec. intros E.
  rewrite <- (SF2Prim_Prim2SF x).
  destruct (Prim2SF x) as [s|s| |s m e]; try (vm_compute in E; discriminate).
  - destruct s; [right|left]; reflexivity.
  - destruct s; vm_compute in E; discriminate.
  - destruct s; vm_compute in E; discriminate.
Qed.

#[export] Instance float_NumberLaws : NumberLaws float_Number.
Proof.
  split; simpl.
  - apply float_mul_comm.
  - reflexivity.
  - intros x y Hx Hy.
    destruct (float_eqb_zero _ Hx) as [-> | ->],
             (float_eqb_zero _ Hy) as [-> | ->]; reflexivity.
  - intros x Hx. destruct (float_eqb_zero _ Hx) as [-> | ->]; reflexivity.
  - intros x Hx. destruct (float_eqb_zero _ Hx) as [-> | ->]; reflexivity.
Qed.

Lemma Reqb_true (x y : R) : Reqb x y = true <-> x = y.
Proof.
  unfold Reqb. destruct (Req_dec_T x y); split; intros; congruence.
Qed.

Lemma Reqb_false (x y : R) : Reqb x y = false <-> x <> y.
Proof.
  unfold Reqb. destruct (Req_dec_T x y); split; intros; congruence.
Qed.

#[export] Instance R_NumberLaws : NumberLaws R_Number.
Proof.
  split; simpl.
  - intros. apply Rmult_comm.
  - apply Reqb_true. reflexivity.
  - intros x y Hx Hy. apply Reqb_true in Hx, Hy. apply Reqb_true. lra.
  - intros x Hx. apply Reqb_true in Hx. apply Reqb_true. subst. lra.
  - intros x Hx. apply Reqb_true in Hx. apply Reqb_true. subst. apply sqrt_0.
Qed.

(** The literals of the source are the doubles the decimal notation denotes. *)
Lemma float_literals :
  (ndec 5 1 : float) = 0.5%float /\
  (ndec 7 1 : float) = 0x1.6666666666666p-1%float /\
  (ndec 8 1 : float) = 0x1.999999999999ap-1%float /\
  (nofZ 1 : float) = 1%float.
Proof. repeat split; reflexivity. Qed.

(* ================================================================== *)
(** ** Cosine similarity *)

Section SimilarityLaws.
Context {T : Type} {N : Number T} {L : NumberLaws N}.

Lemma similarityLoop_swap (e1 e2 : list T) (a : Acc T) :
  similarityLoop (swapAcc a) e2 e1 = swapAcc (similarityLoop a e1 e2).
Proof.
  revert e2 a. induction e1 as [|x e1 IH]; intros [|y e2] a; simpl; try reflexivity.
  rewrite <- IH. f_equal. unfold swapAcc, similarityStep; simpl.
  rewrite (nmul_comm y x). reflexivity.
Qed.


Lemma similarityLoop_norm1_zero (e1 e2 : list T) (a : Acc T) :
  Forall isZero e1 -> isZero (norm1 a) -> isZero (norm1 (similarityLoop a e1 e2)).
Proof.
  intros F. revert e2 a. induction F as [|x e1 Hx F IH]; intros [|y e2] a Ha;
    simpl; try assumption.
  apply IH. simpl. apply neqb_zero_add; [assumption|].
  apply neqb_zero_square, Hx.
Qed.

Lemma similarityLoop_norm2_zero (e1 e2 : list T) (a : Acc T) :
  Forall isZero e2 -> isZero (norm2 a) -> isZero (norm2 (similarityLoop a e1 e2)).
Proof.
  intros F Ha.
  pose proof (similarityLoop_norm1_zero e2 e1 (swapAcc a) F Ha) as Z.
  rewrite similarityLoop_swap in Z. exact Z.
Qed.

(** Equal lengths: the call returns, never throws. *)
Lemma calculateSimilarity_returns (e1 e2 : list T) :
  List.length e1 = List.length e2 -> exists v, calculateSimilarity e1 e2 = Ok v.
Proof.
  intros Len. unfold calculateSimilarity.
  rewrite (proj2 (Nat.eqb_eq _ _) Len). simpl.
  destruct (_ || _); eexists; reflexivity.
Qed.

Lemma calculateSimilarity_throws (e1 e2 : list T) :
  List.length e1 <> List.length e2 ->
  calculateSimilarity e1 e2 = Throw "Embeddings must have the same length".
Proof.
  intros Len. unfold calculateSimilarity.
  rewrite (proj2 (Nat.eqb_neq _ _) Len). reflexivity.
Qed.

(** A vector of zeros on either side gives [0], whatever the other is. *)
Lemma calculateSimilarity_zero_vector (e1 e2 : list T) :
  List.length e1 = List.length e2 ->
  Forall isZero e1 \/ Forall isZero e2 ->
  calculateSimilarity e1 e2 = Ok nzero.
Proof.
  intros Len Z. unfold calculateSimilarity.
  rewrite (proj2 (Nat.eqb_eq _ _) Len). simpl.
  destruct Z as [Z | Z].
  - pose proof (similarityLoop_norm1_zero e1 e2 acc0 Z neqb_zero_refl) as N1.
    apply neqb_zero_sqrt in N1. unfold isZero in N1. rewrite N1. reflexivity.
  - pose proof (similarityLoop_norm2_zero e1 e2 acc0 Z neqb_zero_refl) as N2.
    apply neqb_zero_sqrt in N2. unfold isZero in N2. rewrite N2, orb_true_r.
    reflexivity.
Qed.

(** The quotient is formed only when both norms are non-zero. *)
Lemma calculateSimilarity_guard (e1 e2 : list T) (v : T) :
  calculateSimilarity e1 e2 = Ok v ->
  let a := similarityLoop acc0 e1 e2 in
  (neqb (nsqrt (norm1 a)) nzero = true \/ neqb (nsqrt (norm2 a)) nzero = true) /\
    v = nzero
  \/
  neqb (nsqrt (norm1 a)) nzero = false /\ neqb (nsqrt (norm2 a)) nzero = false /\
    v = ndiv (dotProduct a) (nmul (nsqrt (norm1 a)) (nsqrt (norm2 a))).
Proof.
  unfold calculateSimilarity.
  destruct (negb _); [discriminate|].
  simpl. destruct (neqb (nsqrt (norm1 _)) nzero) eqn:E1; simpl.
  - intros [= <-]. left. auto.
  - destruct (neqb (nsqrt (norm2 _)) nzero) eqn:E2; intros [= <-].
    + left. auto.
    + right. auto.
Qed.
End SimilarityLaws.


(** Rounding alone already moves the self-similarity of a non-zero vector
    of doubles away from [1]. *)
Lemma calculateSimilarity_self_rounding :
  calculateSimilarity [0x1p-1%float; 0x1.8p-2%float; 0x1p-3%float]
                      [0x1p-1%float; 0x1.8p-2%float; 0x1p-3%float]
  = Ok 0x1.0000000000001p+0%float.
Proof. reflexivity. Qed.

(** *** Doubles: the similarity of a vector with itself *)







(** C10: on vectors of equal length [calculateSimilarity] returns a
    number; it returns 0 as soon as one of the two norms it computed is
    zero, which is the case when all components of one of the vectors are
    zero, so the quotient is formed only with both norms non-zero; on
    vectors of unequal length it throws. *)
Theorem calculateSimilarity_total_guarded (e1 e2 : list float) :
  (List.length e1 = List.length e2 ->
     (exists v, calculateSimilarity e1 e2 = Ok v) /\
     (Forall (fun x => PrimFloat.eqb x 0%float = true) e1 \/
      Forall (fun x => PrimFloat.eqb x 0%float = true) e2 ->
      calculateSimilarity e1 e2 = Ok 0%float) /\
     (forall v, calculateSimilarity e1 e2 = Ok v ->
        let a := similarityLoop acc0 e1 e2 in
        (PrimFloat.eqb (PrimFloat.sqrt (norm1 a)) 0%float = true \/
         PrimFloat.eqb (PrimFloat.sqrt (norm2 a)) 0%float = true) /\ v = 0%float
        \/
        PrimFloat.eqb (PrimFloat.sqrt (norm1 a)) 0%float = false /\
        PrimFloat.eqb (PrimFloat.sqrt (norm2 a)) 0%float = false /\
        v = PrimFloat.div (dotProduct a)
              (PrimFloat.mul (PrimFloat.sqrt (norm1 a)) (PrimFloat.sqrt (norm2 a))))) /\
  (List.length e1 <> List.length e2 ->
     calculateSimilarity e1 e2 = Throw "Embeddings must have the same length").
Proof.
  split.
  - intros Len. split; [|split].
    + apply calculateSimilarity_returns, Len.
    + apply (calculateSimilarity_zero_vector (L:=float_NumberLaws)), Len.
    + intros v E. apply (calculateSimilarity_guard e1 e2 v E).
  - apply calculateSimilarity_throws.
Qed.

Lemma calculateSimilarity_total_guarded_witness :
  calculateSimilarity [0%float; 0%float] [3%float; 4%float] = Ok 0%float /\
  calculateSimilarity [1%float] [3%float; 4%float]
  = Throw "Embeddings must have the same length".
Proof.
  split.
  - apply (proj1 (calculateSimilarity_total_guarded [0%float; 0%float] [3%float; 4%float]));
      [reflexivity|].
    left. repeat constructor.
  - apply (proj2 (calculateSimilarity_total_guarded [1%float] [3%float; 4%float])).
    simpl. lia.
Defined.

(** The same totality in exact arithmetic. *)
Lemma calculateSimilarity_total_R (e1 e2 : list R) :
  (List.length e1 = List.length e2 ->
     (exists v, calculateSimilarity e1 e2 = Ok v) /\
     (Forall (fun x => x = 0%R) e1 \/ Forall (fun x => x = 0%R) e2 ->
      calculateSimilarity e1 e2 = Ok 0%R)) /\
  (List.length e1 <> List.length e2 ->
     calculateSimilarity e1 e2 = Throw "Embeddings must have the same length").
Proof.
  split.
  - intros Len. split.
    + apply calculateSimilarity_returns, Len.
    + intros Z. apply (calculateSimilarity_zero_vector (L:=R_NumberLaws)); [exact Len|].
      destruct Z as [Z|Z]; [left|right];
        (eapply Forall_impl; [|exact Z]); intros x ->; apply Reqb_true; reflexivity.
  - apply calculateSimilarity_throws.
Qed.

(* ================================================================== *)
(** ** Strings: the operations on examples *)

Example splitSentences_two :
  splitSentences "AI is intelligence in machines. ML is a subset of AI that learns from data."
  = ["AI is intelligence in machines";
     " ML is a subset of AI that learns from data"; ""].
Proof. reflexivity. Qed.

Example splitSentences_runs : splitSentences "?a..b!?c." = [""; "a"; "b"; "c"; ""].
Proof. reflexivity. Qed.

Example splitSentences_empty : splitSentences "" = [""].
Proof. reflexivity. Qed.

Example trim_both_ends : trim "  a b  " = "a b".
Proof. reflexivity. Qed.

Example includes_examples :
  includes "text-embedding-3-small" "text-embedding" = true /\
  includes "nomic-embed-text" "nomic-embed" = true /\
  includes "nomic-embed-text" "openai" = false /\
  includes "abc" "" = true.
Proof. repeat split. Qed.

Example getVectorName_examples :
  getVectorName "text-embedding-3-small" = "openai" /\
  getVectorName "nomic-embed-text" = "ollama" /\
  getVectorName "mxbai-embed-large" = "openai" /\
  getVectorName "openai-nomic-embed" = "openai".
Proof. repeat split. Qed.

(* ================================================================== *)
(** ** The state monad *)

Ltac unfoldM :=
  unfold logCall in *;
  unfold bind, tryCatch, ret, throw, modify, get, put, liftR in *.

Lemma orStr_nonempty (x : option string) (d : string) :
  d <> "" -> orStr x d <> "".
Proof.
  intros D. destruct x as [[|c s]|]; simpl; congruence.
Qed.

Lemma orStr_Some (s d : string) : s <> "" -> orStr (Some s) d = s.
Proof.
  destruct s; simpl; congruence.
Qed.

Lemma ollamaDefaultModel_nonempty (env : ProcessEnv) : ollamaDefaultModel env <> "".
Proof.
  apply orStr_nonempty. discriminate.
Qed.

(* ================================================================== *)
(** ** Generation: provider selection and fallback *)

Section Generation.
Context {T : Type} `{Number T}.
Variable env : ProcessEnv.
Variable ext : External T.

(** Obtaining the session id never fails and issues no provider request. *)
Lemma sessionIdOf_ok (request : ChatRequest) (w : World T) :
  exists sid w', sessionIdOf ext request w = (Ok sid, w') /\
                 w_calls w' = w_calls w /\ w_nodes w' = w_nodes w /\
                 w_relations w' = w_relations w /\ w_points w' = w_points w.
Proof.
  unfold sessionIdOf. destruct (truthyStr (rq_sessionId request)).
  - eexists _, w. repeat split.
  - eexists _, _. unfold generateSessionId. repeat split.
Qed.

(** Steps over the session id in a goal about a provider call. *)
Ltac skipSession request :=
  match goal with
  | |- context [sessionIdOf _ request ?w0] =>
      let sid := fresh "sid" in
      let w' := fresh "w'" in
      let E := fresh "E" in
      destruct (sessionIdOf_ok request w0) as (sid & w' & E & _); rewrite E
  end.

(** What a call of the local provider does: one request is logged, and
    the outcome follows the provider's answer. *)
Lemma generateOllamaResponse_spec (request : ChatRequest) (model : string) (w : World T) :
  model <> "" ->
  let call := OllamaGenerate (ollamaBaseUrl env) model
                (systemPrompt request ++ rq_message request)%string in
  match ollama_api_generate ext (ollamaBaseUrl env) model
          (systemPrompt request ++ rq_message request)%string with
  | Some message =>
      exists sid w',
        generateOllamaResponse env ext request (Some model) w =
        (Ok {| cr_message := message; cr_sessionId := sid;
               cr_metadata := {| cm_model := model; cm_provider := "ollama";
                                 cm_tokens := 0;
                                 cm_sources := rq_context request |} |}, w') /\
        w_calls w' = w_calls w ++ [call]
  | None =>
      generateOllamaResponse env ext request (Some model) w =
      (Throw "Failed to generate Ollama response",
       setCalls w (w_calls w ++ [call]))
  end.
Proof.
  intros M call. unfold generateOllamaResponse, ollamaBaseUrl in *.
  rewrite (orStr_Some model _ M). unfoldM. simpl.
  destruct (ollama_api_generate ext _ model _) as [message|]; [|reflexivity].
  destruct (sessionIdOf_ok request (setCalls w (w_calls w ++ [call])))
    as (sid & w' & E & C & _).
  unfold call in E. unfold ollamaBaseUrl in E. rewrite E.
  exists sid, w'. split; [reflexivity|]. exact C.
Qed.

(** C3, first part: a failed attempt at a provider other than the local
    one is followed by exactly one request to the local provider, with
    the local default model; if that is answered, the answer is returned,
    tagged [ollama]. *)
Lemma generateResponse_fallback_ok (request : ChatRequest)
      (userApiKey : option string) (w w1 : World T) (m answer : string) :
  selectedProvider env request <> "ollama" ->
  callProvider env ext (selectedProvider env request)
    (orStr (rq_model request) (getDefaultModel env (selectedProvider env request)))
    request userApiKey w = (Throw m, w1) ->
  ollamaAnswers env ext request = Some answer ->
  exists response w2,
    generateResponse env ext request userApiKey w = (Ok response, w2) /\
    cr_message response = answer /\
    cm_provider (cr_metadata response) = "ollama" /\
    cm_model (cr_metadata response) = ollamaDefaultModel env /\
    w_calls w2 = w_calls w1 ++ [ollamaFallbackCall env request].
Proof.
  intros P F A. unfold generateResponse, tryCatch. rewrite F.
  apply String.eqb_neq in P. rewrite P. simpl.
  pose proof (generateOllamaResponse_spec request (ollamaDefaultModel env) w1
                (ollamaDefaultModel_nonempty env)) as S.
  unfold ollamaAnswers in A. simpl in S. rewrite A in S.
  destruct S as (sid & w2 & E & C).
  unfold ollamaDefaultModel in E at 1. rewrite E.
  eexists _, w2. split; [reflexivity|]. simpl. repeat split. exact C.
Qed.

(** C3, second part: if the local retry fails too, the error carries the
    message of both failures. *)
Lemma generateResponse_fallback_fails (request : ChatRequest)
      (userApiKey : option string) (w w1 : World T) (m : string) :
  selectedProvider env request <> "ollama" ->
  callProvider env ext (selectedProvider env request)
    (orStr (rq_model request) (getDefaultModel env (selectedProvider env request)))
    request userApiKey w = (Throw m, w1) ->
  ollamaAnswers env ext request = None ->
  generateResponse env ext request userApiKey w =
  (Throw ("All AI providers failed. Primary: " ++ m
          ++ ", Ollama: Failed to generate Ollama response"),
   setCalls w1 (w_calls w1 ++ [ollamaFallbackCall env request])).
Proof.
  intros P F A. unfold generateResponse, tryCatch. rewrite F.
  apply String.eqb_neq in P. rewrite P. simpl.
  pose proof (generateOllamaResponse_spec request (ollamaDefaultModel env) w1
                (ollamaDefaultModel_nonempty env)) as S.
  unfold ollamaAnswers in A. simpl in S. rewrite A in S.
  unfold ollamaDefaultModel in S at 1. rewrite S. reflexivity.
Qed.

(** C3, third part: when the local provider is the first choice, its
    failure is final: the error is rethrown as it is. *)
Lemma generateResponse_local_first (request : ChatRequest)
      (userApiKey : option string) (w w1 : World T) (m : string) :
  selectedProvider env request = "ollama" ->
  callProvider env ext (selectedProvider env request)
    (orStr (rq_model request) (getDefaultModel env (selectedProvider env request)))
    request userApiKey w = (Throw m, w1) ->
  generateResponse env ext request userApiKey w = (Throw m, w1).
Proof.
  intros P F. unfold generateResponse, tryCatch. rewrite F, P. reflexivity.
Qed.

(** The first attempt sends at most one request, [primaryCalls]. *)
Lemma callProvider_calls (request : ChatRequest) (userApiKey : option string)
      (w w1 : World T) (r : Result ChatResponse) :
  callProvider env ext (selectedProvider env request)
    (orStr (rq_model request) (getDefaultModel env (selectedProvider env request)))
    request userApiKey w = (r, w1) ->
  w_calls w1 = w_calls w ++ primaryCalls env request userApiKey.
Proof.
  unfold callProvider, primaryCalls, selectedProvider, getDefaultProvider.
  set (provider := orStr (rq_provider request) _).
  destruct (String.eqb provider "openai") eqn:Eo.
  { unfold generateOpenAIResponse, orOpt. unfoldM. simpl.
    destruct (openai_chat_completions_create ext _ _ _) as [[message tokens]|].
    - destruct (sessionIdOf_ok request
                  (setCalls w (w_calls w ++
                     [OpenAIChat (if truthyStr userApiKey then userApiKey
                                  else OPENAI_API_KEY env)
                                 (orStr (rq_model request) "gpt-4-turbo-preview")
                                 (buildMessages request)])))
        as (sid & w' & E & C & _).
      rewrite E. intros [= _ <-]. exact C.
    - intros [= _ <-]. reflexivity. }
  destruct (String.eqb provider "anthropic") eqn:Ea.
  { unfold generateAnthropicResponse, orOpt. unfoldM. simpl.
    destruct (anthropic_messages_create ext _ _ _ _) as [[message tokens]|].
    - destruct (sessionIdOf_ok request
                  (setCalls w (w_calls w ++
                     [AnthropicChat (if truthyStr userApiKey then userApiKey
                                     else ANTHROPIC_API_KEY env)
                                    (orStr (rq_model request) "claude-3-sonnet-20240229")
                                    (systemPrompt request) (rq_message request)])))
        as (sid & w' & E & C & _).
      rewrite E. intros [= _ <-]. exact C.
    - intros [= _ <-]. reflexivity. }
  destruct (String.eqb provider "ollama") eqn:El.
  { apply String.eqb_eq in El. rewrite El.
    unfold getDefaultModel. simpl.
    fold (ollamaDefaultModel env).
    assert (M : orStr (rq_model request) (ollamaDefaultModel env) <> "")
      by apply orStr_nonempty, ollamaDefaultModel_nonempty.
    pose proof (generateOllamaResponse_spec request _ w M) as S. simpl in S.
    destruct (ollama_api_generate ext _ _ _) as [message|].
    - destruct S as (sid & w' & E & C). rewrite E. intros [= _ <-]. exact C.
    - rewrite S. intros [= _ <-]. reflexivity. }
  unfoldM. intros [= _ <-]. rewrite app_nil_r. reflexivity.
Qed.

(** The message of a failed first attempt names the provider that failed,
    or the provider name the [switch] did not know. *)
Lemma callProvider_failure_message (provider model : string) (request : ChatRequest)
      (userApiKey : option string) (w w1 : World T) (m : string) :
  callProvider env ext provider model request userApiKey w = (Throw m, w1) ->
  (provider = "openai" /\ m = "Failed to generate OpenAI response") \/
  (provider = "anthropic" /\ m = "Failed to generate Anthropic response") \/
  (provider = "ollama" /\ m = "Failed to generate Ollama response") \/
  (m = ("Unsupported provider: " ++ provider)%string).
Proof.
  unfold callProvider.
  destruct (String.eqb provider "openai") eqn:Eo.
  { apply String.eqb_eq in Eo. unfold generateOpenAIResponse. unfoldM. simpl.
    destruct (openai_chat_completions_create ext _ _ _) as [[message tokens]|].
    - skipSession request. discriminate.
    - intros [= <- _]. auto. }
  destruct (String.eqb provider "anthropic") eqn:Ea.
  { apply String.eqb_eq in Ea. unfold generateAnthropicResponse. unfoldM. simpl.
    destruct (anthropic_messages_create ext _ _ _ _) as [[message tokens]|].
    - skipSession request. discriminate.
    - intros [= <- _]. auto. }
  destruct (String.eqb provider "ollama") eqn:El.
  { apply String.eqb_eq in El. unfold generateOllamaResponse. unfoldM. simpl.
    destruct (ollama_api_generate ext _ _ _) as [message|].
    - skipSession request. discriminate.
    - intros [= <- _]. auto 6. }
  unfoldM. intros [= <- _]. auto 6.
Qed.

(** C3: when the provider [generateResponse] settled on is not the local
    one and the attempt fails, exactly one further request is sent, to the
    local provider with the local default model; its answer is returned
    tagged [provider = "ollama"] and nothing is thrown; if the local
    provider fails too, the error thrown carries the messages of both
    failures.  When the local provider was the first choice, its failure
    is rethrown and no further request is sent. *)
Theorem generateResponse_fallback_chain (request : ChatRequest)
        (userApiKey : option string) (w w1 : World T) (m : string) :
  callProvider env ext (selectedProvider env request)
    (orStr (rq_model request) (getDefaultModel env (selectedProvider env request)))
    request userApiKey w = (Throw m, w1) ->
  (selectedProvider env request <> "ollama" ->
   (forall answer, ollamaAnswers env ext request = Some answer ->
      exists response w2,
        generateResponse env ext request userApiKey w = (Ok response, w2) /\
        cr_message response = answer /\
        cm_provider (cr_metadata response) = "ollama" /\
        cm_model (cr_metadata response) = ollamaDefaultModel env /\
        w_calls w2 = w_calls w ++ primaryCalls env request userApiKey
                             ++ [ollamaFallbackCall env request]) /\
   (ollamaAnswers env ext request = None ->
      exists w2,
        generateResponse env ext request userApiKey w =
        (Throw ("All AI providers failed. Primary: " ++ m
                ++ ", Ollama: Failed to generate Ollama response"), w2) /\
        w_calls w2 = w_calls w ++ primaryCalls env request userApiKey
                             ++ [ollamaFallbackCall env request])) /\
  (selectedProvider env request = "ollama" ->
   exists w2,
     generateResponse env ext request userApiKey w = (Throw m, w2) /\
     w_calls w2 = w_calls w ++ primaryCalls env request userApiKey).
Proof.
  intros F. pose proof (callProvider_calls request userApiKey w w1 _ F) as C.
  split; [intros P; split|intros P].
  - intros answer A.
    destruct (generateResponse_fallback_ok request userApiKey w w1 m answer P F A)
      as (response & w2 & E & R1 & R2 & R3 & R4).
    exists response, w2. repeat split; try assumption.
    rewrite R4, C, <- app_assoc. reflexivity.
  - intros A. eexists. split.
    + apply (generateResponse_fallback_fails request userApiKey w w1 m P F A).
    + simpl. rewrite C, <- app_assoc. reflexivity.
  - exists w1. split; [|exact C].
    apply (generateResponse_local_first request userApiKey w w1 m P F).
Qed.
End Generation.

(** C3, on a run: OpenAI is selected and fails, the local provider
    answers. *)
Lemma generateResponse_fallback_chain_witness :
  exists response w2,
    generateResponse envOpenAI extLocalOnly (plainRequest "Hello") None emptyWorld
    = (Ok response, w2) /\
    cr_message response = "a local answer" /\
    cm_provider (cr_metadata response) = "ollama" /\
    cm_model (cr_metadata response) = "llama2" /\
    w_calls w2 =
      [OpenAIChat (Some "sk-process") "gpt-4-turbo-preview" [("user", "Hello")];
       OllamaGenerate "http://localhost:11434" "llama2" "Hello"].
Proof.
  refine (proj1 (proj1 (generateResponse_fallback_chain envOpenAI extLocalOnly
                          (plainRequest "Hello") None emptyWorld _ _ _) _)
                "a local answer" _).
  - reflexivity.
  - discriminate.
  - reflexivity.
Defined.

(** C3, on a run where no provider answers. *)
Lemma generateResponse_all_down :
  fst (generateResponse envOpenAI extAllDown (plainRequest "Hello") None emptyWorld)
  = Throw "All AI providers failed. Primary: Failed to generate OpenAI response, Ollama: Failed to generate Ollama response".
Proof. reflexivity. Qed.

(** A provider name the [switch] does not know falls back as well. *)
Lemma generateResponse_unsupported_provider :
  exists response w2,
    generateResponse envNone extLocalOnly
      {| rq_message := "Hello"; rq_sessionId := None; rq_model := None;
         rq_provider := Some "mistral"; rq_context := None;
         rq_customKeyId := None; rq_apiKey := None; rq_baseUrl := None |}
      None emptyWorld = (Ok response, w2) /\
    cm_provider (cr_metadata response) = "ollama" /\
    w_calls w2 = [OllamaGenerate "http://localhost:11434" "llama2" "Hello"].
Proof. eexists _, _. repeat split. Qed.

(* ================================================================== *)
(** ** Provider selection *)

(** C5 (as stated): a request that refers to the tenant's own Anthropic
    key and pins no provider is sent to OpenAI, because a process-level
    OpenAI key exists; the tenant's key travels along as the OpenAI key.
    The policy of the specification selects Anthropic. *)
Lemma selectedProvider_ignores_tenant_key :
  customProvider tenantKeys requestWithTenantKey = Some "anthropic" /\
  specProviderPolicy envOpenAI (customProvider tenantKeys requestWithTenantKey)
  = "anthropic" /\
  selectedProvider envOpenAI requestWithTenantKey = "openai" /\
  primaryCalls envOpenAI requestWithTenantKey (rq_apiKey requestWithTenantKey)
  = [OpenAIChat (Some "sk-ant-tenant") "gpt-4-turbo-preview"
       [("user", "What is machine learning?")]].
Proof. repeat split. Qed.

(** With no process-level key the same request goes to the local provider. *)
Lemma selectedProvider_ignores_tenant_key_local :
  selectedProvider envNone requestWithTenantKey = "ollama".
Proof. reflexivity. Qed.

(** C5 (amended): with no provider pinned, the provider is read off the
    process-level keys alone: OpenAI if its key is set, else Anthropic if
    its key is set, else the local Ollama provider; this is the policy of
    the specification for a tenant without a custom credential, and the
    credential fields of the request have no influence on it. *)
Theorem selectedProvider_unpinned (env : ProcessEnv) (request : ChatRequest) :
  truthyStr (rq_provider request) = false ->
  selectedProvider env request =
    (if truthyStr (OPENAI_API_KEY env) then "openai"
     else if truthyStr (ANTHROPIC_API_KEY env) then "anthropic"
     else "ollama") /\
  selectedProvider env request = specProviderPolicy env None /\
  forall customKeyId apiKey baseUrl,
    selectedProvider env
      {| rq_message := rq_message request; rq_sessionId := rq_sessionId request;
         rq_model := rq_model request; rq_provider := rq_provider request;
         rq_context := rq_context request; rq_customKeyId := customKeyId;
         rq_apiKey := apiKey; rq_baseUrl := baseUrl |}
    = selectedProvider env request.
Proof.
  intros P. unfold selectedProvider, getDefaultProvider, specProviderPolicy.
  destruct (rq_provider request) as [[|c s]|]; simpl in *; try discriminate;
    repeat split.
Qed.

Lemma selectedProvider_unpinned_witness :
  selectedProvider envOpenAI (plainRequest "Hello") = "openai" /\
  selectedProvider envNone (plainRequest "Hello") = "ollama".
Proof.
  split.
  - apply (proj1 (selectedProvider_unpinned envOpenAI (plainRequest "Hello") eq_refl)).
  - apply (proj1 (selectedProvider_unpinned envNone (plainRequest "Hello") eq_refl)).
Defined.

(* ================================================================== *)
(** ** Embedding: fallback to the local provider *)

Section Embedding.
Context {T : Type} `{Number T}.
Variable env : ProcessEnv.
Variable ext : External T.

(** The namespace of a model name is the secondary one exactly for the
    names [namedAsSecondary] describes. *)
Lemma getVectorName_ollama (model : string) :
  getVectorName model = "ollama" <-> namedAsSecondary model = true.
Proof.
  unfold getVectorName, namedAsSecondary.
  destruct (includes model "text-embedding" || includes model "openai");
    destruct (includes model "nomic-embed" || includes model "ollama");
    simpl; split; intros E; try reflexivity; discriminate.
Qed.

(** What the fallback does, whatever the model hint: the local provider is
    called once, with the hint if there is one and its default otherwise,
    and the response is tagged with that name. *)
Lemma generateEmbedding_fallback_spec (request : EmbeddingRequest) (w : World T)
      (msg : string) :
  openai_embeddings_create ext (primaryEmbeddingModel env request) (er_text request)
  = Throw msg ->
  useOllamaFallback env = true ->
  let ollamaModel := orStr (er_model request) (ollamaDefaultEmbeddingModel env) in
  let w' := setCalls w (w_calls w ++
                [OpenAIEmbed (primaryEmbeddingModel env request) (er_text request);
                 OllamaEmbed (ollamaBaseUrl env) ollamaModel (er_text request)]) in
  generateEmbedding env ext request w =
  match ollama_api_embeddings ext (ollamaBaseUrl env) ollamaModel (er_text request) with
  | Some v => (Ok {| embedding := v; model := ollamaModel; tokens := 0 |}, w')
  | None => (Throw "Failed to generate embedding with any provider", w')
  end.
Proof.
  intros P F ollamaModel w'.
  unfold generateEmbedding, generateEmbeddingWithOllama. unfoldM. simpl.
  unfold primaryEmbeddingModel in P. rewrite P, F. simpl.
  unfold w', ollamaModel, ollamaDefaultEmbeddingModel, ollamaBaseUrl,
    primaryEmbeddingModel.
  destruct (ollama_api_embeddings ext _ _ _); simpl;
    unfold setCalls; simpl; rewrite <- app_assoc; reflexivity.
Qed.

(** With the fallback switched off the primary failure is reported. *)
Lemma generateEmbedding_no_fallback (request : EmbeddingRequest) (w : World T)
      (msg : string) :
  openai_embeddings_create ext (primaryEmbeddingModel env request) (er_text request)
  = Throw msg ->
  useOllamaFallback env = false ->
  fst (generateEmbedding env ext request w)
  = Throw ("OpenAI embedding failed: " ++ msg).
Proof.
  intros P F. unfold generateEmbedding. unfoldM. simpl.
  unfold primaryEmbeddingModel in P. rewrite P, F. reflexivity.
Qed.

(** When the primary provider answers, nobody else is asked. *)
Lemma generateEmbedding_primary (request : EmbeddingRequest) (w : World T)
      (v : list T) (n : Z) :
  openai_embeddings_create ext (primaryEmbeddingModel env request) (er_text request)
  = Ok (v, n) ->
  generateEmbedding env ext request w =
  (Ok {| embedding := v; model := primaryEmbeddingModel env request; tokens := n |},
   setCalls w (w_calls w ++
      [OpenAIEmbed (primaryEmbeddingModel env request) (er_text request)])).
Proof.
  intros P. unfold generateEmbedding. unfoldM. simpl.
  unfold primaryEmbeddingModel in P. rewrite P. reflexivity.
Qed.

(** C2 (amended): when the primary provider fails and the fallback is
    enabled, a request without a model hint is answered by the local
    provider's vector, tagged with the local default embedding model
    ([OLLAMA_EMBEDDING_MODEL], else [nomic-embed-text]) after exactly one
    request to each provider; the namespace derived from that tag is the
    secondary one exactly when the name is one [getVectorName] files there,
    as the built-in default is.  If the local provider fails as well, with
    or without a hint, the call throws and returns no vector. *)
Theorem generateEmbedding_fallback (request : EmbeddingRequest) (w : World T)
        (msg : string) :
  openai_embeddings_create ext (primaryEmbeddingModel env request) (er_text request)
  = Throw msg ->
  useOllamaFallback env = true ->
  (truthyStr (er_model request) = false ->
   forall v,
     ollama_api_embeddings ext (ollamaBaseUrl env) (ollamaDefaultEmbeddingModel env)
                           (er_text request) = Some v ->
     exists response w',
       generateEmbedding env ext request w = (Ok response, w') /\
       embedding response = v /\
       model response = ollamaDefaultEmbeddingModel env /\
       w_calls w' = w_calls w ++
         [OpenAIEmbed (primaryEmbeddingModel env request) (er_text request);
          OllamaEmbed (ollamaBaseUrl env) (ollamaDefaultEmbeddingModel env)
                      (er_text request)] /\
       (getVectorName (model response) = "ollama" <->
        namedAsSecondary (ollamaDefaultEmbeddingModel env) = true) /\
       (truthyStr (OLLAMA_EMBEDDING_MODEL env) = false ->
        getVectorName (model response) = "ollama")) /\
  (ollama_api_embeddings ext (ollamaBaseUrl env)
     (orStr (er_model request) (ollamaDefaultEmbeddingModel env)) (er_text request)
   = None ->
   fst (generateEmbedding env ext request w)
   = Throw "Failed to generate embedding with any provider").
Proof.
  intros P F.
  pose proof (generateEmbedding_fallback_spec request w msg P F) as S. simpl in S.
  split.
  - intros NoHint v A.
    assert (E : orStr (er_model request) (ollamaDefaultEmbeddingModel env)
                = ollamaDefaultEmbeddingModel env).
    { destruct (er_model request) as [[|c s]|]; simpl in *; congruence. }
    rewrite E, A in S. eexists _, _. split; [exact S|]. simpl.
    repeat split; try apply getVectorName_ollama.
    intros D. unfold ollamaDefaultEmbeddingModel.
    destruct (OLLAMA_EMBEDDING_MODEL env) as [[|c s]|]; simpl in *;
      try discriminate; reflexivity.
  - intros A. rewrite A in S. rewrite S. reflexivity.
Qed.
End Embedding.

Lemma generateEmbedding_fallback_witness :
  exists response w',
    generateEmbedding envOpenAI extLocalOnly
      {| er_text := "What is machine learning?"; er_model := None |} emptyWorld
    = (Ok response, w') /\
    embedding response = padTo 768 [1%float] /\
    model response = "nomic-embed-text" /\
    getVectorName (model response) = "ollama".
Proof.
  destruct (proj1 (generateEmbedding_fallback envOpenAI extLocalOnly
                     {| er_text := "What is machine learning?"; er_model := None |}
                     emptyWorld "429 You exceeded your current quota"
                     eq_refl eq_refl) eq_refl (padTo 768 [1%float]) eq_refl)
    as (response & w' & E & V & M & _ & _ & N).
  exists response, w'. repeat split; try assumption. apply N. reflexivity.
Defined.

(** C2 (as stated, with the local embedding model configured to
    [mxbai-embed-large]): the fallback vector is tagged with the local
    default model, and the namespace derived from the tag is the primary
    one. *)
Lemma generateEmbedding_fallback_primary_namespace :
  exists response w',
    generateEmbedding envMxbai extLocalOnly
      {| er_text := "What is machine learning?"; er_model := None |} emptyWorld
    = (Ok response, w') /\
    embedding response = padTo 768 [1%float] /\
    model response = "mxbai-embed-large" /\
    model response = ollamaDefaultEmbeddingModel envMxbai /\
    getVectorName (model response) = "openai" /\
    getVectorName (model response) <> "ollama".
Proof.
  eexists _, _. split; [reflexivity|]. simpl. repeat split. discriminate.
Qed.

(** With a model hint the local provider is asked for the hinted model and
    the vector is tagged with the hint, not with the local default. *)
Lemma generateEmbedding_fallback_hint :
  exists response w',
    generateEmbedding envOpenAI extLocalOnly
      {| er_text := "What is machine learning?";
         er_model := Some "text-embedding-3-large" |} emptyWorld
    = (Ok response, w') /\
    model response = "text-embedding-3-large" /\
    getVectorName (model response) = "openai" /\
    w_calls w' =
      [OpenAIEmbed "text-embedding-3-large" "What is machine learning?";
       OllamaEmbed "http://localhost:11434" "text-embedding-3-large"
                   "What is machine learning?"].
Proof. eexists _, _. repeat split. Qed.

(** Both providers down: an error and no vector. *)
Lemma generateEmbedding_all_down :
  fst (generateEmbedding envOpenAI extAllDown
         {| er_text := "What is machine learning?"; er_model := None |} emptyWorld)
  = Throw "Failed to generate embedding with any provider".
Proof. reflexivity. Qed.

(* ================================================================== *)
(** ** Lists: sorting and filtering *)

Section ListFacts.
Context {T : Type} `{Number T}.

Lemma insertBy_In {A : Type} (compare : A -> A -> T) (a x : A) (l : list A) :
  In x (insertBy compare a l) <-> x = a \/ In x l.
Proof.
  induction l as [|b l IH]; simpl.
  - intuition.
  - destruct (nltb nzero (compare a b)); simpl; rewrite ?IH; intuition.
Qed.

Lemma sortBy_In {A : Type} (compare : A -> A -> T) (x : A) (l : list A) :
  In x (sortBy compare l) <-> In x l.
Proof.
  unfold sortBy. induction l as [|a l IH]; simpl; [reflexivity|].
  rewrite insertBy_In, IH. intuition.
Qed.

Lemma insertHit_In (h x : ScoredPoint T) (l : list (ScoredPoint T)) :
  In x (insertHit h l) <-> x = h \/ In x l.
Proof.
  induction l as [|h' l IH]; simpl.
  - intuition.
  - destruct (nltb (hit_score h) (hit_score h')); simpl; rewrite ?IH; intuition.
Qed.

Lemma rankHits_In (x : ScoredPoint T) (l : list (ScoredPoint T)) :
  In x (rankHits l) <-> In x l.
Proof.
  unfold rankHits. induction l as [|a l IH]; simpl; [reflexivity|].
  rewrite insertHit_In, IH. intuition.
Qed.

Lemma firstn_In {A : Type} (n : nat) (x : A) (l : list A) :
  In x (firstn n l) -> In x l.
Proof.
  revert l. induction n as [|n IH]; intros [|a l]; simpl; try tauto.
  intros [E|I]; auto.
Qed.

(** Filtering by a weaker test first changes nothing. *)
Lemma limitDocs_In {A : Type} (n : nat) (x : A) (l : list A) :
  In x (limitDocs n l) -> In x l.
Proof.
  unfold limitDocs. destruct (Nat.eqb n 0); [auto|apply firstn_In].
Qed.

Lemma filter_filter_implied {A : Type} (p q : A -> bool) (l : list A) :
  (forall x, p x = true -> q x = true) ->
  filter p (filter q l) = filter p l.
Proof.
  intros PQ. induction l as [|a l IH]; simpl; [reflexivity|].
  destruct (q a) eqn:Q; simpl.
  - rewrite IH. reflexivity.
  - destruct (p a) eqn:P; [|exact IH]. rewrite (PQ a P) in Q. discriminate.
Qed.
End ListFacts.

(* ================================================================== *)
(** ** Similarity search and tenant isolation *)

Section Search.
Context {T : Type} `{Number T}.
Variable env : ProcessEnv.
Variable ext : External T.

(** [generateEmbedding] reads nothing of the world and only appends to the
    log of provider requests. *)
Lemma generateEmbedding_frame (request : EmbeddingRequest) :
  exists r cs, forall w : World T,
      generateEmbedding env ext request w = (r, setCalls w (w_calls w ++ cs)).
Proof.
  unfold generateEmbedding, generateEmbeddingWithOllama. unfoldM.
  destruct (openai_embeddings_create ext _ (er_text request)) as [[v n]|msg].
  - eexists _, _. intros w. reflexivity.
  - destruct (useOllamaFallback env).
    + destruct (ollama_api_embeddings ext
                  (orStr (OLLAMA_BASE_URL env) "http://localhost:11434")
                  (orStr (er_model request)
                     (orStr (OLLAMA_EMBEDDING_MODEL env) "nomic-embed-text"))
                  (er_text request));
        eexists _, [_; _]; intros w; simpl;
        unfold setCalls; simpl; rewrite <- app_assoc; reflexivity.
    + eexists _, _. intros w. reflexivity.
Qed.

(** The whole of [searchSimilarNodes] in one equation. *)
Lemma searchSimilarNodes_spec (query userId : string) (limit : nat) (threshold : T)
      (r : Result (EmbeddingResponse T)) (cs : list ProviderCall) :
  (forall w : World T,
      generateEmbedding env ext {| er_text := query; er_model := None |} w
      = (r, setCalls w (w_calls w ++ cs))) ->
  forall w : World T,
    searchSimilarNodes env ext query userId limit threshold w =
    (match r with
     | Ok e =>
         if fitsSchema (getVectorName (model e)) (embedding e) then
           Ok (hydrate userId
                 (searchPoints ext (getVectorName (model e)) (embedding e)
                               limit threshold userId (w_points w))
                 (w_nodes w))
         else Throw "Failed to search similar nodes"
     | Throw _ => Throw "Failed to search similar nodes"
     end,
     setCalls w (w_calls w ++ cs)).
Proof.
  intros G w. unfold searchSimilarNodes, qdrantSearch, findNodes, hydrate.
  unfoldM. rewrite G. destruct r as [e|msg]; [|reflexivity].
  destruct (fitsSchema _ _); reflexivity.
Qed.

(** Every hit of a vector search carries the tenant of the search. *)
Lemma searchPoints_tenant (name : string) (q : list T) (limit : nat) (threshold : T)
      (userId : string) (ps : list (Point T)) :
  Forall (fun h => p_userId (hit_payload h) = userId)
         (searchPoints ext name q limit threshold userId ps).
Proof.
  apply Forall_forall. intros h I. unfold searchPoints in I.
  apply firstn_In, rankHits_In, filter_In in I. destruct I as [I _].
  apply in_map_iff in I. destruct I as (p & <- & I).
  apply filter_In in I. destruct I as [_ M]. unfold matchesSearch in M.
  apply andb_true_iff in M. destruct M as [_ M].
  apply String.eqb_eq in M. exact M.
Qed.

(** Points of other tenants do not influence the hits. *)
Lemma searchPoints_tenant_only (name : string) (q : list T) (limit : nat)
      (threshold : T) (userId : string) (ps : list (Point T)) :
  searchPoints ext name q limit threshold userId
    (filter (fun p => String.eqb (p_userId (pt_payload p)) userId) ps)
  = searchPoints ext name q limit threshold userId ps.
Proof.
  unfold searchPoints. rewrite filter_filter_implied; [reflexivity|].
  intros p M. unfold matchesSearch in M. apply andb_true_iff in M. tauto.
Qed.

Lemma hydrate_owned (userId : string) (hits : list (ScoredPoint T))
      (nodes : list (KnowledgeNode T)) (n : KnowledgeNode T) :
  In n (hydrate userId hits nodes) ->
  n_userId n = userId /\ In n nodes /\
  In (n_id n) (map (fun r => p_mongoId (hit_payload r)) hits).
Proof.
  unfold hydrate. rewrite sortBy_In, filter_In, andb_true_iff.
  intros (I & E & U). apply String.eqb_eq in U.
  apply existsb_exists in E. destruct E as (i & Ii & Ei).
  apply N.eqb_eq in Ei. subst i. auto.
Qed.

Lemma hydrate_tenant_only (userId : string) (hits : list (ScoredPoint T))
      (nodes : list (KnowledgeNode T)) :
  hydrate userId hits (filter (fun n => String.eqb (n_userId n) userId) nodes)
  = hydrate userId hits nodes.
Proof.
  unfold hydrate. rewrite filter_filter_implied; [reflexivity|].
  intros n M. apply andb_true_iff in M. tauto.
Qed.

(** The nodes a search returns are stored nodes of the tenant. *)
Lemma searchSimilarNodes_owned (query userId : string) (limit : nat) (threshold : T)
      (w w' : World T) (nodes : list (KnowledgeNode T)) :
  searchSimilarNodes env ext query userId limit threshold w = (Ok nodes, w') ->
  Forall (fun n => n_userId n = userId /\ In n (w_nodes w)) nodes.
Proof.
  destruct (generateEmbedding_frame {| er_text := query; er_model := None |})
    as (r & cs & G).
  rewrite (searchSimilarNodes_spec query userId limit threshold r cs G).
  destruct r as [e|msg]; [|discriminate].
  destruct (fitsSchema _ _); [|discriminate].
  intros [= <- _]. apply Forall_forall. intros n I.
  apply hydrate_owned in I. tauto.
Qed.

(** C4: a search issued for a tenant filters the vector index by that
    tenant, so every hit is tagged with the tenant; the nodes it returns are
    stored nodes owned by the tenant; and its outcome is the same in any two
    worlds that agree on the tenant's own nodes and points, however the
    other tenants' data differ. *)
Theorem searchSimilarNodes_tenant_isolation (query userId : string) (limit : nat)
        (threshold : T) (w : World T) :
  (forall name q ps,
      Forall (fun h => p_userId (hit_payload h) = userId)
             (searchPoints ext name q limit threshold userId ps)) /\
  (forall nodes w',
      searchSimilarNodes env ext query userId limit threshold w = (Ok nodes, w') ->
      Forall (fun n => n_userId n = userId /\ In n (w_nodes w)) nodes) /\
  (forall w2 : World T,
      tenantNodes userId w = tenantNodes userId w2 ->
      tenantPoints userId w = tenantPoints userId w2 ->
      fst (searchSimilarNodes env ext query userId limit threshold w)
      = fst (searchSimilarNodes env ext query userId limit threshold w2)).
Proof.
  destruct (generateEmbedding_frame {| er_text := query; er_model := None |})
    as (r & cs & G).
  pose proof (searchSimilarNodes_spec query userId limit threshold r cs G) as S.
  split; [|split].
  - intros. apply searchPoints_tenant.
  - intros nodes w' E. apply (searchSimilarNodes_owned _ _ _ _ _ _ _ E).
  - intros w2 N P. rewrite (S w), (S w2). simpl.
    destruct r as [e|msg]; [|reflexivity].
    destruct (fitsSchema _ _); [|reflexivity].
    f_equal.
    rewrite <- (hydrate_tenant_only userId _ (w_nodes w)).
    rewrite <- (hydrate_tenant_only userId _ (w_nodes w2)).
    rewrite <- (searchPoints_tenant_only _ _ _ _ _ (w_points w)).
    rewrite <- (searchPoints_tenant_only _ _ _ _ _ (w_points w2)).
    unfold tenantNodes, tenantPoints in N, P. rewrite N, P. reflexivity.
Qed.
End Search.

(** C4, on a run: Bob's node coincides with the query vector and scores 1;
    Alice's search returns her own node only. *)
Lemma searchSimilarNodes_tenant_isolation_witness :
  searchSimilarNodes envOpenAI extStub "Which letter?" "alice" 10 (ndec 7 1)
                     worldTwoTenants
  = (Ok [betaNode],
     snd (searchSimilarNodes envOpenAI extStub "Which letter?" "alice" 10 (ndec 7 1)
                             worldTwoTenants)) /\
  Forall (fun n => n_userId n = "alice" /\ In n (w_nodes worldTwoTenants)) [betaNode] /\
  map (fun p => (p_userId (pt_payload p),
                 qdrant_score extStub (padTo 1536 [1%float]) (pt_vector p)))
      (w_points worldTwoTenants)
  = [("bob", 1%float); ("alice", 0x1.999999999999ap-1%float)].
Proof.
  assert (E : searchSimilarNodes envOpenAI extStub "Which letter?" "alice" 10
                (ndec 7 1) worldTwoTenants
              = (Ok [betaNode],
                 snd (searchSimilarNodes envOpenAI extStub "Which letter?" "alice" 10
                        (ndec 7 1) worldTwoTenants)))
    by (vm_compute; reflexivity).
  split; [exact E|]. split.
  - exact (proj1 (proj2 (searchSimilarNodes_tenant_isolation envOpenAI extStub
                           "Which letter?" "alice" 10 (ndec 7 1) worldTwoTenants))
                 [betaNode] _ E).
  - vm_compute. reflexivity.
Defined.

(* ================================================================== *)
(** ** Creating and deleting nodes *)

Section NodeLifecycle.
Context {T : Type} `{Number T}.
Variable env : ProcessEnv.
Variable ext : External T.

(** A successful [addNode]: the node gets the next [ObjectId], its point a
    freshly drawn UUID that is unrelated to it. *)
Lemma addNode_ok (node : NodeInput T) (w w1 : World T) (n : KnowledgeNode T) :
  addNode env ext node w = (Ok n, w1) ->
  exists e,
    n = {| n_id := w_nextOid w; n_userId := in_userId node;
           n_title := trim (in_title node); n_content := in_content node;
           n_type := in_type node; n_embedding := Some (embedding e);
           n_metadata := in_metadata node;
           n_connections := in_connections node |} /\
    validNode n = true /\
    w_nodes w1 = w_nodes w ++ [n] /\
    w_relations w1 = w_relations w /\
    w_points w1 =
      filter (fun q => negb (N.eqb (pt_id q) (uuidv4 ext (w_entropy w))))
             (w_points w)
      ++ [pointOf node (w_nextOid w) (uuidv4 ext (w_entropy w)) e] /\
    w_nextOid w1 = N.succ (w_nextOid w) /\
    w_entropy w1 = S (w_entropy w).
Proof.
  destruct (generateEmbedding_frame env ext
              {| er_text := (in_title node ++ " " ++ in_content node)%string;
                 er_model := None |}) as (r & cs & G).
  unfold addNode, saveNode, freshObjectId, convertObjectIdToUUID, qdrantUpsert.
  unfoldM. rewrite G. destruct r as [e|msg]; [|discriminate]. simpl.
  match goal with |- context [validNode ?d] => destruct (validNode d) eqn:V end;
    [|discriminate].
  simpl. destruct (fitsSchema _ _); [|discriminate].
  intros [= <- <-]. exists e. simpl. repeat split. exact V.
Qed.

(** [deleteNode] in one equation: it cannot fail, and the point id it
    hands to the vector index is a fresh draw. *)
Lemma deleteNode_spec (nodeId : ObjectId) (userId : string) (w : World T) :
  deleteNode ext nodeId userId w =
  (Ok tt,
   {| w_nodes := removeFirst nodeId userId (w_nodes w);
      w_relations := filter (fun r => negb (touches nodeId userId r)) (w_relations w);
      w_points := filter (fun q => negb (existsb (N.eqb (pt_id q))
                                           [uuidv4 ext (w_entropy w)]))
                         (w_points w);
      w_nextOid := w_nextOid w;
      w_entropy := S (w_entropy w);
      w_calls := w_calls w |}).
Proof. reflexivity. Qed.

Lemma removeFirst_subset (id : ObjectId) (userId : string)
      (ns : list (KnowledgeNode T)) (n : KnowledgeNode T) :
  In n (removeFirst id userId ns) -> In n ns.
Proof.
  induction ns as [|a ns IH]; simpl; [tauto|].
  destruct (N.eqb (n_id a) id && String.eqb (n_userId a) userId); simpl; intuition.
Qed.

(** With unique ids, the document that [deleteOne] matched is gone. *)
Lemma removeFirst_gone (id : ObjectId) (userId : string)
      (ns : list (KnowledgeNode T)) (n : KnowledgeNode T) :
  NoDup (map (@n_id T) ns) ->
  In n (removeFirst id userId ns) ->
  ~ (n_id n = id /\ n_userId n = userId).
Proof.
  induction ns as [|a ns IH]; simpl; [tauto|].
  intros ND. inversion ND as [|? ? NI ND']; subst.
  destruct (N.eqb (n_id a) id && String.eqb (n_userId a) userId) eqn:E.
  - apply andb_true_iff in E. destruct E as [E _]. apply N.eqb_eq in E.
    intros I [E' _]. apply NI. rewrite E, <- E'. apply in_map, I.
  - intros [<- | I]; [|apply IH; assumption].
    intros [E1 E2]. rewrite (proj2 (N.eqb_eq _ _) E1), (proj2 (String.eqb_eq _ _) E2) in E.
    discriminate.
Qed.

(** C1, the part that holds: after [deleteNode] the node is in no graph
    read and in no search result of the tenant. *)
Lemma deleteNode_absent_from_reads (nodeId : ObjectId) (userId : string)
      (w : World T) :
  NoDup (map (@n_id T) (w_nodes w)) ->
  let w' := snd (deleteNode ext nodeId userId w) in
  (forall limit nodes relations w'',
      getKnowledgeGraph userId limit w' = (Ok (nodes, relations), w'') ->
      ~ In nodeId (map (@n_id T) nodes)) /\
  (forall query limit threshold nodes w'',
      searchSimilarNodes env ext query userId limit threshold w' = (Ok nodes, w'') ->
      ~ In nodeId (map (@n_id T) nodes)).
Proof.
  intros ND w'. unfold w'. rewrite deleteNode_spec. simpl. split.
  - intros limit nodes relations w'' E.
    unfold getKnowledgeGraph, findNodes, findRelations in E. unfoldM. simpl in E.
    injection E as <- _ _. intros I. apply in_map_iff in I.
    destruct I as (n & E & I). apply limitDocs_In, in_rev, filter_In in I.
    destruct I as [I U]. apply String.eqb_eq in U.
    apply (removeFirst_gone nodeId userId _ n ND I). auto.
  - intros query limit threshold nodes w'' E.
    apply searchSimilarNodes_owned in E.
    intros I. apply in_map_iff in I. destruct I as (n & E' & I).
    rewrite Forall_forall in E. destruct (E n I) as [U I']. simpl in I'.
    apply (removeFirst_gone nodeId userId _ n ND I'). auto.
Qed.

(** C1, the part that fails: [deleteNode] removes from the vector index
    only a point that happens to carry the UUID just drawn; every other
    point stays, the one of the deleted node included. *)
Lemma deleteNode_keeps_points (nodeId : ObjectId) (userId : string)
      (w : World T) (p : Point T) :
  In p (w_points w) ->
  pt_id p <> uuidv4 ext (w_entropy w) ->
  In p (w_points (snd (deleteNode ext nodeId userId w))).
Proof.
  intros I D. rewrite deleteNode_spec. simpl. apply filter_In. split; [exact I|].
  apply N.eqb_neq in D. rewrite D. reflexivity.
Qed.

(** Ids already issued lie below the counter, so the next one is new. *)
Lemma addNode_storeOk (node : NodeInput T) (w w1 : World T) (n : KnowledgeNode T) :
  storeOk w -> addNode env ext node w = (Ok n, w1) -> storeOk w1.
Proof.
  intros [ND B] A. destruct (addNode_ok node w w1 n A)
    as (e & En & V & Nodes & Rels & Points & Oid & Ent).
  assert (Id : n_id n = w_nextOid w) by (rewrite En; reflexivity).
  unfold storeOk. rewrite Nodes, Oid, map_app. simpl. split.
  - apply NoDup_app; [exact ND|repeat constructor; tauto|].
    intros i I [<-|[]]. apply in_map_iff in I. destruct I as (a & Ea & Ia).
    rewrite Forall_forall in B. specialize (B a Ia). rewrite Id in Ea. lia.
  - apply Forall_app. split.
    + eapply Forall_impl; [|exact B]. intros a L. simpl in L. lia.
    + constructor; [|constructor]. rewrite Id. lia.
Qed.

Lemma unique_by_id (ns : list (KnowledgeNode T)) (a b : KnowledgeNode T) :
  NoDup (map (@n_id T) ns) -> In a ns -> In b ns -> n_id a = n_id b -> a = b.
Proof.
  induction ns as [|c l IH]; simpl; [tauto|].
  intros ND. inversion ND as [|? ? NI ND']; subst.
  intros [<-|Ia] [<-|Ib] E; auto.
  - exfalso. apply NI. rewrite E. apply in_map, Ib.
  - exfalso. apply NI. rewrite <- E. apply in_map, Ia.
Qed.

(** Add a node, delete it at once: unless the two UUID draws coincide, the
    node is gone from the document store and its point is still in the
    index. *)
Lemma addNode_deleteNode_point (node : NodeInput T) (w w1 : World T)
      (n : KnowledgeNode T) :
  storeOk w ->
  addNode env ext node w = (Ok n, w1) ->
  uuidv4 ext (w_entropy w) <> uuidv4 ext (S (w_entropy w)) ->
  let w2 := snd (deleteNode ext (n_id n) (in_userId node) w1) in
  ~ In (n_id n) (map (@n_id T) (w_nodes w2)) /\
  exists p,
    In p (w_points w2) /\
    p_mongoId (pt_payload p) = n_id n /\
    p_userId (pt_payload p) = in_userId node.
Proof.
  intros OK A D w2. pose proof (addNode_storeOk node w w1 n OK A) as [ND _].
  destruct (addNode_ok node w w1 n A)
    as (e & En & V & Nodes & Rels & Points & Oid & Ent).
  split.
  - unfold w2. rewrite deleteNode_spec. simpl. intros I. apply in_map_iff in I.
    destruct I as (n' & E' & I).
    apply (removeFirst_gone (n_id n) (in_userId node) _ n' ND I).
    split; [exact E'|].
    assert (In n (w_nodes w1)) as In1
        by (rewrite Nodes; apply in_or_app; right; left; reflexivity).
    apply removeFirst_subset in I.
    rewrite (unique_by_id _ n' n ND I In1 E'), En. reflexivity.
  - exists (pointOf node (w_nextOid w) (uuidv4 ext (w_entropy w)) e).
    split; [|split].
    + apply deleteNode_keeps_points.
      * rewrite Points. apply in_or_app. right. left. reflexivity.
      * rewrite Ent. simpl. exact D.
    + rewrite En. reflexivity.
    + reflexivity.
Qed.
End NodeLifecycle.

(** C1: Alice adds two nodes and deletes the first.  The delete succeeds
    and the node is gone from the document store, but both vector points
    are still in the index: the search of the index still returns the
    deleted node's point as its best hit, and with [limit = 1] that stale
    hit takes the only slot, so the search for nodes comes back empty
    although a live node matches. *)
Theorem deleteNode_leaves_vector_point :
  fst (deleteNode extStub 1%N "alice" worldAlphaBeta) = Ok tt /\
  map (@n_id float) (w_nodes worldAlphaBeta) = [1%N; 2%N] /\
  map (@n_id float) (w_nodes worldAlphaDeleted) = [2%N] /\
  map (fun p => (pt_id p, p_mongoId (pt_payload p))) (w_points worldAlphaBeta)
  = [(1000%N, 1%N); (1001%N, 2%N)] /\
  map (fun p => (pt_id p, p_mongoId (pt_payload p))) (w_points worldAlphaDeleted)
  = [(1000%N, 1%N); (1001%N, 2%N)] /\
  map (fun h => (p_mongoId (hit_payload h), hit_score h))
      (searchPoints extStub "openai" (padTo 1536 [1%float]) 10 (ndec 7 1) "alice"
                    (w_points worldAlphaDeleted))
  = [(1%N, 1%float); (2%N, 0x1.999999999999ap-1%float)] /\
  fst (searchSimilarNodes envOpenAI extStub "Which letter?" "alice" 10 (ndec 7 1)
                          worldAlphaDeleted) = Ok [betaNode] /\
  fst (searchSimilarNodes envOpenAI extStub "Which letter?" "alice" 1 (ndec 7 1)
                          worldAlphaDeleted) = Ok [].
Proof. vm_compute. repeat split. Qed.

(* ================================================================== *)
(** ** The confidence of a RAG answer *)

Section Confidence.
Context {T : Type} `{Number T}.
Variable env : ProcessEnv.
Variable ext : External T.

(** The answer's sources are the retrieved nodes and its confidence is
    their aggregate. *)
Lemma performRAGQuery_ok (query : RAGQuery T) (w w' : World T)
      (response : RAGResponse T) :
  performRAGQuery env ext query w = (Ok response, w') ->
  exists w1,
    searchSimilarNodes env ext (q_query query) (q_userId query)
      (orNat (q_maxResults query) 5) (orNum (q_threshold query) (ndec 7 1)) w
    = (Ok (sources response), w1) /\
    rag_confidence response = aggregateConfidence (sources response).
Proof.
  unfold performRAGQuery. unfoldM.
  destruct (searchSimilarNodes env ext _ _ _ _ w) as [[nodes|msg] w1];
    [|discriminate].
  destruct (generateResponse env ext _ _ w1) as [[ai|msg] w2]; [|discriminate].
  intros [= <- <-]. exists w1. split; reflexivity.
Qed.

Lemma aggregateConfidence_nil : aggregateConfidence (@nil (KnowledgeNode T)) = ndec 5 1.
Proof. reflexivity. Qed.

(** The two aggregates differ only in how a stored confidence that is
    falsy ([0], or not a number) is read. *)
Lemma aggregateConfidence_spec (nodes : list (KnowledgeNode T)) :
  Forall (fun n => match confidence (n_metadata n) with
                   | Some c => truthy c = true
                   | None => True
                   end) nodes ->
  aggregateConfidence nodes = specConfidence nodes.
Proof.
  intros F. unfold aggregateConfidence, specConfidence.
  destruct (Nat.ltb 0 (List.length nodes)); [|reflexivity]. f_equal.
  generalize (@nzero T _). induction F as [|n l Hn F IH]; intros acc; simpl;
    [reflexivity|].
  rewrite IH. do 2 f_equal. unfold orNum, storedOrHalf.
  destruct (confidence (n_metadata n)); [rewrite Hn|]; reflexivity.
Qed.

(** Without retrieval [sendMessage] answers with no sources and
    confidence [1]. *)
Lemma sendMessage_without_RAG (body : MessageBody) (reqUserId : option string)
      (w w' : World T) (data : @MessageData T) :
  b_useRAG body = Some false ->
  sendMessage env ext body reqUserId w = (Ok (Reply200 data), w') ->
  d_sources data = [] /\ d_confidence data = nofZ 1.
Proof.
  intros U. unfold sendMessage. unfoldM. rewrite U.
  destruct (truthyStr (b_message body)); simpl; [|discriminate].
  destruct (generateResponse env ext _ _ w) as [[ai|msg] w1]; [|discriminate].
  intros [= <- _]. split; reflexivity.
Qed.
End Confidence.

(** In exact arithmetic the aggregate is the sum of the per-node values
    over their number. *)
Lemma aggregateConfidence_mean_R (n : KnowledgeNode R) (nodes : list (KnowledgeNode R)) :
  aggregateConfidence (n :: nodes) =
  (fold_right (fun node sum => orNum (confidence (n_metadata node)) (ndec 5 1) + sum)
              0 (n :: nodes)
   / INR (List.length (n :: nodes)))%R.
Proof.
  unfold aggregateConfidence. change (Nat.ltb 0 (List.length (n :: nodes))) with true.
  cbv iota. change (@ndiv R _) with Rdiv. change (@nofZ R _) with IZR.
  rewrite <- INR_IZR_INZ. f_equal.
  change (@nadd R _) with Rplus. change (@nzero R _) with 0%R.
  generalize (n :: nodes). intros l.
  assert (G : forall acc,
             (fold_left (fun sum node =>
                           sum + orNum (confidence (n_metadata node)) (ndec 5 1))
                        l acc
              = acc + fold_right (fun node sum =>
                                    orNum (confidence (n_metadata node)) (ndec 5 1) + sum)
                                 0 l)%R).
  { induction l as [|a l IH]; intros acc; cbn [fold_left fold_right]; [lra|].
    rewrite IH. lra. }
  rewrite G. lra.
Qed.

(** C7, what holds on a run: the sole retrieved node has stored confidence
    0.9 and the answer's confidence is 0.9. *)
Lemma performRAGQuery_sole_source :
  option_map
    (fun response =>
       (map (@n_id float) (sources response),
        map (fun n => confidence (n_metadata n)) (sources response),
        rag_confidence response))
    (okOf (fst (performRAGQuery envOpenAI extStub (ragQuery "Which letter?" "alice")
                                worldTwoTenants)))
  = Some ([2%N], [Some 0x1.ccccccccccccdp-1%float], 0x1.ccccccccccccdp-1%float).
Proof. vm_compute. reflexivity. Qed.

(** C7, what holds on a run: nothing retrieved, confidence 0.5. *)
Lemma performRAGQuery_no_source :
  option_map
    (fun response => (sources response, rag_confidence response))
    (okOf (fst (performRAGQuery envOpenAI extStub (ragQuery "Which letter?" "alice")
                                emptyWorld)))
  = Some ([], 0.5%float).
Proof. vm_compute. reflexivity. Qed.

(** C7, what holds on a run: with [useRAG] off the reply has no sources
    and confidence 1. *)
Lemma sendMessage_useRAG_off :
  fst (sendMessage envOpenAI extStub (chatBody "Which letter?" (Some false))
                   (Some "alice") worldTwoTenants)
  = Ok (Reply200 {| d_message := "An answer"; d_sources := [];
                    d_confidence := 1%float; d_model := "gpt-4-turbo-preview";
                    d_provider := "openai"; d_tokens := 42 |}).
Proof. vm_compute. reflexivity. Qed.

(** C7: the sole retrieved node has the stored confidence 0.  The mean of
    the stored confidences is 0; the answer's confidence is 0.5, because
    [node.metadata.confidence || 0.5] reads a stored 0 as absent. *)
Theorem performRAGQuery_zero_confidence :
  option_map
    (fun response =>
       (map (@n_id float) (sources response),
        map (fun n => confidence (n_metadata n)) (sources response),
        rag_confidence response,
        specConfidence (sources response)))
    (okOf (fst (performRAGQuery envOpenAI extStub (ragQuery "Which letter?" "alice")
                                worldZeroConfidence)))
  = Some ([1%N], [Some 0%float], 0.5%float, 0%float).
Proof. vm_compute. reflexivity. Qed.

(* ================================================================== *)
(** ** Document ingestion: relations between similar nodes *)

Section Ingestion.
Context {T : Type} `{Number T}.
Variable env : ProcessEnv.
Variable ext : External T.

(** A relation that was added records what was asked for. *)
Lemma addRelation_ok (relation : RelationInput T) (w w' : World T)
      (r : KnowledgeRelation T) :
  addRelation relation w = (Ok r, w') ->
  relationKey r =
  (ri_userId relation, ri_sourceNodeId relation, ri_targetNodeId relation,
   trim (ri_relationType relation), ri_strength relation).
Proof.
  unfold addRelation, saveRelation, freshObjectId, updateOneAddToSet. unfoldM.
  simpl. destruct (negb (validRelation _)); [discriminate|]. simpl.
  destruct (existsb _ _); [discriminate|]. simpl.
  intros [= <- _]. reflexivity.
Qed.

Lemma relatePair_ok (userId : string) (ni nj : KnowledgeNode T)
      (acc rels : list (KnowledgeRelation T)) (w w' : World T) :
  relatePair userId ni nj acc w = (Ok rels, w') ->
  map relationKey rels = map relationKey acc ++ similarRelation userId (ni, nj).
Proof.
  unfold relatePair, similarRelation. simpl.
  destruct (n_embedding ni) as [ei|], (n_embedding nj) as [ej|];
    try (unfoldM; intros [= <- _]; rewrite app_nil_r; reflexivity).
  unfold bind at 1, liftR.
  destruct (calculateSimilarity ei ej) as [s|msg]; [|discriminate].
  destruct (ngtb s (ndec 7 1)).
  - unfold bind, ret.
    destruct (addRelation _ w) as [[r|msg] w1] eqn:A; [|discriminate].
    intros [= <- _]. rewrite map_app. simpl.
    rewrite (addRelation_ok _ _ _ _ A). reflexivity.
  - unfold ret. intros [= <- _]. rewrite app_nil_r. reflexivity.
Qed.

Lemma relateWith_ok (userId : string) (ni : KnowledgeNode T)
      (later : list (KnowledgeNode T)) (acc rels : list (KnowledgeRelation T))
      (w w' : World T) :
  relateWith userId ni later acc w = (Ok rels, w') ->
  map relationKey rels
  = map relationKey acc ++ flat_map (similarRelation userId) (map (pair ni) later).
Proof.
  revert acc w. induction later as [|nj later IH]; intros acc w; simpl.
  - unfold ret. intros [= <- _]. rewrite app_nil_r. reflexivity.
  - unfold bind at 1.
    destruct (relatePair userId ni nj acc w) as [[acc'|msg] w1] eqn:P;
      [|discriminate].
    intros R. rewrite (IH _ _ R), (relatePair_ok _ _ _ _ _ _ _ P), <- app_assoc.
    reflexivity.
Qed.

Lemma relateSimilar_ok (userId : string) (nodes : list (KnowledgeNode T))
      (acc rels : list (KnowledgeRelation T)) (w w' : World T) :
  relateSimilar userId nodes acc w = (Ok rels, w') ->
  map relationKey rels = map relationKey acc ++ similarRelations userId nodes.
Proof.
  revert acc w. induction nodes as [|ni later IH]; intros acc w; simpl.
  - unfold ret. intros [= <- _]. rewrite app_nil_r. reflexivity.
  - unfold bind at 1.
    destruct (relateWith userId ni later acc w) as [[acc'|msg] w1] eqn:P;
      [|discriminate].
    intros R. rewrite (IH _ _ R), (relateWith_ok _ _ _ _ _ _ _ P).
    unfold similarRelations. simpl. rewrite flat_map_app, <- app_assoc.
    reflexivity.
Qed.

(** [addNode] leaves the relations alone, whatever its outcome. *)
Lemma addNode_relations (node : NodeInput T) (w w1 : World T)
      (r : Result (KnowledgeNode T)) :
  addNode env ext node w = (r, w1) -> w_relations w1 = w_relations w.
Proof.
  destruct (generateEmbedding_frame env ext
              {| er_text := (in_title node ++ " " ++ in_content node)%string;
                 er_model := None |}) as (r0 & cs & G).
  unfold addNode, saveNode, freshObjectId, convertObjectIdToUUID, qdrantUpsert.
  unfoldM. rewrite G. destruct r0 as [e|msg]; simpl.
  - match goal with |- context [validNode ?d] => destruct (validNode d) end; simpl.
    + destruct (fitsSchema _ _); simpl; intros [= <- <-]; reflexivity.
    + intros [= <- <-]. reflexivity.
  - intros [= <- <-]. reflexivity.
Qed.

(** A relation that was added is the last one in the store. *)
Lemma addRelation_relations (relation : RelationInput T) (w w1 : World T)
      (r : KnowledgeRelation T) :
  addRelation relation w = (Ok r, w1) -> w_relations w1 = w_relations w ++ [r].
Proof.
  unfold addRelation, saveRelation, freshObjectId, updateOneAddToSet. unfoldM.
  simpl. destruct (negb (validRelation _)); [discriminate|]. simpl.
  destruct (existsb _ _); [discriminate|]. simpl.
  intros [= <- <-]. reflexivity.
Qed.

Lemma createSentenceNodes_relations (userId : string) (source : option string)
      (sentences : list string) (acc : list (KnowledgeNode T)) (w w1 : World T)
      (r : Result (list (KnowledgeNode T))) :
  createSentenceNodes env ext userId source sentences acc w = (r, w1) ->
  w_relations w1 = w_relations w.
Proof.
  revert acc w. induction sentences as [|sentence rest IH]; intros acc w; simpl.
  - unfold ret. intros [= _ <-]. reflexivity.
  - destruct (Nat.ltb (String.length (trim sentence)) 20); [apply IH|].
    unfold bind at 1.
    destruct (addNode env ext _ w) as [[node|msg] w0] eqn:A.
    + intros C. rewrite (IH _ _ C). apply (addNode_relations _ _ _ _ A).
    + intros [= _ <-]. apply (addNode_relations _ _ _ _ A).
Qed.

(** The relations a loop returns beyond those it started with are the
    ones it added to the store. *)
Lemma relatePair_relations (userId : string) (ni nj : KnowledgeNode T)
      (acc rels : list (KnowledgeRelation T)) (w w1 : World T) :
  relatePair userId ni nj acc w = (Ok rels, w1) ->
  exists added, rels = acc ++ added /\ w_relations w1 = w_relations w ++ added.
Proof.
  unfold relatePair.
  destruct (n_embedding ni) as [ei|], (n_embedding nj) as [ej|];
    try (unfold ret; intros [= <- <-]; exists []; rewrite !app_nil_r; auto).
  unfold bind at 1, liftR.
  destruct (calculateSimilarity ei ej) as [s|msg]; [|discriminate].
  destruct (ngtb s (ndec 7 1)).
  - unfold bind, ret.
    destruct (addRelation _ w) as [[r|msg] w0] eqn:A; [|discriminate].
    intros [= <- <-]. exists [r]. split; [reflexivity|].
    apply (addRelation_relations _ _ _ _ A).
  - unfold ret. intros [= <- <-]. exists []. rewrite !app_nil_r. auto.
Qed.

Lemma relateWith_relations (userId : string) (ni : KnowledgeNode T)
      (later : list (KnowledgeNode T)) (acc rels : list (KnowledgeRelation T))
      (w w1 : World T) :
  relateWith userId ni later acc w = (Ok rels, w1) ->
  exists added, rels = acc ++ added /\ w_relations w1 = w_relations w ++ added.
Proof.
  revert acc w. induction later as [|nj later IH]; intros acc w; simpl.
  - unfold ret. intros [= <- <-]. exists []. rewrite !app_nil_r. auto.
  - unfold bind at 1.
    destruct (relatePair userId ni nj acc w) as [[acc'|msg] w0] eqn:P;
      [|discriminate].
    intros R. destruct (relatePair_relations _ _ _ _ _ _ _ P) as (a1 & -> & E1).
    destruct (IH _ _ R) as (a2 & -> & E2).
    exists (a1 ++ a2). rewrite E2, E1, !app_assoc. auto.
Qed.

Lemma relateSimilar_relations (userId : string) (nodes : list (KnowledgeNode T))
      (acc rels : list (KnowledgeRelation T)) (w w1 : World T) :
  relateSimilar userId nodes acc w = (Ok rels, w1) ->
  exists added, rels = acc ++ added /\ w_relations w1 = w_relations w ++ added.
Proof.
  revert acc w. induction nodes as [|ni later IH]; intros acc w; simpl.
  - unfold ret. intros [= <- <-]. exists []. rewrite !app_nil_r. auto.
  - unfold bind at 1.
    destruct (relateWith userId ni later acc w) as [[acc'|msg] w0] eqn:P;
      [|discriminate].
    intros R. destruct (relateWith_relations _ _ _ _ _ _ _ P) as (a1 & -> & E1).
    destruct (IH _ _ R) as (a2 & -> & E2).
    exists (a1 ++ a2). rewrite E2, E1, !app_assoc. auto.
Qed.

(** C6 (amended): in a run of [processDocument] that returns, the
    relations returned are the relations the run added to the store, and
    they are, pair by pair in loop order, the [similar] relations of the
    pairs of new nodes whose cosine similarity is greater than [0.7], each
    with strength equal to that similarity; so a pair with embeddings gets
    a relation if and only if its similarity exceeds [0.7]. *)
Theorem processDocument_similar_relations (content userId : string)
        (source : option string) (w w' : World T) (result : ProcessingResult T) :
  processDocument env ext content userId source w = (Ok result, w') ->
  w_relations w' = w_relations w ++ pr_relations result /\
  map relationKey (pr_relations result)
  = similarRelations userId (pr_nodes result) /\
  forall ni nj ei ej s,
    In (ni, nj) (orderedPairs (pr_nodes result)) ->
    n_embedding ni = Some ei -> n_embedding nj = Some ej ->
    calculateSimilarity ei ej = Ok s ->
    (In (userId, n_id ni, n_id nj, "similar", s)
        (map relationKey (pr_relations result))
     <-> ngtb s (ndec 7 1) = true).
Proof.
  unfold processDocument. unfold tryCatch, bind at 1.
  destruct (createSentenceNodes env ext userId source _ [] w) as [[nodes|msg] w1]
    eqn:C; [|discriminate].
  unfold bind at 1.
  destruct (relateSimilar userId nodes [] w1) as [[rels|msg] w2] eqn:R;
    [|discriminate].
  unfold ret. intros [= <- <-]. simpl.
  pose proof (relateSimilar_ok _ _ _ _ _ _ R) as K. simpl in K.
  split.
  { destruct (relateSimilar_relations _ _ _ _ _ _ R) as (added & -> & E).
    rewrite E, (createSentenceNodes_relations _ _ _ _ _ _ _ C). reflexivity. }
  split; [exact K|].
  intros ni nj ei ej s I Ei Ej S. rewrite K. unfold similarRelations.
  rewrite in_flat_map. split.
  - intros ([a b] & _ & Q). unfold similarRelation in Q. simpl in Q.
    destruct (n_embedding a) as [ea|]; [|destruct Q].
    destruct (n_embedding b) as [eb|]; [|destruct Q].
    destruct (calculateSimilarity ea eb) as [s'|]; [|destruct Q].
    destruct (ngtb s' (ndec 7 1)) eqn:G; [|destruct Q].
    destruct Q as [Q|[]]. injection Q as _ _ <-. exact G.
  - intros G. exists (ni, nj). split; [exact I|].
    unfold similarRelation. simpl. rewrite Ei, Ej, S, G. left. reflexivity.
Qed.
End Ingestion.

(** The two-sentence document of the specification becomes exactly two
    concept nodes. *)
Example processDocument_two_nodes :
  option_map
    (fun result =>
       (map (fun n => (n_id n, n_title n, n_content n, n_type n,
                       confidence (n_metadata n), tags (n_metadata n)))
            (pr_nodes result),
        pr_summary result))
    (okOf (fst (processDocument envOpenAI extStub
                  "AI is intelligence in machines. ML is a subset of AI that learns from data."
                  "alice" None emptyWorld)))
  = Some ([(1%N, "AI is intelligence in machines...",
            "AI is intelligence in machines", TConcept,
            Some 0x1.999999999999ap-1%float, ["document"]);
           (2%N, "ML is a subset of AI that learns from data...",
            "ML is a subset of AI that learns from data", TConcept,
            Some 0x1.999999999999ap-1%float, ["document"])],
          "Processed document with 2 concepts and 1 relations").
Proof. vm_compute. reflexivity. Qed.

(** C6 (as stated, at a pair that scores exactly the threshold): the two
    sentences become two nodes whose embeddings have cosine similarity
    exactly [0.7]; [0.7 >= 0.7] holds, and no relation is created. *)
Lemma processDocument_threshold_exact :
  option_map
    (fun result =>
       (map (@n_id float) (pr_nodes result),
        map (fun n => option_map (firstn 4) (n_embedding n)) (pr_nodes result),
        pr_relations result,
        pr_summary result))
    (okOf (fst (processDocument envOpenAI extStub twoSentences "alice"
                                (Some "letters.txt") emptyWorld)))
  = Some ([1%N; 2%N],
          [Some [1%float; 0%float; 0%float; 0%float];
           Some [7%float; 7%float; 1%float; 1%float]],
          [],
          "Processed document with 2 concepts and 0 relations") /\
  calculateSimilarity (padTo 1536 [1%float])
                      (padTo 1536 [7%float; 7%float; 1%float; 1%float])
  = Ok (ndec 7 1) /\
  ngeb (ndec 7 1 : float) (ndec 7 1) = true /\
  ngtb (ndec 7 1 : float) (ndec 7 1) = false.
Proof. vm_compute. repeat split. Qed.

(** C6 (amended), on a run: two sentences of similarity [0.8] are
    related, with strength [0.8]. *)
Lemma processDocument_similar_relations_witness :
  match processDocument envOpenAI extStub twoCloseSentences "alice"
                        (Some "letters.txt") emptyWorld with
  | (Ok result, _) =>
      map relationKey (pr_relations result)
      = similarRelations "alice" (pr_nodes result) /\
      map relationKey (pr_relations result)
      = [("alice", 1%N, 2%N, "similar", 0x1.999999999999ap-1%float)]
  | (Throw _, _) => False
  end.
Proof.
  assert (C : option_map (fun result => map relationKey (pr_relations result))
                (okOf (fst (processDocument envOpenAI extStub twoCloseSentences
                              "alice" (Some "letters.txt") emptyWorld)))
              = Some [("alice", 1%N, 2%N, "similar", 0x1.999999999999ap-1%float)])
    by (vm_compute; reflexivity).
  destruct (processDocument envOpenAI extStub twoCloseSentences "alice"
              (Some "letters.txt") emptyWorld) as [[result|msg] w'] eqn:E.
  - split.
    + exact (proj1 (proj2 (processDocument_similar_relations envOpenAI extStub
                               twoCloseSentences "alice" (Some "letters.txt")
                               emptyWorld w' result E))).
    + simpl in C. injection C as C. exact C.
  - discriminate C.
Defined.

(* ================================================================== *)
(** ** Adjacency lists *)

Section Adjacency.
Context {T : Type} `{Number T}.
Variable env : ProcessEnv.
Variable ext : External T.

Lemma adjacencySymmetricb_spec (w : World T) :
  adjacencySymmetricb w = true <-> adjacencySymmetric w.
Proof.
  unfold adjacencySymmetricb, adjacencySymmetric. rewrite forallb_forall. split.
  - intros F a b Ia Ib. specialize (F a Ia). rewrite forallb_forall in F.
    specialize (F b Ib). apply existsb_exists in F. destruct F as (nb & Inb & E).
    apply andb_true_iff in E. destruct E as [E1 E2]. apply N.eqb_eq in E1.
    apply existsb_exists in E2. destruct E2 as (i & Ii & Ei). apply N.eqb_eq in Ei.
    subst i. exists nb. auto.
  - intros S a Ia. apply forallb_forall. intros b Ib.
    destruct (S a b Ia Ib) as (nb & Inb & E1 & E2).
    apply existsb_exists. exists nb. split; [exact Inb|].
    apply andb_true_iff. split; [apply N.eqb_eq, E1|].
    apply existsb_exists. exists (n_id a). split; [exact E2|apply N.eqb_refl].
Qed.












Lemma removeFirst_keeps (id : ObjectId) (userId : string)
      (ns : list (KnowledgeNode T)) (n : KnowledgeNode T) :
  In n ns -> n_id n <> id -> In n (removeFirst id userId ns).
Proof.
  intros I D. induction ns as [|a ns IH]; simpl; [destruct I|].
  destruct (N.eqb (n_id a) id && String.eqb (n_userId a) userId) eqn:E.
  - destruct I as [<- | I]; [|exact I].
    apply andb_true_iff in E. destruct E as [E _]. apply N.eqb_eq in E. contradiction.
  - destruct I as [<- | I]; [left; reflexivity|right; apply IH, I].
Qed.

(** C8, node deletion: [deleteNode] leaves the adjacency lists of the
    other nodes as they are, so deleting a node that another node lists
    breaks the symmetry. *)
Lemma deleteNode_breaks_symmetry (w : World T) (a b : KnowledgeNode T) :
  storeOk w ->
  In a (w_nodes w) -> In b (w_nodes w) -> n_id a <> n_id b ->
  In (n_id a) (n_connections b) ->
  ~ adjacencySymmetric (snd (deleteNode ext (n_id a) (n_userId a) w)).
Proof.
  intros [ND _] Ia Ib D L S. rewrite deleteNode_spec in S. simpl in S.
  assert (Ib' : In b (removeFirst (n_id a) (n_userId a) (w_nodes w)))
    by (apply removeFirst_keeps; [exact Ib|congruence]).
  destruct (S b (n_id a) Ib' L) as (nb & Inb & E & _). simpl in Inb.
  apply (removeFirst_gone (n_id a) (n_userId a) _ nb ND Inb).
  split; [exact E|].
  apply removeFirst_subset in Inb.
  rewrite (unique_by_id _ nb a ND Inb Ia E). reflexivity.
Qed.

(** The effect of [addNode] on the document store, whatever its outcome:
    either no node is added, or one node with the next id and the
    adjacency list of the input. *)
Lemma addNode_effect (node : NodeInput T) (w w1 : World T)
      (r : Result (KnowledgeNode T)) :
  addNode env ext node w = (r, w1) ->
  (w_nodes w1 = w_nodes w /\ (w_nextOid w <= w_nextOid w1)%N /\
   exists msg, r = Throw msg) \/
  (exists n, w_nodes w1 = w_nodes w ++ [n] /\
             n_connections n = in_connections node /\
             n_id n = w_nextOid w /\
             w_nextOid w1 = N.succ (w_nextOid w) /\
             (r = Ok n \/ exists msg, r = Throw msg)).
Proof.
  destruct (generateEmbedding_frame env ext
              {| er_text := (in_title node ++ " " ++ in_content node)%string;
                 er_model := None |}) as (r0 & cs & G).
  unfold addNode, saveNode, freshObjectId, convertObjectIdToUUID, qdrantUpsert.
  unfoldM. rewrite G. destruct r0 as [e|msg]; simpl.
  - match goal with |- context [validNode ?d] => destruct (validNode d) end; simpl.
    + destruct (fitsSchema _ _); simpl; intros [= <- <-]; right;
        eexists; simpl; repeat split; eauto.
    + intros [= <- <-]. left. simpl. repeat split; [lia|eauto].
  - intros [= <- <-]. left. simpl. repeat split; [lia|eauto].
Qed.









End Adjacency.

(** C8: Alice creates two nodes and a relation between them; each node
    then lists the other.  She deletes the first node: the delete succeeds,
    and the second node still lists the deleted one, which no longer
    exists. *)
Theorem deleteNode_keeps_dangling_connection :
  map (fun n => (n_id n, n_connections n)) (w_nodes worldAlphaBeta)
  = [(1%N, []); (2%N, [])] /\
  map (fun n => (n_id n, n_connections n)) (w_nodes worldRelated)
  = [(1%N, [2%N]); (2%N, [1%N])] /\
  adjacencySymmetric worldRelated /\
  fst (deleteNode extStub 1%N "alice" worldRelated) = Ok tt /\
  map (fun n => (n_id n, n_connections n)) (w_nodes worldRelatedDeleted)
  = [(2%N, [1%N])] /\
  w_relations worldRelatedDeleted = [] /\
  ~ adjacencySymmetric worldRelatedDeleted.
Proof.
  repeat split; try (vm_compute; reflexivity).
  - apply adjacencySymmetricb_spec. vm_compute. reflexivity.
  - intros S. apply adjacencySymmetricb_spec in S. vm_compute in S. discriminate.
Qed.

(** [addRelation] does not check that its endpoints are stored: a relation
    to an id that no node has leaves a one-sided entry. *)
Lemma addRelation_dangling_endpoint :
  map (fun n => (n_id n, n_connections n)) (w_nodes worldDangling)
  = [(1%N, [77%N]); (2%N, [])] /\
  adjacencySymmetricb worldDangling = false.
Proof. vm_compute. split; reflexivity. Qed.

(* ================================================================== *)
(** * Further properties of the services *)

(* ================================================================== *)
(** ** Namespaces *)

(** X1: every namespace [getVectorName] can return is one the collection
    provisions, so no vector is refused for an unknown vector name; and a
    model name with an OpenAI marker is filed under [openai] even when it
    carries an Ollama marker as well. *)
Theorem getVectorName_provisioned (model : string) :
  (vectorSize (getVectorName model) = Some 1536%nat \/
   vectorSize (getVectorName model) = Some 768%nat) /\
  (includes model "text-embedding" = true \/ includes model "openai" = true ->
   getVectorName model = "openai") /\
  (getVectorName model = "ollama" ->
   includes model "nomic-embed" = true \/ includes model "ollama" = true).
Proof.
  unfold getVectorName.
  destruct (includes model "text-embedding"), (includes model "openai"),
    (includes model "nomic-embed"), (includes model "ollama"); simpl;
    repeat split; auto; try (intros [E|E]; discriminate); try discriminate.
Qed.

(* ================================================================== *)
(** ** Node creation: failures *)

Section NodeCreation.
Context {T : Type} `{Number T}.
Variable env : ProcessEnv.
Variable ext : External T.

(** [addNode] in one equation, by the outcome of the embedding. *)
Lemma addNode_spec (node : NodeInput T) (w w0 : World T)
      (r : Result (EmbeddingResponse T)) :
  generateEmbedding env ext (nodeText node) w = (r, w0) ->
  addNode env ext node w =
  match r with
  | Throw _ => (Throw "Failed to add knowledge node", w0)
  | Ok e =>
      let doc := nodeDocument node (w_nextOid w) (embedding e) in
      if validNode doc then
        if fitsSchema (getVectorName (model e)) (embedding e) then
          (Ok doc,
           {| w_nodes := w_nodes w ++ [doc]; w_relations := w_relations w;
              w_points :=
                filter (fun q => negb (N.eqb (pt_id q) (uuidv4 ext (w_entropy w))))
                       (w_points w)
                ++ [pointOf node (w_nextOid w) (uuidv4 ext (w_entropy w)) e];
              w_nextOid := N.succ (w_nextOid w);
              w_entropy := S (w_entropy w); w_calls := w_calls w0 |})
        else
          (Throw "Failed to add knowledge node",
           {| w_nodes := w_nodes w ++ [doc]; w_relations := w_relations w;
              w_points := w_points w; w_nextOid := N.succ (w_nextOid w);
              w_entropy := S (w_entropy w); w_calls := w_calls w0 |})
      else
        (Throw "Failed to add knowledge node",
         {| w_nodes := w_nodes w; w_relations := w_relations w;
            w_points := w_points w; w_nextOid := N.succ (w_nextOid w);
            w_entropy := w_entropy w; w_calls := w_calls w0 |})
  end.
Proof.
  destruct (generateEmbedding_frame env ext (nodeText node)) as (r0 & cs & G).
  rewrite G. intros [= <- <-].
  unfold addNode, saveNode, freshObjectId, convertObjectIdToUUID, qdrantUpsert.
  unfoldM. fold (nodeText node). rewrite G. destruct r0 as [e|msg]; [|reflexivity].
  simpl. fold (nodeDocument node (w_nextOid w) (embedding e)).
  destruct (validNode (nodeDocument node (w_nextOid w) (embedding e)));
    [|reflexivity].
  simpl. destruct (fitsSchema _ _); reflexivity.
Qed.

(** The provider requests made do not touch the stores. *)
Lemma generateEmbedding_stores (request : EmbeddingRequest) (w w0 : World T)
      (r : Result (EmbeddingResponse T)) :
  generateEmbedding env ext request w = (r, w0) ->
  w_nodes w0 = w_nodes w /\ w_relations w0 = w_relations w /\
  w_points w0 = w_points w /\ w_nextOid w0 = w_nextOid w /\
  w_entropy w0 = w_entropy w.
Proof.
  destruct (generateEmbedding_frame env ext request) as (r0 & cs & G).
  rewrite G. intros [= _ <-]. repeat split.
Qed.

(** X2: a failed [addNode] always reports ['Failed to add knowledge
    node'], whatever went wrong, and is never followed by a write to the
    vector index or to the relations; in the document store it leaves
    either nothing or one node, the document that was saved, and the
    latter only after the embedding was produced and the document passed
    validation.  Nothing is rolled back. *)
Theorem addNode_failure (node : NodeInput T) (w w1 : World T) (m : string) :
  addNode env ext node w = (Throw m, w1) ->
  m = "Failed to add knowledge node" /\
  w_points w1 = w_points w /\
  w_relations w1 = w_relations w /\
  (w_nodes w1 = w_nodes w \/
   exists e,
     fst (generateEmbedding env ext (nodeText node) w) = Ok e /\
     validNode (nodeDocument node (w_nextOid w) (embedding e)) = true /\
     w_nodes w1 = w_nodes w ++ [nodeDocument node (w_nextOid w) (embedding e)]).
Proof.
  destruct (generateEmbedding env ext (nodeText node) w) as [r w0] eqn:G.
  rewrite (addNode_spec node w w0 r G).
  destruct (generateEmbedding_stores _ _ _ _ G) as (Nd & Rl & Pt & _).
  destruct r as [e|msg].
  - simpl. destruct (validNode _) eqn:V.
    + destruct (fitsSchema _ _); [discriminate|].
      intros [= <- <-]. simpl. repeat split. right. exists e. auto.
    + intros [= <- <-]. simpl. repeat split. left. reflexivity.
  - intros [= <- <-]. repeat split; auto.
Qed.

(** X3: the orphan node.  When the embedding is produced and the node
    passes validation but the vector does not fit the namespace derived
    from the model name, [addNode] throws after the node was saved: the
    node is in the document store, without a vector point, and the caller
    is told the creation failed. *)
Theorem addNode_orphan_node (node : NodeInput T) (w w0 : World T)
        (e : EmbeddingResponse T) :
  generateEmbedding env ext (nodeText node) w = (Ok e, w0) ->
  validNode (nodeDocument node (w_nextOid w) (embedding e)) = true ->
  fitsSchema (getVectorName (model e)) (embedding e) = false ->
  exists w1,
    addNode env ext node w = (Throw "Failed to add knowledge node", w1) /\
    w_nodes w1 = w_nodes w ++ [nodeDocument node (w_nextOid w) (embedding e)] /\
    w_points w1 = w_points w /\
    forall limit,
      (0 < limit)%nat ->
      exists rest relations,
        fst (getKnowledgeGraph (in_userId node) limit w1)
        = Ok (nodeDocument node (w_nextOid w) (embedding e) :: rest, relations).
Proof.
  intros G V F. rewrite (addNode_spec node w w0 _ G). simpl. rewrite V, F.
  eexists. split; [reflexivity|]. simpl. repeat split.
  intros limit L. unfold getKnowledgeGraph, findNodes, findRelations. unfoldM.
  simpl. rewrite filter_app. simpl. rewrite String.eqb_refl, rev_app_distr. simpl.
  destruct limit as [|k]; [lia|]. simpl. eexists _, _. reflexivity.
Qed.
End NodeCreation.

Lemma addNode_failure_witness :
  fst (addNode envOpenAI extAllDown alphaInput emptyWorld)
  = Throw "Failed to add knowledge node" /\
  w_nodes (snd (addNode envOpenAI extAllDown alphaInput emptyWorld)) = [] /\
  w_points (snd (addNode envOpenAI extAllDown alphaInput emptyWorld)) = [].
Proof.
  assert (A : addNode envOpenAI extAllDown alphaInput emptyWorld
              = (Throw "Failed to add knowledge node",
                 snd (addNode envOpenAI extAllDown alphaInput emptyWorld)))
    by (vm_compute; reflexivity).
  destruct (addNode_failure envOpenAI extAllDown alphaInput emptyWorld _ _ A)
    as (_ & P & _ & _).
  split; [vm_compute; reflexivity|]. split; [vm_compute; reflexivity|].
  rewrite P. reflexivity.
Defined.

(** X3, on a run: the primary provider is down, the local provider
    answers with a 768-dimensional vector for the model
    [mxbai-embed-large], which [getVectorName] files under [openai]. *)
Lemma addNode_orphan_node_witness :
  exists w1,
    addNode envMxbai extLocalOnly alphaInput emptyWorld
    = (Throw "Failed to add knowledge node", w1) /\
    map (fun n => (n_id n, n_title n, option_map (@List.length float) (n_embedding n)))
        (w_nodes w1) = [(1%N, "Alpha", Some 768%nat)] /\
    w_points w1 = [].
Proof.
  destruct (addNode_orphan_node envMxbai extLocalOnly alphaInput emptyWorld
              (snd (generateEmbedding envMxbai extLocalOnly (nodeText alphaInput)
                      emptyWorld))
              {| embedding := padTo 768 [1%float]; model := "mxbai-embed-large";
                 tokens := 0 |})
    as (w1 & A & N & P & _).
  - vm_compute. reflexivity.
  - vm_compute. reflexivity.
  - vm_compute. reflexivity.
  - exists w1. split; [exact A|]. rewrite N, P. split; [|reflexivity].
    vm_compute. reflexivity.
Defined.

(* ================================================================== *)
(** ** Reading the graph *)

Section GraphReads.
Context {T : Type} `{Number T}.
Variable env : ProcessEnv.
Variable ext : External T.

(** [getKnowledgeGraph] in one equation, on stores that answer. *)
Lemma getKnowledgeGraph_spec (userId : string) (limit : nat) (w : World T) :
  getKnowledgeGraph userId limit w =
  (Ok (limitDocs limit (rev (filter (fun n => String.eqb (n_userId n) userId)
                                    (w_nodes w))),
       filter (fun r =>
                 String.eqb (r_userId r) userId &&
                 (existsb (N.eqb (r_sourceNodeId r))
                    (map (@n_id T)
                       (limitDocs limit
                          (rev (filter (fun n => String.eqb (n_userId n) userId)
                                       (w_nodes w))))) ||
                  existsb (N.eqb (r_targetNodeId r))
                    (map (@n_id T)
                       (limitDocs limit
                          (rev (filter (fun n => String.eqb (n_userId n) userId)
                                       (w_nodes w)))))))
              (w_relations w)),
   w).
Proof. reflexivity. Qed.

Lemma existsb_N_In (x : N) (l : list N) : existsb (N.eqb x) l = true <-> In x l.
Proof.
  rewrite existsb_exists. split.
  - intros (y & I & E). apply N.eqb_eq in E. subst. exact I.
  - intros I. exists x. split; [exact I|apply N.eqb_refl].
Qed.

(** X4: a graph read is scoped to the tenant and never writes.  When it
    returns, its nodes are stored nodes of the tenant, newest first: at
    most [limit] of them for a positive [limit], and all of them for
    [limit = 0], which sets no limit; its relations are exactly the
    tenant's relations that have an endpoint among the returned nodes. *)
Theorem getKnowledgeGraph_scoped (userId : string) (limit : nat) (w w1 : World T)
        (r : Result (list (KnowledgeNode T) * list (KnowledgeRelation T))) :
  getKnowledgeGraph userId limit w = (r, w1) ->
  w1 = w /\
  forall nodes relations,
    r = Ok (nodes, relations) ->
    ((0 < limit)%nat -> (List.length nodes <= limit)%nat) /\
    (limit = 0%nat -> nodes = rev (tenantNodes userId w)) /\
    (exists older, rev (tenantNodes userId w) = nodes ++ older) /\
    Forall (fun n => n_userId n = userId /\ In n (w_nodes w)) nodes /\
    forall rel,
      In rel relations <->
      In rel (w_relations w) /\ r_userId rel = userId /\
      (In (r_sourceNodeId rel) (map (@n_id T) nodes) \/
       In (r_targetNodeId rel) (map (@n_id T) nodes)).
Proof.
  rewrite getKnowledgeGraph_spec. intros [= <- <-]. split; [reflexivity|].
  intros nodes relations [= <- <-]. fold (tenantNodes userId w).
  split; [|split; [|split; [|split]]].
  - intros L. unfold limitDocs. destruct limit as [|k]; [lia|].
    apply firstn_le_length.
  - intros ->. reflexivity.
  - unfold limitDocs. destruct (Nat.eqb limit 0).
    + exists []. rewrite app_nil_r. reflexivity.
    + exists (skipn limit (rev (tenantNodes userId w))).
      symmetry. apply firstn_skipn.
  - apply Forall_forall. intros n I. apply limitDocs_In, in_rev, filter_In in I.
    destruct I as [I U]. apply String.eqb_eq in U. auto.
  - intros rel. rewrite filter_In, andb_true_iff, orb_true_iff, String.eqb_eq,
      !existsb_N_In. tauto.
Qed.

(** X5: a node that was just added is the first node of the tenant's next
    graph read, for every positive [limit]. *)
Theorem addNode_then_getKnowledgeGraph (node : NodeInput T) (w w1 : World T)
        (n : KnowledgeNode T) (limit : nat) :
  addNode env ext node w = (Ok n, w1) ->
  (0 < limit)%nat ->
  exists rest relations,
    getKnowledgeGraph (in_userId node) limit w1 = (Ok (n :: rest, relations), w1).
Proof.
  intros A L. destruct (addNode_ok env ext node w w1 n A)
    as (e & En & _ & Nodes & _).
  rewrite getKnowledgeGraph_spec, Nodes, filter_app. simpl.
  assert (U : String.eqb (n_userId n) (in_userId node) = true)
    by (rewrite En; apply String.eqb_refl).
  rewrite U, rev_app_distr. simpl.
  destruct limit as [|k]; [lia|]. simpl. eexists _, _. reflexivity.
Qed.




End GraphReads.

(** X4, on a run: with [limit = 0] both of Alice's nodes are returned,
    the newer first. *)
Lemma getKnowledgeGraph_scoped_witness :
  snd (getKnowledgeGraph "alice" 0 worldAlphaBeta) = worldAlphaBeta /\
  forall nodes relations,
    fst (getKnowledgeGraph "alice" 0 worldAlphaBeta) = Ok (nodes, relations) ->
    nodes = rev (tenantNodes "alice" worldAlphaBeta) /\
    map (@n_id float) nodes = [2%N; 1%N].
Proof.
  destruct (getKnowledgeGraph_scoped "alice" 0 worldAlphaBeta
              (snd (getKnowledgeGraph "alice" 0 worldAlphaBeta))
              (fst (getKnowledgeGraph "alice" 0 worldAlphaBeta))
              (surjective_pairing _)) as [Same Read].
  split; [exact Same|]. intros nodes relations E.
  destruct (Read nodes relations E) as (_ & All & _).
  split; [apply All; reflexivity|].
  rewrite (All eq_refl). vm_compute. reflexivity.
Defined.


Lemma addNode_then_getKnowledgeGraph_witness :
  exists rest relations,
    getKnowledgeGraph "alice" 1
      (snd (addNode envOpenAI extStub alphaInput emptyWorld))
    = (Ok (nodeDocument alphaInput 1%N (padTo 1536 [1%float]) :: rest, relations),
       snd (addNode envOpenAI extStub alphaInput emptyWorld)).
Proof.
  apply (addNode_then_getKnowledgeGraph envOpenAI extStub alphaInput emptyWorld).
  - vm_compute. reflexivity.
  - lia.
Defined.

(* ================================================================== *)
(** ** Relations *)

Section Relations.
Context {T : Type} `{Number T}.
Variable env : ProcessEnv.
Variable ext : External T.

(** [addRelation] in one equation. *)
Lemma addRelation_spec (relation : RelationInput T) (w : World T) :
  let doc := {| r_id := w_nextOid w;
                r_userId := ri_userId relation;
                r_sourceNodeId := ri_sourceNodeId relation;
                r_targetNodeId := ri_targetNodeId relation;
                r_relationType := trim (ri_relationType relation);
                r_strength := ri_strength relation;
                r_metadata := ri_metadata relation |} in
  addRelation relation w =
  if validRelation doc &&
     negb (existsb (sameEndpoints (ri_sourceNodeId relation)
                                  (ri_targetNodeId relation)) (w_relations w))
  then
    (Ok doc,
     {| w_nodes := updateFirst (ri_targetNodeId relation)
                     (addConnection (ri_sourceNodeId relation))
                     (updateFirst (ri_sourceNodeId relation)
                        (addConnection (ri_targetNodeId relation)) (w_nodes w));
        w_relations := w_relations w ++ [doc];
        w_points := w_points w; w_nextOid := N.succ (w_nextOid w);
        w_entropy := w_entropy w; w_calls := w_calls w |})
  else
    (Throw "Failed to add knowledge relation", setNextOid w (N.succ (w_nextOid w))).
Proof.
  intros doc. unfold addRelation, saveRelation, freshObjectId, updateOneAddToSet.
  unfoldM. simpl. fold doc. destruct (validRelation doc); simpl; [|reflexivity].
  destruct (existsb _ _); reflexivity.
Qed.

Lemma sameEndpoints_In (s t : ObjectId) (rs : list (KnowledgeRelation T)) :
  existsb (sameEndpoints s t) rs = true <-> In (s, t) (map endpoints rs).
Proof.
  rewrite existsb_exists, in_map_iff. unfold sameEndpoints, endpoints.
  split; intros (r & A & B).
  - apply andb_true_iff in B. destruct B as [B1 B2].
    apply N.eqb_eq in B1, B2. exists r. subst. auto.
  - exists r. injection A as <- <-. rewrite !N.eqb_refl. auto.
Qed.

(** X7: a relation the document store refuses, because it fails the
    schema or because its ordered pair of endpoints is already related,
    makes [addRelation] throw ['Failed to add knowledge relation'] before
    anything is written: the nodes, the relations and the vector index
    are exactly as they were, and no adjacency list is touched. *)
Theorem addRelation_refused (relation : RelationInput T) (w : World T) :
  validRelation (relationDocument relation (w_nextOid w)) = false \/
  In (ri_sourceNodeId relation, ri_targetNodeId relation)
     (map endpoints (w_relations w)) ->
  exists w1,
    addRelation relation w = (Throw "Failed to add knowledge relation", w1) /\
    w_nodes w1 = w_nodes w /\ w_relations w1 = w_relations w /\
    w_points w1 = w_points w.
Proof.
  intros Refused. rewrite addRelation_spec. cbv zeta.
  fold (relationDocument relation (w_nextOid w)).
  assert (E : validRelation (relationDocument relation (w_nextOid w)) &&
              negb (existsb (sameEndpoints (ri_sourceNodeId relation)
                                           (ri_targetNodeId relation))
                            (w_relations w)) = false).
  { destruct Refused as [V|I].
    - rewrite V. reflexivity.
    - rewrite (proj2 (sameEndpoints_In _ _ _) I). apply andb_false_r. }
  rewrite E. eexists. split; [reflexivity|]. repeat split.
Qed.

(** X8: the ordered pair of endpoints identifies a relation across all
    tenants.  A pair that is already related is refused, whoever asks and
    whatever the type and strength; and [addRelation] and [deleteNode]
    keep the store free of two relations with the same ordered pair. *)
Theorem addRelation_unique_pairs (relation : RelationInput T) (w : World T) :
  (In (ri_sourceNodeId relation, ri_targetNodeId relation)
      (map endpoints (w_relations w)) ->
   fst (addRelation relation w) = Throw "Failed to add knowledge relation") /\
  (uniquePairs w -> uniquePairs (snd (addRelation relation w))) /\
  (forall nodeId userId,
      uniquePairs w -> uniquePairs (snd (deleteNode ext nodeId userId w))).
Proof.
  split; [|split].
  - intros I. rewrite addRelation_spec. simpl.
    rewrite (proj2 (sameEndpoints_In _ _ _) I), andb_false_r. reflexivity.
  - intros U. rewrite addRelation_spec. simpl.
    destruct (validRelation _); simpl; [|exact U].
    destruct (existsb _ _) eqn:E; simpl; [exact U|].
    unfold uniquePairs. simpl. rewrite map_app. simpl.
    apply NoDup_app; [exact U|repeat constructor; tauto|].
    intros p I [<-|[]]. apply sameEndpoints_In in I. simpl in I. congruence.
  - intros nodeId userId U. rewrite deleteNode_spec. unfold uniquePairs. simpl.
    unfold uniquePairs in U. induction (w_relations w) as [|r rs IH]; simpl;
      [constructor|].
    inversion U as [|? ? NI U']; subst.
    destruct (negb (touches nodeId userId r)); simpl; [|apply IH, U'].
    constructor; [|apply IH, U'].
    intros I. apply NI. apply in_map_iff in I. destruct I as (r' & E & I).
    apply filter_In in I. apply in_map_iff. exists r'. tauto.
Qed.

Lemma addConnection_NoDup (c : ObjectId) (n : KnowledgeNode T) :
  NoDup (n_connections n) -> NoDup (n_connections (addConnection c n)).
Proof.
  intros ND. unfold addConnection.
  destruct (existsb (N.eqb c) (n_connections n)) eqn:E; simpl; [exact ND|].
  apply NoDup_app; [exact ND|repeat constructor; tauto|].
  intros x I [<-|[]]. apply existsb_N_In in I. congruence.
Qed.

Lemma updateFirst_Forall (P : KnowledgeNode T -> Prop) (id : ObjectId)
      (u : KnowledgeNode T -> KnowledgeNode T) (ns : list (KnowledgeNode T)) :
  (forall n, P n -> P (u n)) -> Forall P ns -> Forall P (updateFirst id u ns).
Proof.
  intros U F. induction F as [|a ns Pa F IH]; simpl; [constructor|].
  destruct (N.eqb (n_id a) id); constructor; auto.
Qed.

(** X9: adjacency lists never collect duplicates.  [$addToSet] adds an
    endpoint only when it is not yet listed, so relating the same two
    nodes again (in either direction) leaves lists without repetition as
    they are in that respect; node creation with a duplicate-free list and
    node deletion keep the property too. *)
Theorem connections_stay_duplicate_free (w : World T) :
  connectionsNoDup w ->
  (forall relation, connectionsNoDup (snd (addRelation relation w))) /\
  (forall nodeId userId, connectionsNoDup (snd (deleteNode ext nodeId userId w))) /\
  (forall node, NoDup (in_connections node) ->
                connectionsNoDup (snd (addNode env ext node w))).
Proof.
  intros C. split; [|split].
  - intros relation. rewrite addRelation_spec. simpl.
    destruct (_ && _); simpl; [|exact C].
    unfold connectionsNoDup. simpl.
    apply updateFirst_Forall; [intros n; apply addConnection_NoDup|].
    apply updateFirst_Forall; [intros n; apply addConnection_NoDup|exact C].
  - intros nodeId userId. rewrite deleteNode_spec. unfold connectionsNoDup. simpl.
    apply Forall_forall. intros n I. apply removeFirst_subset in I.
    unfold connectionsNoDup in C. rewrite Forall_forall in C. auto.
  - intros node ND.
    destruct (addNode env ext node w) as [r w1] eqn:A. simpl.
    destruct (addNode_effect env ext node w w1 r A)
      as [(E & _) | (n & E & Cn & _)]; unfold connectionsNoDup; rewrite E;
      [exact C|].
    apply Forall_app. split; [exact C|]. constructor; [|constructor].
    rewrite Cn. exact ND.
Qed.
End Relations.

Lemma addRelation_refused_witness :
  exists w1,
    addRelation (relationInput "bob" 1%N 2%N "follows" (ndec 5 1)) worldRelated
    = (Throw "Failed to add knowledge relation", w1) /\
    w_nodes w1 = w_nodes worldRelated /\
    w_relations w1 = w_relations worldRelated /\
    w_points w1 = w_points worldRelated.
Proof.
  apply (addRelation_refused (relationInput "bob" 1%N 2%N "follows" (ndec 5 1))
           worldRelated).
  right. vm_compute. left. reflexivity.
Defined.

Lemma addRelation_unique_pairs_witness :
  fst (addRelation (relationInput "bob" 1%N 2%N "follows" (ndec 5 1)) worldRelated)
  = Throw "Failed to add knowledge relation" /\
  uniquePairs (snd (addRelation (relationInput "alice" 2%N 1%N "follows" (ndec 5 1))
                                worldRelated)).
Proof.
  split.
  - apply (proj1 (addRelation_unique_pairs extStub
                    (relationInput "bob" 1%N 2%N "follows" (ndec 5 1)) worldRelated)).
    vm_compute. left. reflexivity.
  - apply (proj1 (proj2 (addRelation_unique_pairs extStub
                    (relationInput "alice" 2%N 1%N "follows" (ndec 5 1)) worldRelated))).
    unfold uniquePairs. vm_compute. repeat constructor. intros [].
Defined.

Lemma connections_stay_duplicate_free_witness :
  connectionsNoDup
    (snd (addRelation (relationInput "alice" 2%N 1%N "follows" (ndec 5 1))
                      worldRelated)) /\
  map (fun n => (n_id n, n_connections n))
      (w_nodes (snd (addRelation (relationInput "alice" 2%N 1%N "follows" (ndec 5 1))
                                 worldRelated)))
  = [(1%N, [2%N]); (2%N, [1%N])].
Proof.
  split.
  - apply (proj1 (connections_stay_duplicate_free envOpenAI extStub worldRelated
                    ltac:(unfold connectionsNoDup; vm_compute;
                          repeat constructor; simpl; tauto))).
  - vm_compute. reflexivity.
Defined.

(* ================================================================== *)
(** ** Retrieval *)

Section Retrieval.
Context {T : Type} `{Number T}.
Variable env : ProcessEnv.
Variable ext : External T.

Lemma sameStores_refl (w : World T) : sameStores w w.
Proof. repeat split. Qed.

Lemma sameStores_trans (w w1 w2 : World T) :
  sameStores w w1 -> sameStores w1 w2 -> sameStores w w2.
Proof.
  intros (A1 & A2 & A3 & A4) (B1 & B2 & B3 & B4). repeat split; congruence.
Qed.

Lemma sessionIdOf_stores (request : ChatRequest) (w w1 : World T)
      (r : Result string) :
  sessionIdOf ext request w = (r, w1) -> sameStores w w1.
Proof.
  unfold sessionIdOf, generateSessionId. destruct (truthyStr _).
  - unfold ret. intros [= _ <-]. apply sameStores_refl.
  - intros [= _ <-]. repeat split.
Qed.

Ltac storesOfSession request :=
  match goal with
  | |- context [sessionIdOf _ request ?w0] =>
      let r := fresh "r" in
      let w' := fresh "w'" in
      let E := fresh "E" in
      destruct (sessionIdOf ext request w0) as [r w'] eqn:E;
      apply sessionIdOf_stores in E; destruct r
  end.

Lemma callProvider_stores (provider model : string) (request : ChatRequest)
      (userApiKey : option string) (w w1 : World T) (r : Result ChatResponse) :
  callProvider env ext provider model request userApiKey w = (r, w1) ->
  sameStores w w1.
Proof.
  unfold callProvider.
  destruct (String.eqb provider "openai").
  { unfold generateOpenAIResponse. unfoldM. simpl.
    destruct (openai_chat_completions_create ext _ _ _) as [[message tokens]|].
    - storesOfSession request; intros [= _ <-]; exact E.
    - intros [= _ <-]. repeat split. }
  destruct (String.eqb provider "anthropic").
  { unfold generateAnthropicResponse. unfoldM. simpl.
    destruct (anthropic_messages_create ext _ _ _ _) as [[message tokens]|].
    - storesOfSession request; intros [= _ <-]; exact E.
    - intros [= _ <-]. repeat split. }
  destruct (String.eqb provider "ollama").
  { unfold generateOllamaResponse. unfoldM. simpl.
    destruct (ollama_api_generate ext _ _ _) as [message|].
    - storesOfSession request; intros [= _ <-]; exact E.
    - intros [= _ <-]. repeat split. }
  unfoldM. intros [= _ <-]. apply sameStores_refl.
Qed.

Lemma generateResponse_stores (request : ChatRequest) (userApiKey : option string)
      (w w1 : World T) (r : Result ChatResponse) :
  generateResponse env ext request userApiKey w = (r, w1) -> sameStores w w1.
Proof.
  unfold generateResponse, tryCatch.
  destruct (callProvider env ext _ _ request userApiKey w) as [[a|m] w0] eqn:C;
    apply callProvider_stores in C.
  - intros [= _ <-]. exact C.
  - destruct (negb _).
    + destruct (generateOllamaResponse env ext request _ w0) as [[a|m'] w2] eqn:O.
      * intros [= _ <-]. apply (sameStores_trans _ _ _ C).
        apply (callProvider_stores "ollama" _ request None w0 w2 _ O).
      * unfold throw. intros [= _ <-]. apply (sameStores_trans _ _ _ C).
        apply (callProvider_stores "ollama" _ request None w0 w2 _ O).
    + unfold throw. intros [= _ <-]. exact C.
Qed.

Lemma searchSimilarNodes_stores (query userId : string) (limit : nat) (threshold : T)
      (w w1 : World T) (r : Result (list (KnowledgeNode T))) :
  searchSimilarNodes env ext query userId limit threshold w = (r, w1) ->
  sameStores w w1 /\ (forall m, r = Throw m -> m = "Failed to search similar nodes").
Proof.
  destruct (generateEmbedding_frame env ext {| er_text := query; er_model := None |})
    as (r0 & cs & G).
  rewrite (searchSimilarNodes_spec env ext query userId limit threshold r0 cs G).
  intros [= <- <-]. split; [repeat split|].
  intros m. destruct r0 as [e|msg]; [destruct (fitsSchema _ _)|]; congruence.
Qed.

Lemma performRAGQuery_stores (query : RAGQuery T) (w w1 : World T)
      (r : Result (RAGResponse T)) :
  performRAGQuery env ext query w = (r, w1) ->
  sameStores w w1 /\ forall m, r = Throw m -> m = "Failed to perform RAG query".
Proof.
  unfold performRAGQuery. unfoldM.
  destruct (searchSimilarNodes env ext _ _ _ _ w) as [[nodes|msg] w0] eqn:S;
    apply searchSimilarNodes_stores in S; destruct S as [S _].
  - destruct (generateResponse env ext _ _ w0) as [[ai|msg] w2] eqn:G;
      apply generateResponse_stores in G; intros [= <- <-];
      (split; [apply (sameStores_trans _ _ _ S G)|congruence]).
  - intros [= <- <-]. split; [exact S|congruence].
Qed.

(** X10: retrieval is read-only.  Whatever their outcome,
    [searchSimilarNodes], [generateResponse] and [performRAGQuery] leave
    the nodes, the relations and the vector index as they were; and a
    failure of [performRAGQuery], whether of the embedding, of the index or
    of every generation provider, reaches the caller as ['Failed to
    perform RAG query'] only. *)
Theorem retrieval_read_only (w : World T) :
  (forall query userId limit threshold r w1,
      searchSimilarNodes env ext query userId limit threshold w = (r, w1) ->
      sameStores w w1) /\
  (forall request userApiKey r w1,
      generateResponse env ext request userApiKey w = (r, w1) -> sameStores w w1) /\
  (forall query r w1,
      performRAGQuery env ext query w = (r, w1) ->
      sameStores w w1 /\
      forall m, r = Throw m -> m = "Failed to perform RAG query").
Proof.
  split; [|split].
  - intros query userId limit threshold r w1 S.
    apply (searchSimilarNodes_stores _ _ _ _ _ _ _ S).
  - intros request userApiKey r w1. apply generateResponse_stores.
  - intros query r w1. apply performRAGQuery_stores.
Qed.

(** X15: the chat handler always replies and never throws.  A request
    without a message (absent or empty) is refused with status 400 before
    anything is read or sent; any failure behind it becomes the one reply
    500 ['Failed to process message'].  The handler never changes the
    knowledge graph, the sources of a reply are stored nodes of the
    caller, an unauthenticated caller being the tenant ['anonymous'], and
    with [useRAG] off the reply has no sources and confidence 1. *)
Theorem sendMessage_replies (body : MessageBody) (reqUserId : option string)
        (w : World T) :
  exists reply w1,
    sendMessage env ext body reqUserId w = (Ok reply, w1) /\
    sameStores w w1 /\
    (truthyStr (b_message body) = false ->
     reply = Reply400 "Message is required" /\ w1 = w) /\
    (truthyStr (b_message body) = true ->
     reply = Reply500 "Failed to process message" \/
     exists data,
       reply = Reply200 data /\
       Forall (fun n => n_userId n = orStr reqUserId "anonymous" /\ In n (w_nodes w))
              (d_sources data) /\
       (b_useRAG body = Some false ->
        d_sources data = [] /\ d_confidence data = nofZ 1)).
Proof.
  unfold sendMessage. unfoldM.
  destruct (truthyStr (b_message body)); simpl.
  2:{ eexists _, w. repeat split; [discriminate]. }
  destruct (b_useRAG body) as [[|]|].
  2:{ destruct (generateResponse env ext _ _ w) as [[ai|msg] w1] eqn:G;
        apply generateResponse_stores in G.
      - eexists _, w1. split; [reflexivity|]. split; [exact G|].
        split; [discriminate|]. intros _. right. eexists. split; [reflexivity|].
        simpl. split; [constructor|]. intros _. split; reflexivity.
      - eexists _, w1. split; [reflexivity|]. split; [exact G|].
        split; [discriminate|]. intros _. left. reflexivity. }
  all: destruct (performRAGQuery env ext _ w) as [[response|msg] w1] eqn:P;
    [pose proof (performRAGQuery_ok env ext _ _ _ _ P) as (w0 & S & _);
     apply searchSimilarNodes_owned in S|];
    apply performRAGQuery_stores in P; destruct P as [P _];
    eexists _, w1; (split; [reflexivity|]); (split; [exact P|]);
    (split; [discriminate|]); intros _; [right|left; reflexivity];
    eexists; (split; [reflexivity|]); simpl; (split; [exact S|]); discriminate.
Qed.

Lemma insertBy_length {A : Type} (compare : A -> A -> T) (a : A) (l : list A) :
  List.length (insertBy compare a l) = S (List.length l).
Proof.
  induction l as [|b l IH]; simpl; [reflexivity|].
  destruct (nltb nzero (compare a b)); simpl; [rewrite IH|]; reflexivity.
Qed.

Lemma sortBy_length {A : Type} (compare : A -> A -> T) (l : list A) :
  List.length (sortBy compare l) = List.length l.
Proof.
  unfold sortBy. induction l as [|a l IH]; simpl; [reflexivity|].
  rewrite insertBy_length, IH. reflexivity.
Qed.

(** Documents with distinct ids that are picked by id are at most as many
    as the ids. *)
Lemma filter_by_id_length (ids : list ObjectId) (q : KnowledgeNode T -> bool)
      (ns : list (KnowledgeNode T)) :
  NoDup (map (@n_id T) ns) ->
  (List.length (filter (fun n => existsb (N.eqb (n_id n)) ids && q n) ns)
   <= List.length ids)%nat.
Proof.
  intros ND.
  rewrite <- (length_map (@n_id T)).
  apply NoDup_incl_length.
  - induction ns as [|a ns IH]; simpl; [constructor|].
    inversion ND as [|? ? NI ND']; subst.
    destruct (existsb (N.eqb (n_id a)) ids && q a); simpl; [|apply IH, ND'].
    constructor; [|apply IH, ND'].
    intros I. apply NI. apply in_map_iff in I. destruct I as (b & E & I).
    apply filter_In in I. apply in_map_iff. exists b. tauto.
  - intros i I. apply in_map_iff in I. destruct I as (n & <- & I).
    apply filter_In in I. destruct I as [_ I]. apply andb_true_iff in I.
    destruct I as [I _]. apply existsb_N_In in I. exact I.
Qed.

(** X11: a search returns at most [limit] nodes, and every node it returns
    is backed by a vector point of the tenant, stored under the namespace
    of the query embedding, whose score against the query reaches the
    threshold (the threshold is inclusive). *)
Theorem searchSimilarNodes_bounded (query userId : string) (limit : nat)
        (threshold : T) (w w1 : World T) (nodes : list (KnowledgeNode T)) :
  NoDup (map (@n_id T) (w_nodes w)) ->
  searchSimilarNodes env ext query userId limit threshold w = (Ok nodes, w1) ->
  (List.length nodes <= limit)%nat /\
  exists e,
    fst (generateEmbedding env ext {| er_text := query; er_model := None |} w) = Ok e /\
    forall n, In n nodes ->
      exists p, In p (w_points w) /\
                p_mongoId (pt_payload p) = n_id n /\
                p_userId (pt_payload p) = userId /\
                pt_vectorName p = getVectorName (model e) /\
                ngeb (qdrant_score ext (embedding e) (pt_vector p)) threshold = true.
Proof.
  intros ND.
  destruct (generateEmbedding_frame env ext {| er_text := query; er_model := None |})
    as (r0 & cs & G).
  rewrite (searchSimilarNodes_spec env ext query userId limit threshold r0 cs G).
  destruct r0 as [e|msg]; [|discriminate].
  destruct (fitsSchema _ _); [|discriminate].
  intros [= <- _]. split.
  - unfold hydrate. rewrite sortBy_length.
    eapply Nat.le_trans; [apply filter_by_id_length, ND|].
    rewrite length_map. unfold searchPoints. apply firstn_le_length.
  - exists e. rewrite G. split; [reflexivity|].
    intros n I. apply hydrate_owned in I. destruct I as (_ & _ & I).
    apply in_map_iff in I. destruct I as (h & Eh & I).
    unfold searchPoints in I. apply firstn_In, rankHits_In, filter_In in I.
    destruct I as [I S]. apply in_map_iff in I. destruct I as (p & <- & I).
    apply filter_In in I. destruct I as [I M]. unfold matchesSearch in M.
    apply andb_true_iff in M. destruct M as [M1 M2].
    apply String.eqb_eq in M1, M2.
    exists p. simpl in *. auto.
Qed.
End Retrieval.

Lemma searchSimilarNodes_bounded_witness :
  (List.length [betaNode] <= 10)%nat /\
  exists e,
    fst (generateEmbedding envOpenAI extStub
           {| er_text := "Which letter?"; er_model := None |} worldTwoTenants) = Ok e /\
    forall n, In n [betaNode] ->
      exists p, In p (w_points worldTwoTenants) /\
                p_mongoId (pt_payload p) = n_id n /\
                p_userId (pt_payload p) = "alice" /\
                pt_vectorName p = getVectorName (model e) /\
                ngeb (qdrant_score extStub (embedding e) (pt_vector p))
                     (ndec 7 1) = true.
Proof.
  apply (searchSimilarNodes_bounded envOpenAI extStub "Which letter?" "alice" 10
           (ndec 7 1) worldTwoTenants
           (snd (searchSimilarNodes envOpenAI extStub "Which letter?" "alice" 10
                   (ndec 7 1) worldTwoTenants))).
  - vm_compute. repeat constructor; simpl; intuition discriminate.
  - vm_compute. reflexivity.
Defined.

(* ================================================================== *)
(** ** Generation and embedding requests *)

Section Requests.
Context {T : Type} `{Number T}.
Variable env : ProcessEnv.
Variable ext : External T.

(** X12: the settings [OPENAI_MODEL] and [ANTHROPIC_MODEL] have no effect
    on [generateResponse]: [getDefaultModel] reads them, but the model it
    returns only reaches the local provider.  The cloud providers are sent
    the model of the request or a built-in name. *)
Theorem generateResponse_ignores_cloud_model_settings
        (openaiModel anthropicModel : option string) (request : ChatRequest)
        (userApiKey : option string) (w : World T) :
  generateResponse (withCloudModels env openaiModel anthropicModel) ext
                   request userApiKey w
  = generateResponse env ext request userApiKey w.
Proof.
  unfold generateResponse, selectedProvider, getDefaultProvider. simpl.
  set (provider := orStr (rq_provider request) _).
  unfold callProvider, getDefaultModel.
  destruct (String.eqb provider "openai") eqn:Eo; [reflexivity|].
  destruct (String.eqb provider "anthropic") eqn:Ea; [reflexivity|].
  destruct (String.eqb provider "ollama") eqn:El; reflexivity.
Qed.

(** The session id of an answer is the one of the request, when it has
    one. *)
Lemma sessionIdOf_echo (request : ChatRequest) (w w1 : World T) (r : Result string) :
  sessionIdOf ext request w = (r, w1) ->
  w_calls w1 = w_calls w /\
  exists sid0, r = Ok sid0 /\
    forall sid, rq_sessionId request = Some sid -> sid <> "" -> sid0 = sid.
Proof.
  unfold sessionIdOf, generateSessionId.
  destruct (rq_sessionId request) as [[|c s]|]; simpl; unfold ret;
    intros [= <- <-]; (split; [reflexivity|]); eexists; (split; [reflexivity|]);
    intros sid [= <-] N; congruence.
Qed.

Ltac echoSession request :=
  match goal with
  | |- context [sessionIdOf _ request ?w0] =>
      let r := fresh "r" in
      let w' := fresh "w'" in
      let E := fresh "E" in
      let C := fresh "C" in
      let sid0 := fresh "sid0" in
      let S := fresh "S" in
      destruct (sessionIdOf ext request w0) as [r w'] eqn:E;
      apply sessionIdOf_echo in E; destruct E as (C & sid0 & -> & S)
  end.

(** What an answered provider call returns and sends. *)
Lemma callProvider_answer (provider model : string) (request : ChatRequest)
      (userApiKey : option string) (w w1 : World T) (response : ChatResponse) :
  callProvider env ext provider model request userApiKey w = (Ok response, w1) ->
  cm_provider (cr_metadata response) = provider /\
  cm_sources (cr_metadata response) = rq_context request /\
  (forall sid, rq_sessionId request = Some sid -> sid <> "" ->
               cr_sessionId response = sid) /\
  exists c, w_calls w1 = w_calls w ++ [c] /\ isChatCall c = true.
Proof.
  unfold callProvider.
  destruct (String.eqb provider "openai") eqn:Eo.
  { apply String.eqb_eq in Eo. unfold generateOpenAIResponse. unfoldM. simpl.
    destruct (openai_chat_completions_create ext _ _ _) as [[message tokens]|].
    - echoSession request. intros [= <- <-]. simpl.
      repeat split; auto. eexists. rewrite C. simpl. split; reflexivity.
    - discriminate. }
  destruct (String.eqb provider "anthropic") eqn:Ea.
  { apply String.eqb_eq in Ea. unfold generateAnthropicResponse. unfoldM. simpl.
    destruct (anthropic_messages_create ext _ _ _ _) as [[message tokens]|].
    - echoSession request. intros [= <- <-]. simpl.
      repeat split; auto. eexists. rewrite C. simpl. split; reflexivity.
    - discriminate. }
  destruct (String.eqb provider "ollama") eqn:El.
  { apply String.eqb_eq in El. unfold generateOllamaResponse. unfoldM. simpl.
    destruct (ollama_api_generate ext _ _ _) as [message|].
    - echoSession request. intros [= <- <-]. simpl.
      repeat split; auto. eexists. rewrite C. simpl. split; reflexivity.
    - discriminate. }
  unfoldM. discriminate.
Qed.

(** A provider call that fails has sent at most one request. *)
Lemma callProvider_failure_calls (provider model : string) (request : ChatRequest)
      (userApiKey : option string) (w w1 : World T) (m : string) :
  callProvider env ext provider model request userApiKey w = (Throw m, w1) ->
  exists cs, w_calls w1 = w_calls w ++ cs /\ (List.length cs <= 1)%nat /\
             forallb isChatCall cs = true.
Proof.
  unfold callProvider.
  destruct (String.eqb provider "openai") eqn:Eo.
  { unfold generateOpenAIResponse. unfoldM. simpl.
    destruct (openai_chat_completions_create ext _ _ _) as [[message tokens]|].
    - echoSession request. discriminate.
    - intros [= _ <-]. eexists [_]. simpl. repeat split. lia. }
  destruct (String.eqb provider "anthropic") eqn:Ea.
  { unfold generateAnthropicResponse. unfoldM. simpl.
    destruct (anthropic_messages_create ext _ _ _ _) as [[message tokens]|].
    - echoSession request. discriminate.
    - intros [= _ <-]. eexists [_]. simpl. repeat split. lia. }
  destruct (String.eqb provider "ollama") eqn:El.
  { unfold generateOllamaResponse. unfoldM. simpl.
    destruct (ollama_api_generate ext _ _ _) as [message|].
    - echoSession request. discriminate.
    - intros [= _ <-]. eexists [_]. simpl. repeat split. lia. }
  unfoldM. intros [= _ <-]. exists []. rewrite app_nil_r. simpl. repeat split. lia.
Qed.

(** X13: whatever the providers do, [generateResponse] sends at most two
    requests, all of them generation requests; an answer it returns is
    tagged with the provider selected for the request or with the local
    one, carries the context of the request as its sources, and keeps the
    session id of the request when there is one (a new id is drawn only
    for a request without). *)
Theorem generateResponse_outcome (request : ChatRequest) (userApiKey : option string)
        (w w1 : World T) (r : Result ChatResponse) :
  generateResponse env ext request userApiKey w = (r, w1) ->
  (exists cs, w_calls w1 = w_calls w ++ cs /\ (List.length cs <= 2)%nat /\
              forallb isChatCall cs = true) /\
  forall response, r = Ok response ->
    (cm_provider (cr_metadata response) = selectedProvider env request \/
     cm_provider (cr_metadata response) = "ollama") /\
    cm_sources (cr_metadata response) = rq_context request /\
    (forall sid, rq_sessionId request = Some sid -> sid <> "" ->
                 cr_sessionId response = sid).
Proof.
  unfold generateResponse, tryCatch.
  destruct (callProvider env ext _ _ request userApiKey w) as [[a|m] w0] eqn:P.
  - apply callProvider_answer in P. destruct P as (P1 & P2 & P3 & c & P4 & P5).
    intros [= <- <-]. split.
    + exists [c]. simpl. rewrite P5. repeat split; auto.
    + intros response [= <-]. auto.
  - apply callProvider_failure_calls in P. destruct P as (cs & P1 & P2 & P3).
    destruct (negb _).
    + destruct (generateOllamaResponse env ext request _ w0) as [[a|m'] w2] eqn:O.
      * pose proof (callProvider_answer "ollama" (orStr (OLLAMA_MODEL env) "llama2")
                      request None w0 w2 a O)
          as (Q1 & Q2 & Q3 & c & Q4 & Q5).
        intros [= <- <-]. split.
        -- exists (cs ++ [c]). rewrite Q4, P1, <- app_assoc, length_app, forallb_app.
           simpl. rewrite P3, Q5. repeat split. lia.
        -- intros response [= <-]. auto.
      * pose proof (callProvider_failure_calls "ollama"
                      (orStr (OLLAMA_MODEL env) "llama2") request None w0 w2 m' O)
          as (cs' & Q1 & Q2 & Q3).
        unfold throw. intros [= <- <-]. split; [|discriminate].
        exists (cs ++ cs'). rewrite Q1, P1, <- app_assoc, length_app, forallb_app.
        rewrite P3, Q3. repeat split. lia.
    + unfold throw. intros [= <- <-]. split; [|discriminate].
      exists cs. repeat split; auto.
Qed.

(** X14: the requests of [generateEmbedding], whatever the outcome: the
    primary provider is asked first and once, with the model of the
    request, else [DEFAULT_EMBEDDING_MODEL], else the built-in name; the
    local provider is asked, once, exactly when the primary one failed and
    the fallback is not switched off.  An answer of the primary provider is
    returned tagged with the model it was asked for; with the fallback
    switched off the error carries the primary provider's message. *)
Theorem generateEmbedding_requests (request : EmbeddingRequest) (w w1 : World T)
        (r : Result (EmbeddingResponse T)) :
  generateEmbedding env ext request w = (r, w1) ->
  let primary := OpenAIEmbed (primaryEmbeddingModel env request) (er_text request) in
  let secondary :=
    OllamaEmbed (ollamaBaseUrl env)
                (orStr (er_model request) (ollamaDefaultEmbeddingModel env))
                (er_text request) in
  match openai_embeddings_create ext (primaryEmbeddingModel env request)
                                 (er_text request) with
  | Ok (v, n) =>
      w_calls w1 = w_calls w ++ [primary] /\
      r = Ok {| embedding := v; model := primaryEmbeddingModel env request;
                tokens := n |}
  | Throw msg =>
      if useOllamaFallback env then
        w_calls w1 = w_calls w ++ [primary; secondary] /\
        (r = Throw "Failed to generate embedding with any provider" \/
         exists v, r = Ok {| embedding := v;
                             model := orStr (er_model request)
                                            (ollamaDefaultEmbeddingModel env);
                             tokens := 0 |})
      else
        w_calls w1 = w_calls w ++ [primary] /\
        r = Throw ("OpenAI embedding failed: " ++ msg)
  end.
Proof.
  intros G primary secondary.
  destruct (openai_embeddings_create ext _ _) as [[v n]|msg] eqn:P.
  - rewrite (generateEmbedding_primary env ext request w v n P) in G.
    injection G as <- <-. split; reflexivity.
  - destruct (useOllamaFallback env) eqn:F.
    + pose proof (generateEmbedding_fallback_spec env ext request w msg P F) as S.
      simpl in S. rewrite S in G.
      destruct (ollama_api_embeddings ext _ _ _) as [v|];
        injection G as <- <-; (split; [reflexivity|]); [right; exists v|left];
        reflexivity.
    + pose proof (generateEmbedding_no_fallback env ext request w msg P F) as S.
      revert G S. unfold generateEmbedding. unfoldM. simpl.
      unfold primaryEmbeddingModel in P. rewrite P, F. intros [= <- <-] _.
      split; reflexivity.
Qed.
End Requests.

Lemma generateResponse_outcome_witness :
  (exists cs,
      w_calls (snd (generateResponse envOpenAI extLocalOnly
                      (plainRequest "Hello") None emptyWorld))
      = w_calls (@emptyWorld float) ++ cs /\
      (List.length cs <= 2)%nat /\ forallb isChatCall cs = true) /\
  forall response,
    fst (generateResponse envOpenAI extLocalOnly (plainRequest "Hello") None emptyWorld)
    = Ok response ->
    (cm_provider (cr_metadata response)
     = selectedProvider envOpenAI (plainRequest "Hello") \/
     cm_provider (cr_metadata response) = "ollama") /\
    cm_sources (cr_metadata response) = rq_context (plainRequest "Hello") /\
    (forall sid, rq_sessionId (plainRequest "Hello") = Some sid -> sid <> "" ->
                 cr_sessionId response = sid).
Proof.
  apply (generateResponse_outcome envOpenAI extLocalOnly (plainRequest "Hello") None
           emptyWorld).
  apply surjective_pairing.
Defined.

Lemma generateEmbedding_requests_witness :
  w_calls (snd (generateEmbedding envNoFallback extAllDown
                  {| er_text := "Hello"; er_model := None |} emptyWorld))
  = w_calls (@emptyWorld float) ++ [OpenAIEmbed "text-embedding-3-small" "Hello"] /\
  fst (generateEmbedding envNoFallback extAllDown
         {| er_text := "Hello"; er_model := None |} emptyWorld)
  = Throw "OpenAI embedding failed: 429 You exceeded your current quota".
Proof.
  apply (generateEmbedding_requests envNoFallback extAllDown
           {| er_text := "Hello"; er_model := None |} emptyWorld).
  apply surjective_pairing.
Defined.

(* ================================================================== *)
(** ** Document ingestion *)

Section Documents.
Context {T : Type} `{Number T}.
Variable env : ProcessEnv.
Variable ext : External T.

Lemma createSentenceNodes_ok (userId : string) (source : option string)
      (sentences : list string) (acc nodes : list (KnowledgeNode T))
      (w w1 : World T) :
  createSentenceNodes env ext userId source sentences acc w = (Ok nodes, w1) ->
  exists new,
    nodes = acc ++ new /\
    map (fun n => (n_title n, n_content n)) new
    = map (fun s => (trim (String.substring 0 100 s ++ "..."), trim s))
          (filter longEnough sentences) /\
    Forall (documentConcept userId source) new.
Proof.
  revert acc w. induction sentences as [|sentence rest IH]; intros acc w; simpl.
  - unfold ret. intros [= <- _]. exists []. rewrite app_nil_r. repeat split.
    constructor.
  - unfold longEnough at 1.
    destruct (Nat.ltb (String.length (trim sentence)) 20); simpl; [apply IH|].
    unfold bind at 1.
    destruct (addNode env ext _ w) as [[node|msg] w0] eqn:A; [|discriminate].
    intros C. destruct (IH _ _ C) as (new & -> & Map & Shape).
    destruct (addNode_ok env ext _ _ _ _ A) as (e & -> & _). simpl in *.
    eexists (_ :: new). rewrite <- app_assoc. split; [reflexivity|]. split.
    + simpl. rewrite Map. reflexivity.
    + constructor; [|exact Shape]. repeat split. discriminate.
Qed.

(** The contents of the nodes of a processed document, by sentence. *)
Lemma processDocument_contents (content userId : string) (source : option string)
      (w w1 : World T) (result : ProcessingResult T) :
  processDocument env ext content userId source w = (Ok result, w1) ->
  map (@n_content T) (pr_nodes result)
  = map trim (filter longEnough
                (filter (fun s => Nat.ltb 10 (String.length (trim s)))
                        (splitSentences content))).
Proof.
  unfold processDocument. unfold tryCatch, bind at 1.
  destruct (createSentenceNodes env ext userId source _ [] w) as [[nodes|msg] w0] eqn:C;
    [|discriminate].
  unfold bind at 1.
  destruct (relateSimilar userId nodes [] w0) as [[rels|msg] w2]; [|discriminate].
  unfold ret. intros [= <- _]. simpl.
  destruct (createSentenceNodes_ok _ _ _ _ _ _ _ C) as (new & -> & Map & _).
  simpl. apply (f_equal (map snd)) in Map. rewrite !map_map in Map. exact Map.
Qed.

(** X16: the concepts of a processed document.  The sentences are the
    pieces between runs of [.], [!] and [?]; exactly those whose trimmed
    length is at least 20 become nodes, in order (the filter on length 10
    before the loop lets nothing else through).  Each node has the trimmed
    sentence as content and its first 100 characters followed by [...] as
    title, belongs to the caller, is a [concept] with confidence 0.8, tag
    [document] and the given source, carries an embedding and is returned
    with an empty adjacency list; the summary counts nodes and relations. *)
Theorem processDocument_concepts (content userId : string) (source : option string)
        (w w1 : World T) (result : ProcessingResult T) :
  processDocument env ext content userId source w = (Ok result, w1) ->
  map (fun n => (n_title n, n_content n)) (pr_nodes result)
  = map (fun s => (trim (String.substring 0 100 s ++ "..."), trim s))
        (filter longEnough (splitSentences content)) /\
  Forall (documentConcept userId source) (pr_nodes result) /\
  pr_summary result
  = ("Processed document with " ++ natToString (List.length (pr_nodes result))
     ++ " concepts and " ++ natToString (List.length (pr_relations result))
     ++ " relations")%string.
Proof.
  unfold processDocument. unfold tryCatch, bind at 1.
  destruct (createSentenceNodes env ext userId source _ [] w) as [[nodes|msg] w0] eqn:C;
    [|discriminate].
  unfold bind at 1.
  destruct (relateSimilar userId nodes [] w0) as [[rels|msg] w2]; [|discriminate].
  unfold ret. intros [= <- _]. simpl.
  destruct (createSentenceNodes_ok _ _ _ _ _ _ _ C) as (new & -> & Map & Shape).
  simpl. rewrite Map. split; [|split; [exact Shape|reflexivity]].
  f_equal. apply filter_filter_implied. intros s. unfold longEnough.
  rewrite negb_true_iff, Nat.ltb_lt, Nat.ltb_ge. lia.
Qed.

Lemma createSentenceNodes_short (userId : string) (source : option string)
      (sentences : list string) (acc : list (KnowledgeNode T)) (w : World T) :
  Forall (fun s => longEnough s = false) sentences ->
  createSentenceNodes env ext userId source sentences acc w = (Ok acc, w).
Proof.
  intros F. induction F as [|s l S F IH]; simpl; [reflexivity|].
  unfold longEnough in S. apply negb_false_iff in S. rewrite S. exact IH.
Qed.

(** X17: a document with no sentence of trimmed length 20 or more (the
    empty document among them) is processed successfully into nothing:
    no node, no relation, no provider request, and the stores are left
    exactly as they were. *)
Theorem processDocument_nothing_to_extract (content userId : string)
        (source : option string) (w : World T) :
  Forall (fun s => longEnough s = false) (splitSentences content) ->
  processDocument env ext content userId source w =
  (Ok {| pr_nodes := []; pr_relations := [];
         pr_summary := "Processed document with 0 concepts and 0 relations" |}, w).
Proof.
  intros F. unfold processDocument. unfold tryCatch, bind at 1.
  rewrite createSentenceNodes_short; [reflexivity|].
  apply Forall_forall. intros s I. apply filter_In in I.
  rewrite Forall_forall in F. apply F. tauto.
Qed.

Lemma updateFirst_fresh_prefix (id : ObjectId) (u : KnowledgeNode T -> KnowledgeNode T)
      (old ns : list (KnowledgeNode T)) :
  Forall (fun n => n_id n <> id) old ->
  updateFirst id u (old ++ ns) = old ++ updateFirst id u ns.
Proof.
  intros F. induction F as [|a old D F IH]; simpl; [reflexivity|].
  apply N.eqb_neq in D. rewrite D, IH. reflexivity.
Qed.

Lemma addConnection_userId (c : ObjectId) (n : KnowledgeNode T) :
  n_userId (addConnection c n) = n_userId n.
Proof. unfold addConnection. destruct (existsb _ _); reflexivity. Qed.

Section Growth.
Variable userId : string.
Variable bound : ObjectId.
Variable oldN : list (KnowledgeNode T).
Variable oldR : list (KnowledgeRelation T).
Hypothesis oldBelow : Forall (fun n => (n_id n < bound)%N) oldN.

Lemma addNode_grows (node : NodeInput T) (w w1 : World T)
      (r : Result (KnowledgeNode T)) :
  in_userId node = userId ->
  addNode env ext node w = (r, w1) ->
  grows userId oldN oldR w -> (bound <= w_nextOid w)%N ->
  grows userId oldN oldR w1 /\ (bound <= w_nextOid w1)%N /\
  (forall n, r = Ok n -> (bound <= n_id n)%N) /\
  (forall m, r = Throw m -> m = "Failed to add knowledge node").
Proof.
  intros U A (ns & rs & En & Er & Fn & Fr) B.
  destruct (generateEmbedding env ext (nodeText node) w) as [r0 w0] eqn:G.
  rewrite (addNode_spec env ext node w w0 r0 G) in A.
  apply generateEmbedding_stores in G. destruct G as (Gn & Gr & _ & Go & _).
  destruct r0 as [e|msg].
  - simpl in A. destruct (validNode _).
    + destruct (fitsSchema _ _); injection A as <- <-; simpl;
        (split; [exists (ns ++ [nodeDocument node (w_nextOid w) (embedding e)]), rs;
                 rewrite En, Er, <- app_assoc; repeat split; auto;
                 apply Forall_app; split; [exact Fn|];
                 constructor; [exact U|constructor]|]);
        (split; [lia|]); split; try congruence.
      intros n [= <-]. simpl. exact B.
    + injection A as <- <-. simpl. split.
      * exists ns, rs. auto.
      * split; [lia|]. split; congruence.
  - injection A as <- <-. split.
    + exists ns, rs. rewrite Gn, Gr. auto.
    + rewrite Go. split; [exact B|]. split; congruence.
Qed.

Lemma addRelation_grows (relation : RelationInput T) (w w1 : World T)
      (r : Result (KnowledgeRelation T)) :
  ri_userId relation = userId ->
  (bound <= ri_sourceNodeId relation)%N -> (bound <= ri_targetNodeId relation)%N ->
  addRelation relation w = (r, w1) ->
  grows userId oldN oldR w -> grows userId oldN oldR w1.
Proof.
  intros U Bs Bt A (ns & rs & En & Er & Fn & Fr).
  pose proof (addRelation_spec relation w) as S. simpl in S. rewrite S in A.
  destruct (_ && _); injection A as <- <-; simpl.
  - eexists _, (rs ++ [_]). rewrite En, Er, <- app_assoc.
    rewrite !updateFirst_fresh_prefix.
    + repeat split.
      * apply updateFirst_Forall;
          [intros n; rewrite addConnection_userId; auto|].
        apply updateFirst_Forall;
          [intros n; rewrite addConnection_userId; auto|exact Fn].
      * apply Forall_app. split; [exact Fr|]. constructor; [exact U|constructor].
    + eapply Forall_impl; [|exact oldBelow]. simpl. intros a L. lia.
    + eapply Forall_impl; [|exact oldBelow]. simpl. intros a L. lia.
  - exists ns, rs. auto.
Qed.

Lemma relatePair_grows (ni nj : KnowledgeNode T) (acc : list (KnowledgeRelation T))
      (w w1 : World T) (r : Result (list (KnowledgeRelation T))) :
  (bound <= n_id ni)%N -> (bound <= n_id nj)%N ->
  relatePair userId ni nj acc w = (r, w1) ->
  grows userId oldN oldR w -> grows userId oldN oldR w1.
Proof.
  intros Bi Bj. unfold relatePair.
  destruct (n_embedding ni) as [ei|], (n_embedding nj) as [ej|];
    try (unfold ret; intros [= <- <-]; auto).
  unfold bind at 1, liftR.
  destruct (calculateSimilarity ei ej) as [s|msg];
    [|intros [= <- <-]; auto].
  destruct (ngtb s (ndec 7 1)); [|unfold ret; intros [= <- <-]; auto].
  unfold bind, ret.
  destruct (addRelation _ w) as [[rel|msg] w0] eqn:A; intros [= <- <-] G;
    (eapply addRelation_grows; [| | |exact A|exact G]; [reflexivity|exact Bi|exact Bj]).
Qed.

Lemma relateWith_grows (ni : KnowledgeNode T) (later : list (KnowledgeNode T))
      (acc : list (KnowledgeRelation T)) (w w1 : World T)
      (r : Result (list (KnowledgeRelation T))) :
  (bound <= n_id ni)%N -> Forall (fun n => (bound <= n_id n)%N) later ->
  relateWith userId ni later acc w = (r, w1) ->
  grows userId oldN oldR w -> grows userId oldN oldR w1.
Proof.
  intros Bi F. revert acc w. induction F as [|nj later Bj F IH]; intros acc w; simpl.
  - unfold ret. intros [= <- <-]. auto.
  - unfold bind at 1.
    destruct (relatePair userId ni nj acc w) as [[acc'|msg] w0] eqn:P.
    + intros R G. apply (IH _ _ R). apply (relatePair_grows _ _ _ _ _ _ Bi Bj P G).
    + intros [= <- <-]. apply (relatePair_grows _ _ _ _ _ _ Bi Bj P).
Qed.

Lemma relateSimilar_grows (nodes : list (KnowledgeNode T))
      (acc : list (KnowledgeRelation T)) (w w1 : World T)
      (r : Result (list (KnowledgeRelation T))) :
  Forall (fun n => (bound <= n_id n)%N) nodes ->
  relateSimilar userId nodes acc w = (r, w1) ->
  grows userId oldN oldR w -> grows userId oldN oldR w1.
Proof.
  intros F. revert acc w. induction F as [|ni later Bi F IH]; intros acc w; simpl.
  - unfold ret. intros [= <- <-]. auto.
  - unfold bind at 1.
    destruct (relateWith userId ni later acc w) as [[acc'|msg] w0] eqn:P.
    + intros R G. apply (IH _ _ R). apply (relateWith_grows _ _ _ _ _ _ Bi F P G).
    + intros [= <- <-]. apply (relateWith_grows _ _ _ _ _ _ Bi F P).
Qed.

Lemma createSentenceNodes_grows (source : option string) (sentences : list string)
      (acc : list (KnowledgeNode T)) (w w1 : World T)
      (r : Result (list (KnowledgeNode T))) :
  createSentenceNodes env ext userId source sentences acc w = (r, w1) ->
  Forall (fun n => (bound <= n_id n)%N) acc ->
  grows userId oldN oldR w -> (bound <= w_nextOid w)%N ->
  grows userId oldN oldR w1 /\
  (forall nodes, r = Ok nodes -> Forall (fun n => (bound <= n_id n)%N) nodes).
Proof.
  revert acc w. induction sentences as [|sentence rest IH]; intros acc w; simpl.
  - unfold ret. intros [= <- <-] F G _. split; [exact G|]. intros nodes [= <-]. exact F.
  - destruct (Nat.ltb (String.length (trim sentence)) 20); [apply IH|].
    unfold bind at 1.
    destruct (addNode env ext _ w) as [[node|msg] w0] eqn:A.
    + intros C F G B.
      assert (Grow := fun U => addNode_grows _ w w0 _ U A G B).
      destruct (Grow eq_refl) as (G0 & B0 & New & _).
      apply (IH _ _ C); auto. apply Forall_app. split; [exact F|].
      constructor; [|constructor]. apply New. reflexivity.
    + intros [= <- <-] F G B.
      assert (Grow := fun U => addNode_grows _ w w0 _ U A G B).
      destruct (Grow eq_refl) as (G0 & _).
      split; [exact G0|]. discriminate.
Qed.
End Growth.

(** X18: ingestion only adds, and only for the caller.  Whether
    [processDocument] succeeds or fails part-way, every node and relation
    stored before (of any tenant) is afterwards stored unchanged and in
    place, and everything stored after them belongs to the caller; nothing
    is rolled back on failure, which is reported as ['Failed to process
    document'].  The ids of the stored nodes are assumed to have been
    issued by the id counter. *)
Theorem processDocument_only_adds (content userId : string) (source : option string)
        (w w1 : World T) (r : Result (ProcessingResult T)) :
  Forall (fun n => (n_id n < w_nextOid w)%N) (w_nodes w) ->
  processDocument env ext content userId source w = (r, w1) ->
  grows userId (w_nodes w) (w_relations w) w1 /\
  (forall m, r = Throw m -> m = "Failed to process document").
Proof.
  intros Below. unfold processDocument. unfold tryCatch, bind at 1.
  assert (G : grows userId (w_nodes w) (w_relations w) w).
  { exists [], []. rewrite !app_nil_r. repeat split; constructor. }
  destruct (createSentenceNodes env ext userId source _ [] w) as [[nodes|msg] w0] eqn:C;
    destruct (createSentenceNodes_grows userId (w_nextOid w) (w_nodes w)
                (w_relations w) _ _ _ _ _ _ C
                (Forall_nil _) G (N.le_refl _)) as [G0 F].
  - unfold bind at 1.
    destruct (relateSimilar userId nodes [] w0) as [[rels|msg] w2] eqn:R;
      intros [= <- <-];
      (split; [apply (relateSimilar_grows userId (w_nextOid w) _ (w_relations w)
                        Below _ _ _ _ _ (F _ eq_refl) R G0)|congruence]).
  - intros [= <- <-]. split; [exact G0|congruence].
Qed.

End Documents.

Lemma processDocument_concepts_witness :
  map (fun n => (n_title n, n_content n))
      (pr_nodes (match fst (processDocument envOpenAI extStub twoSentences "alice"
                              (Some "notes.txt") emptyWorld) with
                 | Ok result => result
                 | Throw _ => {| pr_nodes := []; pr_relations := []; pr_summary := "" |}
                 end))
  = map (fun s => (trim (String.substring 0 100 s ++ "..."), trim s))
        (filter longEnough (splitSentences twoSentences)) /\
  List.length (filter longEnough (splitSentences twoSentences)) = 2%nat.
Proof.
  assert (A : processDocument envOpenAI extStub twoSentences "alice"
                (Some "notes.txt") emptyWorld
              = (Ok (match fst (processDocument envOpenAI extStub twoSentences "alice"
                                  (Some "notes.txt") emptyWorld) with
                     | Ok result => result
                     | Throw _ => {| pr_nodes := []; pr_relations := [];
                                     pr_summary := "" |}
                     end),
                 snd (processDocument envOpenAI extStub twoSentences "alice"
                        (Some "notes.txt") emptyWorld)))
    by (vm_compute; reflexivity).
  split; [|vm_compute; reflexivity].
  apply (processDocument_concepts envOpenAI extStub _ _ _ _ _ _ A).
Defined.

Lemma processDocument_nothing_to_extract_witness :
  processDocument envOpenAI extAllDown "Too short. Tiny! Is it?" "alice" None
                  worldTwoTenants
  = (Ok {| pr_nodes := []; pr_relations := [];
           pr_summary := "Processed document with 0 concepts and 0 relations" |},
     worldTwoTenants).
Proof.
  apply (processDocument_nothing_to_extract envOpenAI extAllDown).
  vm_compute. repeat constructor.
Defined.

Lemma processDocument_only_adds_witness :
  grows "alice" (w_nodes worldTwoTenants) (w_relations worldTwoTenants)
        (snd (processDocument envOpenAI extStub twoCloseSentences "alice" None
                worldTwoTenants)) /\
  (forall m, fst (processDocument envOpenAI extStub twoCloseSentences "alice" None
                    worldTwoTenants) = Throw m ->
             m = "Failed to process document").
Proof.
  apply (processDocument_only_adds envOpenAI extStub twoCloseSentences "alice" None
           worldTwoTenants).
  - vm_compute. repeat constructor.
  - apply surjective_pairing.
Defined.


(* ================================================================== *)
(** ** Batch embeddings *)

Section BatchEmbeddingFacts.
Context {T : Type} `{Number T}.
Variable env : ProcessEnv.
Variable ext : External T.
Variable openai_embeddings_create_batch :
  string -> list string -> Result (list (list T) * Z).

(** One request to the local provider, in one equation. *)
Lemma generateEmbeddingWithOllama_spec (text : string) (model : option string)
      (w : World T) :
  let ollamaModel := orStr model (ollamaDefaultEmbeddingModel env) in
  let w' := setCalls w (w_calls w ++ [OllamaEmbed (ollamaBaseUrl env) ollamaModel text]) in
  generateEmbeddingWithOllama env ext text model w =
  match ollama_api_embeddings ext (ollamaBaseUrl env) ollamaModel text with
  | Some v => (Ok {| embedding := v; model := ollamaModel; tokens := 0 |}, w')
  | None => (Throw "Failed to generate embedding with Ollama", w')
  end.
Proof.
  intros ollamaModel w'. unfold generateEmbeddingWithOllama. unfoldM. simpl.
  unfold w', ollamaModel, ollamaDefaultEmbeddingModel, ollamaBaseUrl.
  destruct (ollama_api_embeddings ext _ _ _); reflexivity.
Qed.

(** The fallback loop: it answers when every text is answered, with one
    element per text, and otherwise stops at the first text that is not. *)
Lemma embedEachWithOllama_spec (texts : list string) (model : option string)
      (acc : list (BatchEmbeddingResponse T)) (w w1 : World T)
      (r : Result (list (BatchEmbeddingResponse T))) :
  let ollamaModel := orStr model (ollamaDefaultEmbeddingModel env) in
  let answer := ollama_api_embeddings ext (ollamaBaseUrl env) ollamaModel in
  let call := OllamaEmbed (ollamaBaseUrl env) ollamaModel in
  embedEachWithOllama env ext texts model acc w = (r, w1) ->
  sameStores w w1 /\
  (forall rs, r = Ok rs ->
     exists vs, map answer texts = map Some vs /\
                rs = acc ++ map (fun v => {| be_embedding := v; be_model := ollamaModel;
                                             be_tokens := nofZ 0 |}) vs /\
                w_calls w1 = w_calls w ++ map call texts) /\
  (forall m, r = Throw m ->
     exists sent text rest,
       texts = sent ++ text :: rest /\ answer text = None /\
       Forall (fun t => answer t <> None) sent /\
       w_calls w1 = w_calls w ++ map call (sent ++ [text])).
Proof.
  intros ollamaModel answer call.
  revert acc w. induction texts as [|text rest IH]; intros acc w; simpl.
  - unfold ret. intros [= <- <-]. split; [apply sameStores_refl|]. split.
    + intros rs [= <-]. exists []. simpl. rewrite !app_nil_r. auto.
    + discriminate.
  - unfold bind at 1.
    pose proof (generateEmbeddingWithOllama_spec text model w) as S. simpl in S.
    rewrite S. fold ollamaModel. fold (answer text).
    destruct (answer text) as [v|] eqn:A.
    + intros E. destruct (IH _ _ E) as (St & OkCase & ThrowCase).
      split; [|split].
      * destruct St as (S1 & S2 & S3 & S4). repeat split; assumption.
      * intros rs R. destruct (OkCase rs R) as (vs & Ans & -> & Calls).
        exists (v :: vs). simpl in *. split; [rewrite Ans; reflexivity|]. split.
        -- rewrite <- app_assoc. reflexivity.
        -- rewrite Calls, <- app_assoc. reflexivity.
      * intros m R. destruct (ThrowCase m R) as (sent & t & rest' & -> & N & F & Calls).
        exists (text :: sent), t, rest'. simpl in *. split; [reflexivity|].
        split; [exact N|]. split.
        -- constructor; [congruence|exact F].
        -- rewrite Calls, <- app_assoc. reflexivity.
    + intros [= <- <-]. split; [repeat split|]. split; [discriminate|].
      intros m _. exists [], text, rest. simpl. repeat split; auto.
Qed.

(** X21: the fallback of the batch.  When the batch request to the
    primary provider fails and the fallback is not switched off, the local
    provider is asked text by text, in order.  If every text is answered
    the result has one element per text, in order, tagged with the local
    model and 0 tokens; an empty batch succeeds with no request.  The
    first text that is not answered ends the batch: no later text is
    sent, the answers obtained are discarded, and the error is ['Failed
    to generate embeddings with any provider'].  The stores are not
    touched. *)
Theorem generateEmbeddings_fallback (texts : list string) (model : option string)
        (w w1 : World T) (r : Result (list (BatchEmbeddingResponse T))) (msg : string) :
  let ollamaModel := orStr model (ollamaDefaultEmbeddingModel env) in
  let answer := ollama_api_embeddings ext (ollamaBaseUrl env) ollamaModel in
  let call := OllamaEmbed (ollamaBaseUrl env) ollamaModel in
  openai_embeddings_create_batch
    (primaryEmbeddingModel env {| er_text := ""; er_model := model |}) texts
  = Throw msg ->
  useOllamaFallback env = true ->
  generateEmbeddings env ext openai_embeddings_create_batch texts model w = (r, w1) ->
  sameStores w w1 /\
  (forall rs, r = Ok rs ->
     exists vs, map answer texts = map Some vs /\
                rs = map (fun v => {| be_embedding := v; be_model := ollamaModel;
                                      be_tokens := nofZ 0 |}) vs /\
                w_calls w1 = w_calls w ++ map call texts) /\
  (forall m, r = Throw m ->
     m = "Failed to generate embeddings with any provider" /\
     exists sent text rest,
       texts = sent ++ text :: rest /\ answer text = None /\
       Forall (fun t => answer t <> None) sent /\
       w_calls w1 = w_calls w ++ map call (sent ++ [text])) /\
  (texts = [] -> r = Ok [] /\ w1 = w).
Proof.
  intros ollamaModel answer call P F. unfold generateEmbeddings.
  unfold tryCatch at 1. unfold bind, liftR.
  unfold primaryEmbeddingModel in P. simpl in P. rewrite P, F.
  unfold tryCatch.
  destruct (embedEachWithOllama env ext texts model [] w) as [[rs|m0] w0] eqn:E;
    pose proof (embedEachWithOllama_spec texts model [] w w0 _ E)
    as (St & OkCase & ThrowCase).
  - intros [= <- <-]. split; [exact St|]. split; [|split].
    + intros rs' [= <-]. destruct (OkCase rs eq_refl) as (vs & A & -> & C).
      exists vs. auto.
    + discriminate.
    + intros ->. simpl in E. injection E as <- <-. auto.
  - unfold throw. intros [= <- <-]. split; [exact St|]. split; [discriminate|]. split.
    + intros m [= <-]. split; [reflexivity|]. apply (ThrowCase m0 eq_refl).
    + intros ->. simpl in E. discriminate.
Qed.
End BatchEmbeddingFacts.

(** The primary provider fails; the local one answers both texts. *)
Lemma generateEmbeddings_fallback_witness :
  exists vs,
    map (ollama_api_embeddings extLocalOnly (ollamaBaseUrl envOpenAI)
           (orStr None (ollamaDefaultEmbeddingModel envOpenAI))) ["one"; "two"]
    = map Some vs /\
    fst (generateEmbeddings envOpenAI extLocalOnly
           (fun _ _ => Throw "429 You exceeded your current quota")
           ["one"; "two"] None emptyWorld)
    = Ok (map (fun v => {| be_embedding := v;
                           be_model := orStr None (ollamaDefaultEmbeddingModel envOpenAI);
                           be_tokens := nofZ 0 |}) vs) /\
    w_calls (snd (generateEmbeddings envOpenAI extLocalOnly
                    (fun _ _ => Throw "429 You exceeded your current quota")
                    ["one"; "two"] None emptyWorld))
    = [OllamaEmbed "http://localhost:11434" "nomic-embed-text" "one";
       OllamaEmbed "http://localhost:11434" "nomic-embed-text" "two"].
Proof.
  destruct (generateEmbeddings_fallback envOpenAI extLocalOnly
              (fun _ _ => Throw "429 You exceeded your current quota")
              ["one"; "two"] None emptyWorld
              (snd (generateEmbeddings envOpenAI extLocalOnly
                      (fun _ _ => Throw "429 You exceeded your current quota")
                      ["one"; "two"] None emptyWorld))
              (fst (generateEmbeddings envOpenAI extLocalOnly
                      (fun _ _ => Throw "429 You exceeded your current quota")
                      ["one"; "two"] None emptyWorld))
              "429 You exceeded your current quota" eq_refl eq_refl
              (surjective_pairing _))
    as (_ & OkCase & _).
  destruct (OkCase (map (fun v => {| be_embedding := v;
                                     be_model := "nomic-embed-text";
                                     be_tokens := 0%float |})
                        [padTo 768 [1%float]; padTo 768 [1%float]]))
    as (vs & A & B & C).
  - vm_compute. reflexivity.
  - exists vs. split; [exact A|]. split; [|exact C].
    rewrite <- B. vm_compute. reflexivity.
Defined.

(** X22: the batch outcomes that do not involve the local provider.  When
    the primary provider answers the batch request, [generateEmbeddings]
    returns one element per vector of the answer, in order, each tagged
    with the model that was requested and each with the same token
    count, the quotient of the reported usage by the number of texts as
    the arithmetic of [number] computes it; nothing else is asked and
    nothing is written.  When it fails and the fallback is switched off,
    the error is ['OpenAI batch embedding failed: '] followed by the
    provider's message, and again nothing else is asked. *)
Theorem generateEmbeddings_primary {T : Type} {N : Number T}
        (env : ProcessEnv) (ext : External T)
        (openai_embeddings_create_batch :
           string -> list string -> Result (list (list T) * Z))
        (texts : list string) (model : option string) (w w1 : World T)
        (r : Result (list (BatchEmbeddingResponse T))) :
  generateEmbeddings env ext openai_embeddings_create_batch texts model w = (r, w1) ->
  let embeddingModel :=
    primaryEmbeddingModel env {| er_text := ""; er_model := model |} in
  match openai_embeddings_create_batch embeddingModel texts with
  | Ok (vs, total) =>
      w1 = w /\
      r = Ok (map (fun v =>
                     {| be_embedding := v; be_model := embeddingModel;
                        be_tokens := ndiv (nofZ total)
                                          (nofZ (Z.of_nat (List.length texts))) |})
                  vs) /\
      (forall rs, r = Ok rs ->
                  List.length rs = List.length vs /\
                  map (@be_embedding T) rs = vs)
  | Throw msg =>
      useOllamaFallback env = false ->
      w1 = w /\ r = Throw ("OpenAI batch embedding failed: " ++ msg)
  end.
Proof.
  intros G embeddingModel. revert G. subst embeddingModel.
  unfold generateEmbeddings, primaryEmbeddingModel. cbn [er_model].
  set (embeddingModel :=
         orStr model (orStr (DEFAULT_EMBEDDING_MODEL env) "text-embedding-3-small")).
  unfold tryCatch at 1. unfold bind, liftR, ret.
  destruct (openai_embeddings_create_batch embeddingModel texts) as [[vs total]|msg].
  - simpl. intros [= <- <-]. split; [reflexivity|]. split; [reflexivity|].
    intros rs [= <-]. rewrite length_map, map_map. simpl.
    split; [reflexivity|apply map_id].
  - intros G Off. rewrite Off in G. unfold throw in G. injection G as <- <-.
    split; reflexivity.
Qed.

(** X22, on doubles: 7 tokens over 3 texts give each element the double
    nearest to 7/3. *)
Lemma generateEmbeddings_primary_witness :
  snd (generateEmbeddings envOpenAI extAllDown
         (fun _ texts => Ok (map (fun _ => [1%float]) texts, 7%Z))
         ["one"; "two"; "three"] None emptyWorld) = emptyWorld /\
  option_map (map (@be_tokens float))
    (okOf (fst (generateEmbeddings envOpenAI extAllDown
                  (fun _ texts => Ok (map (fun _ => [1%float]) texts, 7%Z))
                  ["one"; "two"; "three"] None emptyWorld)))
  = Some [0x1.2aaaaaaaaaaabp+1%float; 0x1.2aaaaaaaaaaabp+1%float;
          0x1.2aaaaaaaaaaabp+1%float].
Proof.
  destruct (generateEmbeddings_primary envOpenAI extAllDown
              (fun _ texts => Ok (map (fun _ => [1%float]) texts, 7%Z))
              ["one"; "two"; "three"] None emptyWorld
              (snd (generateEmbeddings envOpenAI extAllDown
                      (fun _ texts => Ok (map (fun _ => [1%float]) texts, 7%Z))
                      ["one"; "two"; "three"] None emptyWorld))
              (fst (generateEmbeddings envOpenAI extAllDown
                      (fun _ texts => Ok (map (fun _ => [1%float]) texts, 7%Z))
                      ["one"; "two"; "three"] None emptyWorld))
              (surjective_pairing _)) as (Same & Result & _).
  split; [exact Same|]. rewrite Result. vm_compute. reflexivity.
Defined.

(* ================================================================== *)
(** ** Provisioning the vector collection *)

Section CollectionFacts.
Variable P : Type.

(** The configuration created has no vector called [size]. *)
Lemma hasSizeKey_multiVector : hasSizeKey (Some multiVector) = false.
Proof. reflexivity. Qed.

Lemma existsb_name_find (name : string) (cs : list (Collection P)) :
  existsb (fun col => String.eqb col name) (map c_name cs)
  = match find (fun c => String.eqb (c_name c) name) cs with
    | Some _ => true
    | None => false
    end.
Proof.
  induction cs as [|c cs IH]; simpl; [reflexivity|].
  destruct (String.eqb (c_name c) name); simpl; [reflexivity|exact IH].
Qed.

Lemma find_none_existsb (name : string) (cs : list (Collection P)) :
  find (fun c => String.eqb (c_name c) name) cs = None ->
  existsb (fun c => String.eqb (c_name c) name) cs = false.
Proof.
  induction cs as [|c cs IH]; simpl; [reflexivity|].
  destruct (String.eqb (c_name c) name); [discriminate|exact IH].
Qed.

Lemma existsb_filter_out (name : string) (cs : list (Collection P)) :
  existsb (fun c => String.eqb (c_name c) name)
          (filter (fun c => negb (String.eqb (c_name c) name)) cs) = false.
Proof.
  induction cs as [|c cs IH]; simpl; [reflexivity|].
  destruct (String.eqb (c_name c) name) eqn:E; simpl; [exact IH|].
  rewrite E. exact IH.
Qed.

Lemma find_app_fresh (name : string) (cs : list (Collection P)) (c : Collection P) :
  existsb (fun x => String.eqb (c_name x) name) cs = false ->
  c_name c = name ->
  find (fun x => String.eqb (c_name x) name) (cs ++ [c]) = Some c.
Proof.
  intros E N. induction cs as [|x cs IH]; simpl in *.
  - rewrite N, String.eqb_refl. reflexivity.
  - destruct (String.eqb (c_name x) name); [discriminate|]. apply IH, E.
Qed.

(** [ensureCollectionExists] in one equation, on a reachable server. *)
Lemma ensureCollectionExists_spec (QDRANT_COLLECTION_NAME : option string)
      (q : Qdrant P) :
  q_reachable q = true ->
  let name := orStr QDRANT_COLLECTION_NAME "knowledge_embeddings" in
  let fresh := {| c_name := name; c_vectors := Some multiVector; c_points := [] |} in
  ensureCollectionExists true QDRANT_COLLECTION_NAME q =
  (Ok tt,
   match find (fun c => String.eqb (c_name c) name) (q_collections q) with
   | None => setCollections q (q_collections q ++ [fresh])
   | Some c =>
       if hasSizeKey (c_vectors c) then
         setCollections q
           (filter (fun c => negb (String.eqb (c_name c) name)) (q_collections q)
            ++ [fresh])
       else q
   end).
Proof.
  intros R name fresh. unfold ensureCollectionExists. simpl. fold name.
  unfold tryCatch, bind at 1. unfold getCollections, request. rewrite R.
  unfold bind at 1, get, ret. unfold bind at 1. rewrite existsb_name_find.
  destruct (find _ (q_collections q)) as [c|] eqn:F.
  - unfold bind at 1, getCollection, request. rewrite R.
    unfold bind at 1, get. rewrite F. unfold ret.
    destruct (hasSizeKey (c_vectors c)); [|reflexivity].
    unfold deleteCollection, request, modify. rewrite R.
    unfold createCollection, request. simpl. rewrite R.
    unfold bind, get, put. simpl. rewrite existsb_filter_out. reflexivity.
  - unfold createCollection, request. rewrite R.
    unfold bind, get, put. rewrite (find_none_existsb _ _ F). reflexivity.
Qed.

(** X23: what provisioning leaves behind.  On a reachable server
    [ensureCollectionExists] succeeds, and afterwards the collection
    exists.  A collection that was missing is created with the named
    vectors [openai] (1536) and [ollama] (768), the sizes the services
    expect.  A collection whose vector configuration has a key [size] (the
    single-vector format, but also named vectors one of which is called
    [size]) is deleted and created anew, so its points are lost.  Any
    other existing collection is left as it is, whatever its vectors are.
    The other collections are never touched.  Without a client nothing is
    done, and on an unreachable server the error is rethrown. *)
Theorem ensureCollectionExists_provisions (QDRANT_COLLECTION_NAME : option string)
        (q : Qdrant P) :
  let name := orStr QDRANT_COLLECTION_NAME "knowledge_embeddings" in
  let wanted := fun c : Collection P => String.eqb (c_name c) name in
  let q1 := snd (ensureCollectionExists true QDRANT_COLLECTION_NAME q) in
  ensureCollectionExists false QDRANT_COLLECTION_NAME q = (Ok tt, q) /\
  (q_reachable q = false ->
   ensureCollectionExists true QDRANT_COLLECTION_NAME q = (Throw "fetch failed", q)) /\
  (q_reachable q = true ->
   fst (ensureCollectionExists true QDRANT_COLLECTION_NAME q) = Ok tt /\
   filter (fun c => negb (wanted c)) (q_collections q1)
   = filter (fun c => negb (wanted c)) (q_collections q) /\
   match find wanted (q_collections q) with
   | None =>
       find wanted (q_collections q1)
       = Some {| c_name := name; c_vectors := Some multiVector; c_points := [] |}
   | Some c =>
       if hasSizeKey (c_vectors c) then
         find wanted (q_collections q1)
         = Some {| c_name := name; c_vectors := Some multiVector; c_points := [] |}
       else q1 = q
   end) /\
  (forall vectorName, configuredSize multiVector vectorName
                      = @vectorSize vectorName).
Proof.
  intros name wanted q1. split; [reflexivity|]. split; [|split].
  - intros R. unfold ensureCollectionExists. simpl.
    unfold tryCatch, bind at 1. unfold getCollections, request. rewrite R. reflexivity.
  - intros R. unfold q1. rewrite (ensureCollectionExists_spec _ q R). simpl.
    fold name. fold wanted. split; [reflexivity|].
    assert (Drop : forall cs,
               filter (fun c => negb (wanted c))
                      (cs ++ [{| c_name := name; c_vectors := Some multiVector;
                                 c_points := [] |}])
               = filter (fun c => negb (wanted c)) cs).
    { intros cs. rewrite filter_app. simpl. unfold wanted at 2. simpl.
      rewrite String.eqb_refl. simpl. apply app_nil_r. }
    destruct (find wanted (q_collections q)) as [c|] eqn:F.
    + destruct (hasSizeKey (c_vectors c)); [|split; reflexivity]. simpl. split.
      * rewrite Drop. apply filter_filter_implied. intros x E. exact E.
      * apply find_app_fresh; [apply existsb_filter_out|reflexivity].
    + simpl. split; [apply Drop|].
      apply find_app_fresh; [apply (find_none_existsb _ _ F)|reflexivity].
  - intros vectorName. unfold configuredSize, vectorSize, multiVector.
    cbn [find fst snd]. rewrite (String.eqb_sym "openai"), (String.eqb_sym "ollama").
    destruct (String.eqb vectorName "openai"); [reflexivity|].
    destruct (String.eqb vectorName "ollama"); reflexivity.
Qed.

(** X24: provisioning is idempotent: a second run after a successful one
    succeeds and changes nothing, whatever the first run found. *)
Theorem ensureCollectionExists_idempotent (QDRANT_COLLECTION_NAME : option string)
        (q : Qdrant P) :
  q_reachable q = true ->
  ensureCollectionExists true QDRANT_COLLECTION_NAME
    (snd (ensureCollectionExists true QDRANT_COLLECTION_NAME q))
  = (Ok tt, snd (ensureCollectionExists true QDRANT_COLLECTION_NAME q)).
Proof.
  intros R.
  set (name := orStr QDRANT_COLLECTION_NAME "knowledge_embeddings").
  assert (After : let q1 := snd (ensureCollectionExists true QDRANT_COLLECTION_NAME q) in
                  q_reachable q1 = true /\
                  exists c, find (fun c => String.eqb (c_name c) name) (q_collections q1)
                            = Some c /\ hasSizeKey (c_vectors c) = false).
  { rewrite (ensureCollectionExists_spec _ q R). simpl. fold name.
    destruct (find _ (q_collections q)) as [c|] eqn:F.
    - destruct (hasSizeKey (c_vectors c)) eqn:S.
      + simpl. split; [exact R|]. eexists. split.
        * apply find_app_fresh; [apply existsb_filter_out|reflexivity].
        * reflexivity.
      + split; [exact R|]. exists c. auto.
    - simpl. split; [exact R|]. eexists. split.
      + apply find_app_fresh; [apply (find_none_existsb _ _ F)|reflexivity].
      + reflexivity. }
  destruct After as (R1 & c & F1 & S1).
  rewrite (ensureCollectionExists_spec _ _ R1). simpl. fold name.
  rewrite F1, S1. reflexivity.
Qed.
End CollectionFacts.

(** A legacy collection with two points is recreated empty. *)
Lemma ensureCollectionExists_provisions_witness :
  fst (ensureCollectionExists true None
         {| q_reachable := true;
            q_collections := [{| c_name := "knowledge_embeddings";
                                 c_vectors := Some (SingleVector 1536 "Cosine");
                                 c_points := [1%N; 2%N] |}] |}) = Ok tt /\
  q_collections
    (snd (ensureCollectionExists true None
            {| q_reachable := true;
               q_collections := [{| c_name := "knowledge_embeddings";
                                    c_vectors := Some (SingleVector 1536 "Cosine");
                                    c_points := [1%N; 2%N] |}] |}))
  = [{| c_name := "knowledge_embeddings"; c_vectors := Some multiVector;
        c_points := [] |}].
Proof.
  destruct (ensureCollectionExists_provisions N None
              {| q_reachable := true;
                 q_collections := [{| c_name := "knowledge_embeddings";
                                      c_vectors := Some (SingleVector 1536 "Cosine");
                                      c_points := [1%N; 2%N] |}] |})
    as (_ & _ & Up & _).
  destruct (Up eq_refl) as (Done & _ & _).
  split; [exact Done|]. vm_compute. reflexivity.
Defined.

Lemma ensureCollectionExists_idempotent_witness :
  ensureCollectionExists true None
    (snd (ensureCollectionExists true None
            {| q_reachable := true; q_collections := @nil (Collection N) |}))
  = (Ok tt, snd (ensureCollectionExists true None
                   {| q_reachable := true; q_collections := @nil (Collection N) |})).
Proof.
  apply (ensureCollectionExists_idempotent N None
           {| q_reachable := true; q_collections := [] |}).
  reflexivity.
Defined.

(* ================================================================== *)
(** ** Providers on offer and the API keys of a user *)

Section ProviderFacts.
Variable env : ProcessEnv.

Lemma fold_pushIfActive (ks : list StoredApiKey) (providers : list ModelProvider) :
  fold_left pushIfActive ks providers
  = providers ++ map customProviderOf (filter sk_isActive ks).
Proof.
  revert providers. induction ks as [|k ks IH]; intros providers; simpl.
  - rewrite app_nil_r. reflexivity.
  - rewrite IH. unfold pushIfActive. destruct (sk_isActive k); simpl.
    + rewrite <- app_assoc. reflexivity.
    + reflexivity.
Qed.

Lemma customEntries_custom (ks : list StoredApiKey) :
  customEntries (map customProviderOf ks) = map customProviderOf ks.
Proof.
  unfold customEntries. induction ks as [|k ks IH]; simpl; [reflexivity|].
  rewrite IH. reflexivity.
Qed.

(** The entries made of the process environment. *)
Lemma defaults_spec :
  let defaults :=
    (if truthyStr (OPENAI_API_KEY env) then [openaiDefault env] else []) ++
    (if truthyStr (ANTHROPIC_API_KEY env) then [anthropicDefault env] else []) ++
    [ollamaLocal env] in
  forall (userId : option string) (s : UserStore),
    getAvailableProviders env userId s =
    (Ok (defaults ++
         if truthyStr userId && us_reachable s
         then map customProviderOf (filter sk_isActive (keysOf (orStr userId "") s))
         else []), s).
Proof.
  intros defaults userId s. unfold getAvailableProviders.
  assert (D : (if truthyStr (ANTHROPIC_API_KEY env)
               then (if truthyStr (OPENAI_API_KEY env)
                     then [] ++ [openaiDefault env] else []) ++ [anthropicDefault env]
               else if truthyStr (OPENAI_API_KEY env)
                    then [] ++ [openaiDefault env] else []) ++ [ollamaLocal env]
              = defaults).
  { unfold defaults.
    destruct (truthyStr (OPENAI_API_KEY env)), (truthyStr (ANTHROPIC_API_KEY env));
      reflexivity. }
  rewrite D. destruct (truthyStr userId); simpl.
  - unfold tryCatch, bind, findById, keysOf, ret.
    destruct (us_reachable s); simpl.
    + destruct (find _ (us_users s)) as [u|].
      * rewrite fold_pushIfActive. reflexivity.
      * rewrite app_nil_r. reflexivity.
    + rewrite app_nil_r. reflexivity.
  - unfold ret. rewrite app_nil_r. reflexivity.
Qed.

(** X25: the providers on offer.  [getAvailableProviders] never fails and
    writes nothing, so the handler always replies with a list and never
    with status 500.  The local provider is always on offer; a cloud
    provider is offered by default exactly when its key is set in the
    process environment, and its entry then carries that key.  The custom
    entries are the active stored keys of the caller, in order, each with
    its key, base URL and id; inactive keys, an unknown user, a caller
    without identity and an unreachable user store give none. *)
Theorem getAvailableProviders_offers (userId : option string) (s : UserStore) :
  exists providers,
    getAvailableProviders env userId s = (Ok providers, s) /\
    getAvailableProvidersHandler env userId s = (Ok (Success providers), s) /\
    In (ollamaLocal env) providers /\
    (In (openaiDefault env) providers <-> truthyStr (OPENAI_API_KEY env) = true) /\
    (In (anthropicDefault env) providers <->
     truthyStr (ANTHROPIC_API_KEY env) = true) /\
    mp_apiKey (openaiDefault env) = OPENAI_API_KEY env /\
    mp_apiKey (anthropicDefault env) = ANTHROPIC_API_KEY env /\
    customEntries providers
    = if truthyStr userId && us_reachable s
      then map customProviderOf (filter sk_isActive (keysOf (orStr userId "") s))
      else [].
Proof.
  pose proof (defaults_spec userId s) as D. simpl in D.
  eexists. split; [exact D|]. split.
  { unfold getAvailableProvidersHandler, tryCatch, bind. rewrite D. reflexivity. }
  set (customs := if truthyStr userId && us_reachable s
                  then map customProviderOf
                           (filter sk_isActive (keysOf (orStr userId "") s))
                  else []).
  assert (C : forall p, In p customs -> mp_isDefault p = false).
  { unfold customs. intros p I. destruct (_ && _); [|destruct I].
    apply in_map_iff in I. destruct I as (k & <- & _). reflexivity. }
  assert (CE : customEntries customs = customs).
  { unfold customs. destruct (_ && _); [apply customEntries_custom|reflexivity]. }
  split; [|split; [|split; [|split; [reflexivity|split; [reflexivity|]]]]].
  - apply in_or_app. left. apply in_or_app. right. apply in_or_app. right.
    left. reflexivity.
  - split.
    + intros I. apply in_app_or in I. destruct I as [I|I].
      * destruct (truthyStr (OPENAI_API_KEY env)); [reflexivity|].
        simpl in I. destruct (truthyStr (ANTHROPIC_API_KEY env)); simpl in I;
          repeat (destruct I as [I|I]; try discriminate I); destruct I.
      * apply C in I. discriminate.
    + intros ->. apply in_or_app. left. left. reflexivity.
  - split.
    + intros I. apply in_app_or in I. destruct I as [I|I].
      * destruct (truthyStr (ANTHROPIC_API_KEY env)); [reflexivity|].
        destruct (truthyStr (OPENAI_API_KEY env)); simpl in I;
          repeat (destruct I as [I|I]; try discriminate I); destruct I.
      * apply C in I. discriminate.
    + intros ->. apply in_or_app. left. apply in_or_app. right. left. reflexivity.
  - unfold customEntries in *. rewrite filter_app, CE.
    destruct (truthyStr (OPENAI_API_KEY env)), (truthyStr (ANTHROPIC_API_KEY env));
      reflexivity.
Qed.

(** The stored users after a write of the document of [userId]. *)
Lemma keysOf_replaceUser (u u0 : UserDocument) (userId : string)
      (us : list UserDocument) :
  find (fun x => String.eqb (u_id x) userId) us = Some u0 ->
  u_id u = u_id u0 ->
  forall other,
    match find (fun x => String.eqb (u_id x) other) (replaceUser u us) with
    | Some x => u_apiKeys x
    | None => []
    end
    = if String.eqb other userId then u_apiKeys u
      else match find (fun x => String.eqb (u_id x) other) us with
           | Some x => u_apiKeys x
           | None => []
           end.
Proof.
  intros F Id other. induction us as [|x us IH]; simpl in *; [discriminate|].
  destruct (String.eqb (u_id x) userId) eqn:Ex.
  - injection F as <-. rewrite Id, String.eqb_refl. simpl. rewrite Id.
    apply String.eqb_eq in Ex. rewrite Ex, (String.eqb_sym userId other).
    destruct (String.eqb other userId); reflexivity.
  - destruct (String.eqb (u_id x) (u_id u)) eqn:Eu.
    + apply String.eqb_eq in Eu.
      assert (U : u_id u0 = userId).
      { apply find_some in F. destruct F as [_ F]. apply String.eqb_eq in F. exact F. }
      rewrite Eu, Id, U, String.eqb_refl in Ex. discriminate.
    + simpl. destruct (String.eqb (u_id x) other) eqn:Eo.
      * apply String.eqb_eq in Eo. subst other. rewrite Ex. reflexivity.
      * apply IH, F.
Qed.

Lemma find_user_id (userId : string) (us : list UserDocument) (u : UserDocument) :
  find (fun x => String.eqb (u_id x) userId) us = Some u -> u_id u = userId.
Proof.
  intros F. apply find_some in F. destruct F as [_ F]. apply String.eqb_eq in F.
  exact F.
Qed.

(** [addApiKey] in one equation, for a caller with an identity. *)
Lemma addApiKey_spec (body : AddKeyBody) (userId : string) (s : UserStore) :
  userId <> "" ->
  let added := {| sk_id := us_nextOid s;
                  sk_provider := orStr (ab_provider body) "";
                  sk_key := orStr (ab_key body) "";
                  sk_model := ab_model body;
                  sk_baseUrl := ab_baseUrl body;
                  sk_isActive := true |} in
  let drawn := {| us_reachable := us_reachable s; us_users := us_users s;
                  us_nextOid := N.succ (us_nextOid s) |} in
  addApiKey body (Some userId) s =
  if negb (truthyStr (ab_provider body)) || negb (truthyStr (ab_key body)) then
    (Ok (Failure 400 "Provider and key are required"), s)
  else if us_reachable s then
    match find (fun x => String.eqb (u_id x) userId) (us_users s) with
    | None => (Ok (Failure 404 "User not found"), s)
    | Some u =>
        if forallb validApiKey (u_apiKeys u ++ [added]) then
          (Ok (Success (viewOf added)),
           {| us_reachable := true;
              us_users := replaceUser {| u_id := u_id u;
                                         u_apiKeys := u_apiKeys u ++ [added] |}
                                      (us_users s);
              us_nextOid := N.succ (us_nextOid s) |})
        else (Ok (Failure 500 "Failed to add API key"), drawn)
    end
  else (Ok (Failure 500 "Failed to add API key"), s).
Proof.
  intros N added drawn. unfold addApiKey.
  assert (Tr : truthyStr (Some userId) = true) by (destruct userId; [congruence|reflexivity]).
  assert (Or : orStr (Some userId) "" = userId) by (destruct userId; [congruence|reflexivity]).
  rewrite Tr, Or. simpl negb at 1. cbv iota.
  destruct (negb (truthyStr (ab_provider body)) || negb (truthyStr (ab_key body)));
    [reflexivity|].
  unfold tryCatch, bind at 1. unfold findById.
  destruct (us_reachable s) eqn:R; [|reflexivity].
  destruct (find _ (us_users s)) as [u|]; [|reflexivity].
  unfold bind at 1, freshKeyId. unfold bind, saveUser, ret. simpl.
  fold added. destruct (forallb validApiKey (u_apiKeys u ++ [added])); simpl.
  - rewrite R. reflexivity.
  - unfold drawn. rewrite ?R. reflexivity.
Qed.

(** X26: a key that was added is on offer.  When [addApiKey] replies
    with success, the key is stored last among the caller's keys, active,
    under a new id, which is the id of the reply; the keys of every other
    user are as before; and the providers then offered to the caller
    include the entry made of the new key. *)
Theorem addApiKey_then_offered (body : AddKeyBody) (userId : string)
        (s s1 : UserStore) (view : ApiKeyView) :
  userId <> "" ->
  addApiKey body (Some userId) s = (Ok (Success view), s1) ->
  exists added,
    keysOf userId s1 = keysOf userId s ++ [added] /\
    sk_id added = us_nextOid s /\ v_id view = sk_id added /\
    Some (sk_provider added) = ab_provider body /\
    Some (sk_key added) = ab_key body /\
    sk_isActive added = true /\
    (forall other, other <> userId -> keysOf other s1 = keysOf other s) /\
    exists providers,
      getAvailableProviders env (Some userId) s1 = (Ok providers, s1) /\
      In (customProviderOf added) providers.
Proof.
  intros N A. pose proof (addApiKey_spec body userId s N) as S. simpl in S.
  rewrite S in A. clear S.
  destruct (truthyStr (ab_provider body)) eqn:Tp; [|discriminate].
  destruct (truthyStr (ab_key body)) eqn:Tk; [|discriminate]. simpl in A.
  destruct (us_reachable s) eqn:R; [|discriminate].
  destruct (find _ (us_users s)) as [u|] eqn:F; [|discriminate].
  destruct (forallb validApiKey _); [|discriminate].
  injection A as <- <-.
  set (added := {| sk_id := us_nextOid s;
                   sk_provider := orStr (ab_provider body) "";
                   sk_key := orStr (ab_key body) "";
                   sk_model := ab_model body;
                   sk_baseUrl := ab_baseUrl body;
                   sk_isActive := true |}).
  exists added. unfold keysOf at 1 2. cbn [us_users].
  pose proof (keysOf_replaceUser
                {| u_id := u_id u; u_apiKeys := u_apiKeys u ++ [added] |} u userId
                (us_users s) F eq_refl) as K.
  split; [|split; [|split; [|split; [|split; [|split; [|split]]]]]].
  - rewrite (K userId), String.eqb_refl, F. reflexivity.
  - reflexivity.
  - reflexivity.
  - simpl. destruct (ab_provider body) as [[|c p]|]; try discriminate. reflexivity.
  - simpl. destruct (ab_key body) as [[|c p]|]; try discriminate. reflexivity.
  - reflexivity.
  - intros other D. unfold keysOf. cbn [us_users]. rewrite (K other).
    apply String.eqb_neq in D. rewrite D. reflexivity.
  - pose proof (defaults_spec (Some userId)) as D. cbv zeta in D.
    eexists. split; [apply D|].
    assert (Tr : truthyStr (Some userId) = true) by (destruct userId; [congruence|reflexivity]).
    assert (Or : orStr (Some userId) "" = userId) by (destruct userId; [congruence|reflexivity]).
    rewrite Tr, Or. cbn [us_reachable andb]. apply in_or_app. right.
    apply in_map, filter_In. split; [|reflexivity].
    unfold keysOf. cbn [us_users]. rewrite (K userId), String.eqb_refl.
    apply in_or_app. right. left. reflexivity.
Qed.
End ProviderFacts.

Lemma addApiKey_then_offered_witness :
  exists added,
    keysOf "bob" (snd (addApiKey {| ab_provider := Some "openai";
                                    ab_key := Some "sk-bob"; ab_model := None;
                                    ab_baseUrl := None |} (Some "bob") usersOne))
    = keysOf "bob" usersOne ++ [added] /\
    sk_id added = 3%N /\ sk_provider added = "openai" /\ sk_key added = "sk-bob" /\
    In (customProviderOf added)
       (match fst (getAvailableProviders envNone (Some "bob")
                     (snd (addApiKey {| ab_provider := Some "openai";
                                        ab_key := Some "sk-bob"; ab_model := None;
                                        ab_baseUrl := None |} (Some "bob") usersOne)))
        with
        | Ok providers => providers
        | Throw _ => []
        end).
Proof.
  destruct (addApiKey_then_offered envNone
              {| ab_provider := Some "openai"; ab_key := Some "sk-bob";
                 ab_model := None; ab_baseUrl := None |}
              "bob" usersOne
              (snd (addApiKey {| ab_provider := Some "openai"; ab_key := Some "sk-bob";
                                 ab_model := None; ab_baseUrl := None |}
                              (Some "bob") usersOne))
              {| v_id := 3%N; v_provider := "openai"; v_model := None;
                 v_baseUrl := None; v_isActive := true |})
    as (added & K & Id & _ & Pr & Ky & _ & _ & providers & G & I).
  - discriminate.
  - vm_compute. reflexivity.
  - exists added. split; [exact K|]. split; [exact Id|].
    split; [injection Pr as ->; reflexivity|].
    split; [injection Ky as ->; reflexivity|].
    rewrite G. exact I.
Defined.

Section KeyFacts.
Variable env : ProcessEnv.

Lemma identity_truthy (userId : string) :
  userId <> "" -> truthyStr (Some userId) = true /\ orStr (Some userId) "" = userId.
Proof. destruct userId; [congruence|split; reflexivity]. Qed.

(** [updateApiKey] in one equation, for a caller with an identity. *)
Lemma updateApiKey_spec (keyId : ObjectId) (body : UpdateKeyBody) (userId : string)
      (s : UserStore) :
  userId <> "" ->
  updateApiKey keyId body (Some userId) s =
  if us_reachable s then
    match find (fun x => String.eqb (u_id x) userId) (us_users s) with
    | None => (Ok (Failure 404 "User not found"), s)
    | Some u =>
        match keyById keyId u with
        | None => (Ok (Failure 404 "API key not found"), s)
        | Some apiKey =>
            if forallb validApiKey (updateKey keyId (applyUpdate body) (u_apiKeys u))
            then
              (Ok (Success (viewOf (applyUpdate body apiKey))),
               {| us_reachable := true;
                  us_users :=
                    replaceUser {| u_id := u_id u;
                                   u_apiKeys := updateKey keyId (applyUpdate body)
                                                          (u_apiKeys u) |}
                                (us_users s);
                  us_nextOid := us_nextOid s |})
            else (Ok (Failure 500 "Failed to update API key"), s)
        end
    end
  else (Ok (Failure 500 "Failed to update API key"), s).
Proof.
  intros N. destruct (identity_truthy userId N) as [Tr Or].
  unfold updateApiKey. rewrite Tr, Or. simpl negb. cbv iota.
  unfold tryCatch, bind at 1. unfold findById.
  destruct (us_reachable s) eqn:R; [|reflexivity].
  destruct (find _ (us_users s)) as [u|]; [|reflexivity].
  destruct (keyById keyId u) as [apiKey|]; [|reflexivity].
  unfold bind, saveUser, ret. simpl.
  destruct (forallb validApiKey _); simpl; [rewrite R|]; reflexivity.
Qed.

(** [deleteApiKey] in one equation, for a caller with an identity. *)
Lemma deleteApiKey_spec (keyId : ObjectId) (userId : string) (s : UserStore) :
  userId <> "" ->
  deleteApiKey keyId (Some userId) s =
  if us_reachable s then
    match find (fun x => String.eqb (u_id x) userId) (us_users s) with
    | None => (Ok (Failure 404 "User not found"), s)
    | Some u =>
        match keyById keyId u with
        | None => (Ok (Failure 404 "API key not found"), s)
        | Some apiKey =>
            if forallb validApiKey (removeKey keyId (u_apiKeys u)) then
              (Ok (Success tt),
               {| us_reachable := true;
                  us_users :=
                    replaceUser {| u_id := u_id u;
                                   u_apiKeys := removeKey keyId (u_apiKeys u) |}
                                (us_users s);
                  us_nextOid := us_nextOid s |})
            else (Ok (Failure 500 "Failed to delete API key"), s)
        end
    end
  else (Ok (Failure 500 "Failed to delete API key"), s).
Proof.
  intros N. destruct (identity_truthy userId N) as [Tr Or].
  unfold deleteApiKey. rewrite Tr, Or. simpl negb. cbv iota.
  unfold tryCatch, bind at 1. unfold findById.
  destruct (us_reachable s) eqn:R; [|reflexivity].
  destruct (find _ (us_users s)) as [u|]; [|reflexivity].
  destruct (keyById keyId u) as [apiKey|]; [|reflexivity].
  unfold bind, saveUser, ret. simpl.
  destruct (forallb validApiKey _); simpl; [rewrite R|]; reflexivity.
Qed.

Lemma removeKey_gone (keyId : ObjectId) (ks : list StoredApiKey) (k : StoredApiKey) :
  NoDup (map sk_id ks) -> In k (removeKey keyId ks) -> sk_id k <> keyId.
Proof.
  intros ND. induction ks as [|x ks IH]; simpl; [tauto|].
  inversion ND as [|? ? NI ND']; subst.
  destruct (N.eqb (sk_id x) keyId) eqn:E.
  - apply N.eqb_eq in E. intros I Eq. apply NI. rewrite E, <- Eq.
    apply in_map, I.
  - intros [<-|I]; [apply N.eqb_neq, E|apply (IH ND' I)].
Qed.

Lemma updateKey_at (keyId : ObjectId) (f : StoredApiKey -> StoredApiKey)
      (ks : list StoredApiKey) (k : StoredApiKey) :
  NoDup (map sk_id ks) -> (forall x, sk_id (f x) = sk_id x) ->
  In k (updateKey keyId f ks) -> sk_id k = keyId ->
  exists k0, In k0 ks /\ k = f k0.
Proof.
  intros ND Id. induction ks as [|x ks IH]; simpl; [tauto|].
  inversion ND as [|? ? NI ND']; subst.
  destruct (N.eqb (sk_id x) keyId) eqn:E.
  - apply N.eqb_eq in E. intros [<-|I] Eq.
    + exists x. auto.
    + exfalso. apply NI. rewrite E, <- Eq. apply in_map, I.
  - intros [<-|I] Eq.
    + apply N.eqb_neq in E. congruence.
    + destruct (IH ND' I Eq) as (k0 & I0 & ->). exists k0. auto.
Qed.

Lemma offered_custom (userId : string) (s : UserStore)
      (providers : list ModelProvider) (p : ModelProvider) (keyId : ObjectId) :
  getAvailableProviders env (Some userId) s = (Ok providers, s) ->
  In p providers -> mp_customKeyId p = Some keyId ->
  exists k, In k (keysOf userId s) /\ sk_isActive k = true /\ sk_id k = keyId.
Proof.
  intros G I C. pose proof (defaults_spec env (Some userId) s) as D. cbv zeta in D.
  rewrite D in G. injection G as <-.
  apply in_app_or in I. destruct I as [I|I].
  - exfalso.
    destruct (truthyStr (OPENAI_API_KEY env)), (truthyStr (ANTHROPIC_API_KEY env));
      simpl in I; repeat (destruct I as [<-|I]; [discriminate C|]); destruct I.
  - destruct userId as [|c u]; [simpl in I; contradiction|].
    cbn [truthyStr orStr andb] in I.
    destruct (us_reachable s); [|simpl in I; contradiction].
    apply in_map_iff in I. destruct I as (k & <- & I). apply filter_In in I.
    simpl in C. injection C as C. exists k. tauto.
Qed.

(** X27: a key that was withdrawn is no longer on offer.  For a caller
    whose stored keys have distinct ids: after [deleteApiKey] replied with
    success the key is gone from the caller's keys, and after
    [updateApiKey] replied with success to a request with [isActive:
    false] the key is still stored, inactive; in both cases no provider
    then offered to the caller refers to the key, and the keys of every
    other user are as before. *)
Theorem withdrawn_key_not_offered (keyId : ObjectId) (userId : string)
        (s s1 : UserStore) :
  userId <> "" -> NoDup (map sk_id (keysOf userId s)) ->
  (deleteApiKey keyId (Some userId) s = (Ok (Success tt), s1) ->
   keysOf userId s1 = removeKey keyId (keysOf userId s) /\
   Forall (fun k => sk_id k <> keyId) (keysOf userId s1)) /\
  (forall body view,
      ub_isActive body = Some false ->
      updateApiKey keyId body (Some userId) s = (Ok (Success view), s1) ->
      v_id view = keyId /\ v_isActive view = false /\
      keysOf userId s1 = updateKey keyId (applyUpdate body) (keysOf userId s) /\
      exists k, In k (keysOf userId s1) /\ sk_id k = keyId /\ sk_isActive k = false) /\
  ((deleteApiKey keyId (Some userId) s = (Ok (Success tt), s1) \/
    exists body view,
      ub_isActive body = Some false /\
      updateApiKey keyId body (Some userId) s = (Ok (Success view), s1)) ->
   (forall other, other <> userId -> keysOf other s1 = keysOf other s) /\
   forall providers p,
     getAvailableProviders env (Some userId) s1 = (Ok providers, s1) ->
     In p providers -> mp_customKeyId p <> Some keyId).
Proof.
  intros N ND.
  assert (Del : deleteApiKey keyId (Some userId) s = (Ok (Success tt), s1) ->
                keysOf userId s1 = removeKey keyId (keysOf userId s) /\
                (forall other, other <> userId -> keysOf other s1 = keysOf other s)).
  { rewrite (deleteApiKey_spec keyId userId s N).
    destruct (us_reachable s); [|discriminate].
    unfold keysOf at 2 4.
    destruct (find _ (us_users s)) as [u|] eqn:F; [|discriminate].
    destruct (keyById keyId u); [|discriminate].
    destruct (forallb validApiKey _); [|discriminate].
    intros [= <-]. unfold keysOf. cbn [us_users].
    pose proof (keysOf_replaceUser
                  {| u_id := u_id u; u_apiKeys := removeKey keyId (u_apiKeys u) |}
                  u userId (us_users s) F eq_refl) as K.
    split.
    - rewrite (K userId), String.eqb_refl. reflexivity.
    - intros other D. rewrite (K other). apply String.eqb_neq in D. rewrite D.
      reflexivity. }
  assert (Upd : forall body view,
             ub_isActive body = Some false ->
             updateApiKey keyId body (Some userId) s = (Ok (Success view), s1) ->
             v_id view = keyId /\ v_isActive view = false /\
             keysOf userId s1 = updateKey keyId (applyUpdate body) (keysOf userId s) /\
             (forall other, other <> userId -> keysOf other s1 = keysOf other s)).
  { intros body view A. rewrite (updateApiKey_spec keyId body userId s N).
    destruct (us_reachable s); [|discriminate].
    unfold keysOf at 2 4.
    destruct (find _ (us_users s)) as [u|] eqn:F; [|discriminate].
    destruct (keyById keyId u) as [apiKey|] eqn:K0; [|discriminate].
    destruct (forallb validApiKey _); [|discriminate].
    intros [= <- <-]. unfold keysOf. cbn [us_users].
    pose proof (keysOf_replaceUser
                  {| u_id := u_id u;
                     u_apiKeys := updateKey keyId (applyUpdate body) (u_apiKeys u) |}
                  u userId (us_users s) F eq_refl) as K.
    unfold keyById in K0. apply find_some in K0. destruct K0 as [_ K0].
    apply N.eqb_eq in K0.
    split; [exact K0|]. split; [simpl; rewrite A; reflexivity|]. split.
    - rewrite (K userId), String.eqb_refl. reflexivity.
    - intros other D. rewrite (K other). apply String.eqb_neq in D. rewrite D.
      reflexivity. }
  split; [|split].
  - intros D. destruct (Del D) as [K _]. split; [exact K|].
    apply Forall_forall. intros k I. rewrite K in I.
    apply (removeKey_gone keyId _ k ND I).
  - intros body view A U. destruct (Upd body view A U) as (V1 & V2 & K & _).
    repeat split; try assumption.
    revert U. rewrite (updateApiKey_spec keyId body userId s N).
    destruct (us_reachable s); [|discriminate].
    unfold keysOf in K at 2.
    destruct (find _ (us_users s)) as [u|] eqn:F; [|discriminate].
    destruct (keyById keyId u) as [apiKey|] eqn:K0; [|discriminate].
    intros _. rewrite K. unfold keyById in K0.
    clear - K0 A. induction (u_apiKeys u) as [|x ks IH]; simpl in *; [discriminate|].
    destruct (N.eqb (sk_id x) keyId) eqn:E.
    + exists (applyUpdate body x). simpl. rewrite A. apply N.eqb_eq in E. auto.
    + destruct (IH K0) as (k & I & P). exists k. split; [right; exact I|exact P].
  - intros [D|(body & view & A & U)].
    + destruct (Del D) as [K O]. split; [exact O|].
      intros providers p G I C.
      destruct (offered_custom userId s1 providers p keyId G I C) as (k & Ik & _ & E).
      rewrite K in Ik. apply (removeKey_gone keyId _ k ND Ik E).
    + destruct (Upd body view A U) as (_ & _ & K & O). split; [exact O|].
      intros providers p G I C.
      destruct (offered_custom userId s1 providers p keyId G I C) as (k & Ik & Act & E).
      rewrite K in Ik.
      destruct (updateKey_at keyId (applyUpdate body) _ k ND (fun x => eq_refl) Ik E)
        as (k0 & _ & ->).
      simpl in Act. rewrite A in Act. discriminate.
Qed.

(** X28: the key handlers never throw, a request they refuse or fail
    leaves every stored user as it was, a caller without identity is
    answered 401, and whatever the outcome the keys of users other than
    the caller are not changed. *)
Theorem key_handlers_contained (reqUserId : option string) (s : UserStore) :
  let contained := fun (A : Type) (run : Result (Reply A) * UserStore) =>
    exists reply,
      fst run = Ok reply /\
      (forall status error, reply = Failure status error ->
                            us_users (snd run) = us_users s) /\
      (truthyStr reqUserId = false -> reply = Failure 401 "Unauthorized") /\
      (forall other, other <> orStr reqUserId "" ->
                     keysOf other (snd run) = keysOf other s) in
  (forall body, contained _ (addApiKey body reqUserId s)) /\
  (forall keyId body, contained _ (updateApiKey keyId body reqUserId s)) /\
  (forall keyId, contained _ (deleteApiKey keyId reqUserId s)).
Proof.
  intros contained.
  assert (Anonymous : truthyStr reqUserId = false ->
            (forall body, addApiKey body reqUserId s
                          = (Ok (Failure 401 "Unauthorized"), s)) /\
            (forall keyId body, updateApiKey keyId body reqUserId s
                                = (Ok (Failure 401 "Unauthorized"), s)) /\
            (forall keyId, deleteApiKey keyId reqUserId s
                           = (Ok (Failure 401 "Unauthorized"), s))).
  { intros Tr. unfold addApiKey, updateApiKey, deleteApiKey. rewrite Tr.
    repeat split. }
  destruct (truthyStr reqUserId) eqn:Tr.
  2:{ destruct (Anonymous eq_refl) as (A1 & A2 & A3).
      repeat split; intros; rewrite ?A1, ?A2, ?A3; eexists; simpl;
        (split; [reflexivity|]); auto. }
  clear Anonymous.
  assert (exists userId, reqUserId = Some userId /\ userId <> "") as (userId & -> & N).
  { destruct reqUserId as [[|c u]|]; try discriminate. eexists. split; [reflexivity|].
    discriminate. }
  destruct (identity_truthy userId N) as [_ Or]. unfold contained. rewrite Or.
  assert (Same : forall (A : Type) status error,
             exists reply : Reply A,
               Ok (Failure status error) = Ok reply /\
               (forall status0 error0, reply = Failure status0 error0 ->
                                       us_users s = us_users s) /\
               (true = false -> reply = Failure 401 "Unauthorized") /\
               (forall other, other <> userId -> keysOf other s = keysOf other s)).
  { intros A status error. eexists. split; [reflexivity|].
    repeat split; auto. discriminate. }
  split; [|split].
  - intros body. rewrite (addApiKey_spec body userId s N).
    destruct (_ || _); [apply Same|].
    destruct (us_reachable s); [|apply Same].
    destruct (find _ (us_users s)) as [u|] eqn:F; [|apply Same].
    destruct (forallb validApiKey _).
    + eexists. simpl. split; [reflexivity|]. split; [discriminate|].
      split; [discriminate|]. intros other D. unfold keysOf. cbn [us_users].
      erewrite keysOf_replaceUser; [|exact F|reflexivity].
      apply String.eqb_neq in D. rewrite D. reflexivity.
    + eexists. simpl. split; [reflexivity|]. repeat split; auto. discriminate.
  - intros keyId body. rewrite (updateApiKey_spec keyId body userId s N).
    destruct (us_reachable s); [|apply Same].
    destruct (find _ (us_users s)) as [u|] eqn:F; [|apply Same].
    destruct (keyById keyId u); [|apply Same].
    destruct (forallb validApiKey _); [|apply Same].
    eexists. simpl. split; [reflexivity|]. split; [discriminate|].
    split; [discriminate|]. intros other D. unfold keysOf. cbn [us_users].
    erewrite keysOf_replaceUser; [|exact F|reflexivity].
    apply String.eqb_neq in D. rewrite D. reflexivity.
  - intros keyId. rewrite (deleteApiKey_spec keyId userId s N).
    destruct (us_reachable s); [|apply Same].
    destruct (find _ (us_users s)) as [u|] eqn:F; [|apply Same].
    destruct (keyById keyId u); [|apply Same].
    destruct (forallb validApiKey _); [|apply Same].
    eexists. simpl. split; [reflexivity|]. split; [discriminate|].
    split; [discriminate|]. intros other D. unfold keysOf. cbn [us_users].
    erewrite keysOf_replaceUser; [|exact F|reflexivity].
    apply String.eqb_neq in D. rewrite D. reflexivity.
Qed.
End KeyFacts.

Lemma withdrawn_key_not_offered_witness :
  keysOf "alice" (snd (deleteApiKey 1%N (Some "alice") usersOne))
  = removeKey 1%N (keysOf "alice" usersOne) /\
  Forall (fun k => sk_id k <> 1%N)
         (keysOf "alice" (snd (deleteApiKey 1%N (Some "alice") usersOne))).
Proof.
  apply (withdrawn_key_not_offered envNone 1%N "alice" usersOne
           (snd (deleteApiKey 1%N (Some "alice") usersOne))).
  - discriminate.
  - vm_compute. repeat constructor; simpl; intuition discriminate.
  - vm_compute. reflexivity.
Defined.

(* ================================================================== *)
(** ** The handlers of the knowledge graph *)

Section HandlerFacts.
Context {T : Type} `{Number T}.
Variable env : ProcessEnv.
Variable ext : External T.
Variable extnameLower : string -> string.


End HandlerFacts.

Section UploadFacts.
Context {T : Type} `{Number T}.
Variable env : ProcessEnv.
Variable ext : External T.
Variable extnameLower : string -> string.

(** The state after the uploaded file was removed. *)
Lemma uploadDocument_run (file : KnowledgeController.UploadedFile)
      (reqUserId : option string) (st : KnowledgeController.Upload) (content held : string) :
  KnowledgeController.contentOf
    (extnameLower (KnowledgeController.f_originalname file)) file st
  = (Ok (Some content), st) ->
  KnowledgeController.up_files st (KnowledgeController.f_path file) = Some held ->
  KnowledgeController.uploadDocument env ext extnameLower (Some file) reqUserId st =
  let run := processDocument env ext content (orStr reqUserId "anonymous")
               (Some (KnowledgeController.f_originalname file))
               (KnowledgeController.up_world st) in
  (Ok match fst run with
      | Ok result =>
          Success {| KnowledgeController.ud_filename :=
                       KnowledgeController.f_originalname file;
                     KnowledgeController.ud_summary := pr_summary result;
                     KnowledgeController.ud_nodesCount := List.length (pr_nodes result);
                     KnowledgeController.ud_relationsCount :=
                       List.length (pr_relations result);
                     KnowledgeController.ud_nodes := pr_nodes result;
                     KnowledgeController.ud_relations := pr_relations result |}
      | Throw _ => Failure 500 "Failed to process document"
      end,
   {| KnowledgeController.up_world := snd run;
      KnowledgeController.up_files :=
        fun p => if String.eqb p (KnowledgeController.f_path file) then None
                 else KnowledgeController.up_files st p |}).
Proof.
  intros C F. unfold KnowledgeController.uploadDocument.
  unfold tryCatch at 1. unfold tryCatch at 1. unfold bind at 1. rewrite C.
  unfold bind at 1. unfold KnowledgeController.onWorld at 1.
  destruct (processDocument env ext content _ _ _) as [[result|msg] w1]; simpl.
  - unfold bind, KnowledgeController.unlink, ret. simpl. rewrite F. reflexivity.
  - unfold bind, tryCatch, KnowledgeController.unlink, throw, ret. simpl.
    rewrite F. reflexivity.
Qed.

(** X30: uploads.  The handler never throws.  Without a file, and for a
    file type other than [.txt], [.md], [.pdf] and [.docx], it replies
    400 and changes nothing: in the second case the uploaded file is left
    in the upload directory.  For the four types, an uploaded file that
    is in place is removed whether processing succeeds (200, with the
    counts of the nodes and relations returned) or fails (500), and no
    other file is touched.  For [.pdf] and [.docx] the graph and the reply
    are those of processing a fixed placeholder sentence, whatever the
    file holds: a successful upload returns one node, whose content is
    the placeholder. *)
Theorem uploadDocument_cleanup (file : KnowledgeController.UploadedFile)
        (reqUserId : option string) (st : KnowledgeController.Upload) :
  let fileType := extnameLower (KnowledgeController.f_originalname file) in
  let path := KnowledgeController.f_path file in
  let upload := KnowledgeController.uploadDocument env ext extnameLower in
  upload None reqUserId st = (Ok (Failure 400 "No file uploaded"), st) /\
  exists reply st1,
    upload (Some file) reqUserId st = (Ok reply, st1) /\
    (KnowledgeController.supported fileType = false ->
     reply = Failure 400 "Unsupported file type" /\ st1 = st) /\
    (KnowledgeController.supported fileType = true ->
     KnowledgeController.up_files st path <> None ->
     KnowledgeController.up_files st1 path = None /\
     (forall p, p <> path ->
                KnowledgeController.up_files st1 p = KnowledgeController.up_files st p) /\
     (reply = Failure 500 "Failed to process document" \/
      exists data,
        reply = Success data /\
        KnowledgeController.ud_filename data = KnowledgeController.f_originalname file /\
        KnowledgeController.ud_nodesCount data
        = List.length (KnowledgeController.ud_nodes data) /\
        KnowledgeController.ud_relationsCount data
        = List.length (KnowledgeController.ud_relations data))) /\
    (forall placeholder,
        (fileType = ".pdf" /\
         placeholder = "PDF content extraction not implemented yet") \/
        (fileType = ".docx" /\
         placeholder = "DOCX content extraction not implemented yet") ->
        KnowledgeController.up_files st path <> None ->
        KnowledgeController.up_world st1
        = snd (processDocument env ext placeholder (orStr reqUserId "anonymous")
                 (Some (KnowledgeController.f_originalname file))
                 (KnowledgeController.up_world st)) /\
        forall data, reply = Success data ->
                     map (@n_content T) (KnowledgeController.ud_nodes data)
                     = [placeholder]).
Proof.
  intros fileType path upload. split; [reflexivity|].
  assert (Run : forall content held,
             KnowledgeController.contentOf fileType file st = (Ok (Some content), st) ->
             KnowledgeController.up_files st path = Some held ->
             exists reply st1,
               upload (Some file) reqUserId st = (Ok reply, st1) /\
               KnowledgeController.up_files st1 path = None /\
               (forall p, p <> path ->
                  KnowledgeController.up_files st1 p = KnowledgeController.up_files st p) /\
               KnowledgeController.up_world st1
               = snd (processDocument env ext content (orStr reqUserId "anonymous")
                        (Some (KnowledgeController.f_originalname file))
                        (KnowledgeController.up_world st)) /\
               (reply = Failure 500 "Failed to process document" \/
                exists data,
                  reply = Success data /\
                  KnowledgeController.ud_filename data
                  = KnowledgeController.f_originalname file /\
                  KnowledgeController.ud_nodesCount data
                  = List.length (KnowledgeController.ud_nodes data) /\
                  KnowledgeController.ud_relationsCount data
                  = List.length (KnowledgeController.ud_relations data) /\
                  exists w1,
                    processDocument env ext content (orStr reqUserId "anonymous")
                      (Some (KnowledgeController.f_originalname file))
                      (KnowledgeController.up_world st)
                    = (Ok {| pr_nodes := KnowledgeController.ud_nodes data;
                             pr_relations := KnowledgeController.ud_relations data;
                             pr_summary := KnowledgeController.ud_summary data |}, w1))).
  { intros content held C F. unfold upload.
    rewrite (uploadDocument_run file reqUserId st content held C F). cbv zeta.
    eexists _, _. split; [reflexivity|]. simpl.
    split; [unfold path; rewrite String.eqb_refl; reflexivity|].
    split; [intros p D; apply String.eqb_neq in D; unfold path in D; rewrite D;
            reflexivity|].
    split; [reflexivity|].
    destruct (processDocument env ext content _ _ _) as [[result|msg] w1] eqn:P;
      simpl; [right|left; reflexivity].
    eexists. split; [reflexivity|]. simpl. repeat split.
    exists w1. destruct result. reflexivity. }
  unfold KnowledgeController.supported.
  destruct (String.eqb fileType ".txt" || String.eqb fileType ".md") eqn:Text.
  { destruct (KnowledgeController.up_files st path) as [held|] eqn:F.
    - assert (C : KnowledgeController.contentOf fileType file st = (Ok (Some held), st)).
      { unfold KnowledgeController.contentOf. rewrite Text.
        unfold bind, KnowledgeController.readFile, ret. fold path. rewrite F.
        reflexivity. }
      destruct (Run held held C eq_refl) as (reply & st1 & U & Gone & Others & _ & R).
      exists reply, st1. split; [exact U|]. split; [discriminate|]. split.
      + intros _ _. split; [exact Gone|]. split; [exact Others|].
        destruct R as [R|(data & R1 & R2 & R3 & R4 & _)]; [left; exact R|right].
        exists data. auto.
      + intros placeholder [[E _]|[E _]]; rewrite E in Text; discriminate.
    - eexists _, st. split.
      + unfold upload, KnowledgeController.uploadDocument.
        unfold tryCatch at 1. unfold tryCatch at 1. unfold bind at 1.
        unfold KnowledgeController.contentOf. fold fileType. rewrite Text.
        unfold bind at 1, KnowledgeController.readFile. fold path. rewrite F.
        unfold bind, tryCatch, KnowledgeController.unlink, throw, ret.
        fold path. rewrite F. reflexivity.
      + split; [discriminate|]. split; [intros _ N; congruence|].
        intros placeholder _ N. congruence. }
  simpl.
  destruct (String.eqb fileType ".pdf") eqn:Pdf.
  { apply String.eqb_eq in Pdf.
    assert (C : KnowledgeController.contentOf fileType file st
                = (Ok (Some "PDF content extraction not implemented yet"), st)).
    { unfold KnowledgeController.contentOf. rewrite Text, Pdf. reflexivity. }
    destruct (KnowledgeController.up_files st path) as [held|] eqn:F.
    - destruct (Run _ held C eq_refl) as (reply & st1 & U & Gone & Others & W & R).
      exists reply, st1. split; [exact U|]. split; [discriminate|]. split.
      + intros _ _. split; [exact Gone|]. split; [exact Others|].
        destruct R as [R|(data & R1 & R2 & R3 & R4 & _)]; [left; exact R|right].
        exists data. auto.
      + intros placeholder [[_ ->]|[E _]] _; [|rewrite Pdf in E; discriminate].
        split; [exact W|]. intros data ->.
        destruct R as [R|(data' & [= <-] & _ & _ & _ & w1 & P)]; [discriminate|].
        apply (processDocument_contents env ext _ _ _ _ _ _) in P.
        simpl in P. exact P.
    - destruct (upload (Some file) reqUserId st) as [r st1] eqn:U.
      assert (exists reply, r = Ok reply) as (reply & ->).
      { revert U. unfold upload, KnowledgeController.uploadDocument.
        unfold tryCatch at 1.
        match goal with
        | |- context [tryCatch ?body ?handler st] =>
            destruct (tryCatch body handler st) as [[a|m] s']
        end; unfold ret; intros [= <- _]; eexists; reflexivity. }
      exists reply, st1. split; [reflexivity|]. split; [discriminate|].
      split; [intros _ N; congruence|]. intros placeholder _ N. congruence. }
  destruct (String.eqb fileType ".docx") eqn:Docx.
  { apply String.eqb_eq in Docx.
    assert (C : KnowledgeController.contentOf fileType file st
                = (Ok (Some "DOCX content extraction not implemented yet"), st)).
    { unfold KnowledgeController.contentOf. rewrite Text, Docx. reflexivity. }
    destruct (KnowledgeController.up_files st path) as [held|] eqn:F.
    - destruct (Run _ held C eq_refl) as (reply & st1 & U & Gone & Others & W & R).
      exists reply, st1. split; [exact U|]. split; [discriminate|]. split.
      + intros _ _. split; [exact Gone|]. split; [exact Others|].
        destruct R as [R|(data & R1 & R2 & R3 & R4 & _)]; [left; exact R|right].
        exists data. auto.
      + intros placeholder [[E _]|[_ ->]] _; [rewrite Docx in E; discriminate|].
        split; [exact W|]. intros data ->.
        destruct R as [R|(data' & [= <-] & _ & _ & _ & w1 & P)]; [discriminate|].
        apply (processDocument_contents env ext _ _ _ _ _ _) in P.
        simpl in P. exact P.
    - destruct (upload (Some file) reqUserId st) as [r st1] eqn:U.
      assert (exists reply, r = Ok reply) as (reply & ->).
      { revert U. unfold upload, KnowledgeController.uploadDocument.
        unfold tryCatch at 1.
        match goal with
        | |- context [tryCatch ?body ?handler st] =>
            destruct (tryCatch body handler st) as [[a|m] s']
        end; unfold ret; intros [= <- _]; eexists; reflexivity. }
      exists reply, st1. split; [reflexivity|]. split; [discriminate|].
      split; [intros _ N; congruence|]. intros placeholder _ N. congruence. }
  eexists _, st. split.
  - unfold upload, KnowledgeController.uploadDocument.
    unfold tryCatch at 1. unfold tryCatch at 1. unfold bind at 1.
    unfold KnowledgeController.contentOf. fold fileType. rewrite Text, Pdf, Docx.
    reflexivity.
  - split; [auto|]. split; [discriminate|].
    intros placeholder [[E _]|[E _]]; rewrite E in *; discriminate.
Qed.
End UploadFacts.

(** A PDF is uploaded: the file is removed and one node is returned, made
    of the placeholder. *)
Lemma uploadDocument_cleanup_witness :
  exists data st1,
    KnowledgeController.uploadDocument envOpenAI extStub lastFour (Some reportFile)
      (Some "alice") uploadOne = (Ok (Success data), st1) /\
    KnowledgeController.up_files st1 "uploads/document-1.pdf" = None /\
    map (@n_content float) (KnowledgeController.ud_nodes data)
    = ["PDF content extraction not implemented yet"].
Proof.
  destruct (uploadDocument_cleanup envOpenAI extStub lastFour reportFile (Some "alice")
              uploadOne) as (_ & reply & st1 & U & _ & Supported & Placeholder).
  destruct (Supported eq_refl) as (Gone & _ & R); [discriminate|].
  destruct (Placeholder "PDF content extraction not implemented yet"
              (or_introl (conj eq_refl eq_refl))) as (_ & Nodes); [discriminate|].
  destruct R as [R|(data & -> & _)].
  - exfalso. rewrite R in U.
    assert (E : fst (KnowledgeController.uploadDocument envOpenAI extStub lastFour
                       (Some reportFile) (Some "alice") uploadOne)
                = Ok (Failure 500 "Failed to process document"))
      by (rewrite U; reflexivity).
    vm_compute in E. discriminate E.
  - exists data, st1. split; [exact U|]. split; [exact Gone|].
    apply Nodes. reflexivity.
Defined.
